(** * Edge-set-attention training code: a shallow embedding

    The development follows the Python sources file by file:

    - [gnn/train.py]                                   ([Module GnnTrain])
    - [graphgps_graph/graphgps/train/custom_train.py]  ([Module CustomTrain])
    - [graphgps_node/graphgps/loader/master_loader.py] ([Module MasterLoader])
    - [graphormer_tokengt/tokengt/collating_tokengt.py] ([Module Tokengt])
    - [transfer_learning/graphgps_3d/main.py]          ([Module TransferMain])

    Python exceptions are values of [exn]; a call into a third-party
    library (torch, numpy, wandb, pytorch-lightning, graphgym) is an
    [event] in the trace of the run, and what the library returns is a
    parameter of the model. *)

From Stdlib Require Import ZArith QArith Qabs Qminmax Ascii String Sorted.
From stdpp Require Import base tactics option list strings gmap.

Local Open Scope string_scope.
Local Open Scope list_scope.
Local Open Scope Z_scope.

(** ** Python exceptions and results *)

Inductive exn : Type :=
| AssertionError (msg : string)
| ImportError (msg : string)
| ModuleNotFoundError (msg : string)
| IndexError (msg : string)
| KeyError (key : string)
| TypeError (msg : string)
| ValueError (msg : string)
| ZeroDivisionError
| UnboundLocalError (var : string)
| LinAlgError (msg : string)
| RuntimeError (msg : string).

(** [isinstance(e, ImportError)]: [ModuleNotFoundError] is a subclass. *)
Definition is_import_error (e : exn) : bool :=
  match e with
  | ImportError _ | ModuleNotFoundError _ => true
  | _ => false
  end.

Definition is_assertion_error (e : exn) : bool :=
  match e with AssertionError _ => true | _ => false end.

Inductive result (A : Type) : Type :=
| Ok (a : A)
| Raise (e : exn).
Arguments Ok {A} a.
Arguments Raise {A} e.

(** ** Runs with a trace

    [run E A] is a computation that emits events of type [E] and either
    returns an [A] or raises.  The events emitted before an exception
    are kept. *)

Definition run (E A : Type) : Type := list E * result A.

Definition ret {E A} (a : A) : run E A := ([], Ok a).
Definition raise {E A} (e : exn) : run E A := ([], Raise e).
Definition emit {E} (ev : E) : run E unit := ([ev], Ok tt).

Definition bind {E A B} (m : run E A) (f : A -> run E B) : run E B :=
  match m with
  | (t, Raise e) => (t, Raise e)
  | (t, Ok a) => let '(t', r) := f a in (t ++ t', r)
  end.

#[global] Instance run_ret {E} : MRet (run E) := fun A a => ret a.
#[global] Instance run_bind {E} : MBind (run E) := fun A B f m => bind m f.

Definition lift {E A} (r : result A) : run E A := ([], r).

(** An external call that returns nothing and may raise. *)
Definition call {E} (ev : E) (fails : option exn) : run E unit :=
  match fails with
  | None => ([ev], Ok tt)
  | Some e => ([ev], Raise e)
  end.

Definition trace_of {E A} (m : run E A) : list E := fst m.
Definition outcome {E A} (m : run E A) : result A := snd m.

(** ** [os.path] on POSIX *)

Definition starts_with_sep (s : string) : bool :=
  match s with
  | String c _ => if Ascii.eqb c "/"%char then true else false
  | EmptyString => false
  end.

Fixpoint ends_with_sep (s : string) : bool :=
  match s with
  | EmptyString => false
  | String c EmptyString => Ascii.eqb c "/"%char
  | String _ s' => ends_with_sep s'
  end.

(** [posixpath.join(a, b)] with one component [b]. *)
Definition os_path_join (a b : string) : string :=
  if starts_with_sep b then b
  else if (String.length a =? 0)%nat || ends_with_sep a then a +:+ b
  else a +:+ "/" +:+ b.

(** [needle in haystack] on Python strings. *)
Fixpoint str_contains (needle haystack : string) : bool :=
  String.prefix needle haystack ||
  match haystack with
  | EmptyString => false
  | String _ h => str_contains needle h
  end.

(** * gnn/train.py *)

Module GnnTrain.

(** The namespace built by the [argparse] parser of [main]: an option
    declared with a [default] always has a value, the others are [None]
    when the flag is absent.  A JSON configuration read through
    [--config-json-path] holds the same keys. *)
Record argsdict : Type := {
  seed : option Z;
  dataset : option string;
  dataset_download_dir : option string;
  dataset_one_hot : bool;
  dataset_target_name : option string;
  output_node_dim : Z;
  num_layers : Z;
  conv_type : option string;
  gnn_intermediate_dim : Z;
  gat_attn_heads : Z;
  gat_dropout : Q;
  batch_size : Z;
  lr : option Q;
  monitor_loss_name : option string;
  gradient_clip_val : Q;
  optimiser_weight_decay : Q;
  regression_loss_fn : option string;
  early_stopping_patience : Z;
  train_regime : option string;
  ckpt_path : option string;
  out_path : option string;
  config_json_path : option string;
  wandb_project_name : option string
}.

(** [del argsdict["config_json_path"]] *)
Definition del_config_json_path (a : argsdict) : argsdict :=
  {| seed := seed a; dataset := dataset a;
     dataset_download_dir := dataset_download_dir a;
     dataset_one_hot := dataset_one_hot a;
     dataset_target_name := dataset_target_name a;
     output_node_dim := output_node_dim a; num_layers := num_layers a;
     conv_type := conv_type a;
     gnn_intermediate_dim := gnn_intermediate_dim a;
     gat_attn_heads := gat_attn_heads a; gat_dropout := gat_dropout a;
     batch_size := batch_size a; lr := lr a;
     monitor_loss_name := monitor_loss_name a;
     gradient_clip_val := gradient_clip_val a;
     optimiser_weight_decay := optimiser_weight_decay a;
     regression_loss_fn := regression_loss_fn a;
     early_stopping_patience := early_stopping_patience a;
     train_regime := train_regime a; ckpt_path := ckpt_path a;
     out_path := out_path a; config_json_path := None;
     wandb_project_name := wandb_project_name a |}.

(** What [get_dataset_train_val_test] hands back, as far as [main] looks
    at it. *)
Record loaded_data : Type := {
  train_len : nat;
  train0_has_edge_attr : bool
}.

Inductive artifact : Type := TestOutput | TestTrue | TestMetrics.

Inductive event : Type :=
| EvLoadJson (path : string)
| EvValidate (a : argsdict)
| EvSeedEverything (s : option Z)
| EvGetDataset (node_level : bool) (name : string)
| EvDataLoader (split : string) (bs : Z) (shuffle : bool)
| EvMkdir (path : string)
| EvSaveJson (dir : string)
| EvWandbLogger (name : string)
| EvModelCheckpoint (monitor dirpath mode : string)
| EvEarlyStopping (monitor : string) (patience : Z) (mode : string)
| EvEstimator (with_pna_train : bool)
| EvTrainer (precision accelerator : string)
| EvFit (ckpt : option string)
| EvTest (ckpt : string)
| EvNpSave (path : string) (what : artifact)
| EvWandbSave (path : string)
| EvWandbFinish.

(** The functions of [gnn.config] and [data_loading] and the library
    calls of [main]: what they return, or the exception they raise. *)
Record world : Type := {
  load_gnn_arguments_from_json : string -> result argsdict;
  validate_gnn_argparse_arguments : argsdict -> option exn;
  seed_everything : option Z -> option exn;
  get_dataset_train_val_test : bool -> string -> argsdict -> result loaded_data;
  get_gnn_wandb_name : argsdict -> string;
  save_gnn_arguments_to_json : argsdict -> string -> string;
  estimator_init : option exn;
  trainer_fit : option exn;
  trainer_test : option exn
}.

Definition regression_datasets : list string :=
  ["ESOL"; "FreeSolv"; "Lipo"; "QM9"; "DOCKSTRING"; "ZINC"; "PCQM4Mv2";
   "lrgb-pept-struct"].

Definition target_datasets : list string := ["QM9"; "DOCKSTRING"].

Definition not_iterable : exn :=
  TypeError "argument of type 'NoneType' is not iterable".

(** [x in l] where [x] may be [None]. *)
Definition opt_in (x : option string) (l : list string) : bool :=
  match x with
  | Some s => bool_decide (s ∈ l)
  | None => false
  end.

(** [needle in x]: a [TypeError] when [x] is [None]. *)
Definition contains (needle : string) (x : option string) : result bool :=
  match x with
  | Some s => Ok (str_contains needle s)
  | None => Raise not_iterable
  end.

Definition check_is_node_level_dataset (dataset_name : option string)
  : result bool :=
  if opt_in dataset_name ["PPI"; "Cora"; "CiteSeer"] then Ok true
  else match contains "infected" dataset_name with
       | Raise e => Raise e
       | Ok true => Ok true
       | Ok false =>
           match contains "hetero" dataset_name with
           | Raise e => Raise e
           | Ok true => Ok true
           | Ok false => Ok false
           end
       end.

(** [if len(train) % batch_size == 1: batch_size += 1] *)
Definition adjust_batch_size (n : nat) (bs : Z) : result Z :=
  if bs =? 0 then Raise ZeroDivisionError
  else if Z.of_nat n mod bs =? 1 then Ok (bs + 1) else Ok bs.

(** [os.path.join] raises on [None]. *)
Definition join_opt (a : option string) (b : string) : result string :=
  match a with
  | Some a => Ok (os_path_join a b)
  | None =>
      Raise (TypeError "expected str, bytes or os.PathLike object, not NoneType")
  end.

Definition is_data_loading (ev : event) : bool :=
  match ev with
  | EvGetDataset _ _ | EvDataLoader _ _ _ => true
  | _ => false
  end.

Definition is_np_save (ev : event) : bool :=
  match ev with EvNpSave _ _ => true | _ => false end.

(** A regression dataset without [--regression-loss-fn]. *)
Definition missing_loss_fn (a : argsdict) : bool :=
  opt_in (dataset a) regression_datasets
  && bool_decide (regression_loss_fn a = None).

(** QM9 or DOCKSTRING without [--dataset-target-name]. *)
Definition missing_target (a : argsdict) : bool :=
  opt_in (dataset a) target_datasets
  && bool_decide (dataset_target_name a = None).

Section Main.
Variable w : world.

(** Lines 85-91: the arguments come from the JSON file or from the
    command line. *)
Definition read_arguments (args : argsdict) : run event argsdict :=
  match config_json_path args with
  | Some path =>
      if negb (String.length path =? 0)%nat then
        emit (EvLoadJson path);;
        argsdict ← lift (load_gnn_arguments_from_json w path);
        call (EvValidate argsdict) (validate_gnn_argparse_arguments w argsdict);;
        mret argsdict
      else
        call (EvValidate args) (validate_gnn_argparse_arguments w args);;
        mret (del_config_json_path args)
  | None =>
      call (EvValidate args) (validate_gnn_argparse_arguments w args);;
      mret (del_config_json_path args)
  end.

(** Lines 114-121: the monitored loss and the two assertions. *)
Definition check_arguments (argsdict : argsdict) : run event string :=
  let dataset := dataset argsdict in
  let target_name := dataset_target_name argsdict in
  let regr_fn := regression_loss_fn argsdict in
  has_mcc ← lift (if bool_decide (monitor_loss_name argsdict = Some "MCC")
                  then Ok true
                  else contains "MCC" (monitor_loss_name argsdict));
  let monitor_loss_name :=
    if has_mcc : bool then "Validation MCC"
    else default "" (monitor_loss_name argsdict) in
  (if opt_in dataset regression_datasets then
     if regr_fn is Some _ then mret tt
     else raise (AssertionError
                   "A loss functions must be specified for regression tasks!")
   else mret tt);;
  (if opt_in dataset target_datasets then
     if target_name is Some _ then mret tt
     else raise (AssertionError
                   "A target must be specified for QM9 and DOCKSTRING!")
   else mret tt);;
  mret monitor_loss_name.

(** Lines 123-151: data loading and the three loaders. *)
Definition load_data (argsdict : argsdict) : run event (loaded_data * Z) :=
  let dataset := dataset argsdict in
  node_level ← lift (check_is_node_level_dataset dataset);
  emit (EvGetDataset node_level (default "" dataset));;
  data ← lift (get_dataset_train_val_test w node_level (default "" dataset)
                 argsdict);
  batch_size ← lift (adjust_batch_size (train_len data) (batch_size argsdict));
  (if (train_len data =? 0)%nat
   then raise (IndexError "list index out of range") else mret tt);;
  emit (EvDataLoader "train" batch_size true);;
  emit (EvDataLoader "val" batch_size false);;
  emit (EvDataLoader "test" batch_size false);;
  mret (data, batch_size).

(** Lines 154-228: output directory, callbacks, model, fit and test. *)
Definition train_and_test (argsdict : argsdict) (monitor_loss_name : string)
  : run event (string * string) :=
  let run_name := get_gnn_wandb_name w argsdict in
  output_save_dir ← lift (join_opt (out_path argsdict) run_name);
  emit (EvMkdir output_save_dir);;
  emit (EvSaveJson output_save_dir);;
  let config_json_path :=
    save_gnn_arguments_to_json w argsdict output_save_dir in
  emit (EvWandbLogger run_name);;
  let monitor_mode :=
    if str_contains "MCC" monitor_loss_name then "max" else "min" in
  emit (EvModelCheckpoint monitor_loss_name output_save_dir monitor_mode);;
  emit (EvEarlyStopping monitor_loss_name (early_stopping_patience argsdict)
          monitor_mode);;
  let train_regime := train_regime argsdict in
  call (EvEstimator (bool_decide (conv_type argsdict = Some "PNA")))
       (estimator_init w);;
  let precision :=
    if bool_decide (train_regime = Some "gpu-bf16") then "bf16-mixed"
    else if bool_decide (train_regime = Some "gpu-fp16") then "16-mixed"
    else "32" in
  gpu ← lift (contains "gpu" train_regime);
  emit (EvTrainer precision (if gpu : bool then "gpu" else "cpu"));;
  call (EvFit (ckpt_path argsdict)) (trainer_fit w);;
  call (EvTest "best") (trainer_test w);;
  mret (output_save_dir, config_json_path).

(** Lines 230-248: the test arrays are written and uploaded. *)
Definition save_test_metrics (output_save_dir config_json_path : string)
  : run event unit :=
  let preds_path := os_path_join output_save_dir "test_y_pred.npy" in
  let true_path := os_path_join output_save_dir "test_y_true.npy" in
  let metrics_path := os_path_join output_save_dir "test_metrics.npy" in
  emit (EvNpSave preds_path TestOutput);;
  emit (EvNpSave true_path TestTrue);;
  emit (EvNpSave metrics_path TestMetrics);;
  emit (EvWandbSave preds_path);;
  emit (EvWandbSave true_path);;
  emit (EvWandbSave metrics_path);;
  emit (EvWandbSave config_json_path);;
  emit EvWandbFinish.

Definition main (args : argsdict) : run event unit :=
  argsdict ← read_arguments args;
  call (EvSeedEverything (seed argsdict)) (seed_everything w (seed argsdict));;
  monitor_loss_name ← check_arguments argsdict;
  _ ← load_data argsdict;
  '(output_save_dir, config_json_path) ← train_and_test argsdict monitor_loss_name;
  save_test_metrics output_save_dir config_json_path.

End Main.

(** ** The batches of a [DataLoader]

    [torch.utils.data.BatchSampler] with [drop_last=False]: indices are
    collected into [batch] and yielded whenever [batch_size] of them are
    there; what is left at the end is yielded as a last, shorter batch. *)
Fixpoint batch_sampler {A} (batch_size : nat) (sampler : list A)
    (batch : list A) : list (list A) :=
  match sampler with
  | [] => match batch with [] => [] | _ => [batch] end
  | idx :: rest =>
      let batch := batch ++ [idx] in
      if (length batch =? batch_size)%nat
      then batch :: batch_sampler batch_size rest []
      else batch_sampler batch_size rest batch
  end.

(** The batches of the training loader of [main] on the samples [perm],
    in the order in which the shuffling loader visits them, for a
    positive batch size. *)
Definition train_batches (perm : list nat) (bs : Z) : list (list nat) :=
  match adjust_batch_size (length perm) bs with
  | Ok bs' => batch_sampler (Z.to_nat bs') perm []
  | Raise _ => []
  end.

(** ** Sample runs *)

(** A command line for [dataset] with the given monitored loss,
    regression loss and target name. *)
Definition sample_args (dataset monitor regr_fn target : option string)
  : argsdict :=
  {| seed := Some 0; dataset := dataset;
     dataset_download_dir := Some "datasets"; dataset_one_hot := true;
     dataset_target_name := target;
     output_node_dim := 256; num_layers := 4; conv_type := Some "GCN";
     gnn_intermediate_dim := 256; gat_attn_heads := 0; gat_dropout := 0;
     batch_size := 32; lr := Some (1 # 1000);
     monitor_loss_name := monitor;
     gradient_clip_val := 1 # 2; optimiser_weight_decay := 1 # 1000;
     regression_loss_fn := regr_fn; early_stopping_patience := 30;
     train_regime := Some "cpu"; ckpt_path := None; out_path := Some "out";
     config_json_path := None; wandb_project_name := Some "esa" |}.

(** Every check and every library call goes through; the training set
    has 100 graphs. *)
Definition sample_world : world :=
  {| load_gnn_arguments_from_json := fun _ => Raise (ValueError "no such file");
     validate_gnn_argparse_arguments := fun _ => None;
     seed_everything := fun _ => None;
     get_dataset_train_val_test := fun _ _ _ =>
       Ok {| train_len := 100; train0_has_edge_attr := true |};
     get_gnn_wandb_name := fun _ => "GCN-ESOL";
     save_gnn_arguments_to_json := fun _ dir => os_path_join dir "config.json";
     estimator_init := None;
     trainer_fit := None;
     trainer_test := None |}.

End GnnTrain.

(** ** Python containers *)

#[global] Instance result_ret : MRet result := fun A a => Ok a.
#[global] Instance result_bind : MBind result := fun A B f r =>
  match r with Ok a => f a | Raise e => Raise e end.

(** [l[i]] for [0 <= i] *)
Definition py_index {A} (l : list A) (i : nat) : result A :=
  match l !! i with
  | Some x => Ok x
  | None => Raise (IndexError "list index out of range")
  end.

(** [l[-1]] *)
Definition py_last {A} (l : list A) : result A :=
  match last l with
  | Some x => Ok x
  | None => Raise (IndexError "list index out of range")
  end.

(** [d[k]] *)
Definition py_key {V} (d : gmap string V) (k : string) : result V :=
  match d !! k with
  | Some v => Ok v
  | None => Raise (KeyError k)
  end.

(** [range(a, b)] *)
Definition py_range (a b : Z) : list Z :=
  (fun k => a + Z.of_nat k) <$> seq 0 (Z.to_nat (b - a)).

Definition Qltb (x y : Q) : bool := negb (Qle_bool y x).

(** [numpy.ndarray.argmin] and [argmax]: the index of the first entry
    that no other entry beats. *)
Fixpoint arg_first (better : Q -> Q -> bool) (l : list Q) (i best_i : nat)
    (best : Q) : nat :=
  match l with
  | [] => best_i
  | x :: l' =>
      if better x best then arg_first better l' (S i) i x
      else arg_first better l' (S i) best_i best
  end.

Definition np_arg (better : Q -> Q -> bool) (name : string) (l : list Q)
  : result Z :=
  match l with
  | [] => Raise (ValueError ("attempt to get " +:+ name +:+ " of an empty sequence"))
  | x :: l' => Ok (Z.of_nat (arg_first better l' 1 0 x))
  end.

Definition np_argmin : list Q -> result Z := np_arg Qltb "argmin".
Definition np_argmax : list Q -> result Z := np_arg (fun x y => Qltb y x) "argmax".

(** * graphgps/train/custom_train.py *)

Module CustomTrain.

Inductive agg : Type := Argmax | Argmin.

(** The entries of the GraphGym configuration that the training code
    reads. *)
Record config : Type := {
  dataset_name : string;
  dataset_task_type : string;
  gnn_head : string;
  train_auto_resume : bool;
  train_enable_ckpt : bool;
  train_ckpt_best : bool;
  train_ckpt_clean : bool;
  optim_max_epoch : Z;
  optim_early_stopping_patience : Z;
  optim_batch_accumulation : Z;
  optim_clip_grad_norm : bool;
  optim_scheduler : string;
  wandb_use : bool;
  metric_best : string;
  metric_agg : agg
}.

(** One batch of a loader: the number of dimensions of the prediction
    and of the squeezed target that the model returns on it. *)
Record batch : Type := {
  pred_ndim : nat;
  true_ndim : nat
}.

Definition loader : Type := list batch.

(** The dictionary returned by [logger.write_epoch]. *)
Definition stats : Type := gmap string Q.

Inductive event : Type :=
| EvModelTrain
| EvModelEval
| EvForward (split : string) (iter : nat)
| EvBackward (iter : nat)
| EvUnscale (iter : nat)
| EvClipGradNorm (iter : nat) (max_norm : Q)
| EvStep (iter : nat)
| EvScalerUpdate (iter : nat)
| EvZeroGrad (iter : nat)
| EvUpdateStats (split : string) (iter : nat)
| EvWriteEpoch (i : nat) (epoch : Z)
| EvSchedulerStep (loss : option Q)
| EvSaveCkpt (epoch : Z)
| EvCleanCkpt
| EvWandbInit
| EvWandbLog (step : Z)
| EvWandbBest (best_epoch step : Z)
| EvLogEpoch (cur_epoch best_epoch : Z)
| EvStoppingEarly (cur_epoch : Z)
| EvLoggerClose (i : nat)
| EvWandbFinish
| EvTaskDone.

(** [arxiv_cross_entropy]: only the shape test decides whether it
    returns. *)
Definition arxiv_cross_entropy (b : batch) : result unit :=
  if (1 <? pred_ndim b)%nat && (true_ndim b =? 1)%nat then Ok tt
  else Raise (ValueError
         "In ogbn cross_entropy calculation dimensions did not match.").

(** The loss of one batch (lines 40-52 and 99-111). *)
Definition batch_loss (c : config) (b : batch) : result unit :=
  if String.eqb (dataset_name c) "ogbg-code2" then Ok tt
  else if String.eqb (dataset_name c) "ogbn-arxiv" then arxiv_cross_entropy b
  else Ok tt.

(** [a % b] on Python integers. *)
Definition py_mod (a b : Z) : result Z :=
  if b =? 0 then Raise ZeroDivisionError else Ok (a mod b).

Section TrainEpoch.
Variable c : config.

(** The condition of line 57 at index [iter]. *)
Definition steps_at (len_loader : nat) (batch_accumulation : Z) (iter : nat)
  : bool :=
  ((Z.of_nat iter + 1) mod batch_accumulation =? 0)
  || (iter + 1 =? len_loader)%nat.

(** What one iteration that raises nothing does, in the words of the
    training-loop description: forward and backward pass, then, on a
    stepping iteration, the optional clipping followed by the optimizer
    step and the zeroing of the gradients, then the statistics. *)
Definition iteration_events (len_loader : nat) (batch_accumulation : Z)
    (iter : nat) : list event :=
  [EvForward "train" iter; EvBackward iter]
  ++ (if steps_at len_loader batch_accumulation iter then
        (if optim_clip_grad_norm c
         then [EvUnscale iter; EvClipGradNorm iter 1] else [])
        ++ [EvStep iter; EvScalerUpdate iter; EvZeroGrad iter]
      else [])
  ++ [EvUpdateStats "train" iter].

(** The body of the loop of [train_epoch] at index [iter].  The forward
    pass under autocast is one event; the inverse scaling of lines 68-70
    and the update of the statistics are one event, and what the scaler
    or the logger raises there is outside the model. *)
Definition train_iter (len_loader : nat) (batch_accumulation : Z)
    (iter : nat) (b : batch) : run event unit :=
  emit (EvForward "train" iter);;
  lift (batch_loss c b);;
  emit (EvBackward iter);;
  r ← lift (py_mod (Z.of_nat iter + 1) batch_accumulation);
  (if (r =? 0) || (iter + 1 =? len_loader)%nat then
     (if optim_clip_grad_norm c then
        emit (EvUnscale iter);;
        emit (EvClipGradNorm iter 1)
      else mret tt);;
     emit (EvStep iter);;
     emit (EvScalerUpdate iter);;
     emit (EvZeroGrad iter)
   else mret tt);;
  emit (EvUpdateStats "train" iter).

(** [for iter, batch in enumerate(loader)], from index [iter] on. *)
Fixpoint train_iters (len_loader : nat) (batch_accumulation : Z)
    (iter : nat) (batches : list batch) : run event unit :=
  match batches with
  | [] => mret tt
  | b :: rest =>
      train_iter len_loader batch_accumulation iter b;;
      train_iters len_loader batch_accumulation (S iter) rest
  end.

Definition train_epoch (l : loader) (batch_accumulation : Z)
  : run event unit :=
  emit EvModelTrain;;
  train_iters (length l) batch_accumulation 0 l.

Fixpoint eval_iters (split : string) (iter : nat) (batches : list batch)
  : run event unit :=
  match batches with
  | [] => mret tt
  | b :: rest =>
      emit (EvForward split iter);;
      lift (batch_loss c b);;
      emit (EvUpdateStats split iter);;
      eval_iters split (S iter) rest
  end.

Definition eval_epoch (l : loader) (split : string) : run event unit :=
  emit EvModelEval;;
  eval_iters split 0 l.
End TrainEpoch.

(** What surrounds [custom_train]: the loggers and loaders it is handed,
    the checkpoint [load_ckpt] finds, GraphGym's epoch predicates,
    whether [import wandb] works, and the statistics each logger
    reports for an epoch. *)
Record world : Type := {
  loggers : nat;
  loaders : list loader;
  load_ckpt : Z;
  is_eval_epoch : Z -> bool;
  is_ckpt_epoch : Z -> bool;
  import_wandb : option exn;
  write_epoch : nat -> Z -> stats
}.

(** The variables of [custom_train] that live across epochs.
    [best_epoch] is [None] as long as the name is not bound. *)
Record loop_state : Type := {
  perf : list (list stats);
  best_epoch : option Z
}.

Definition split_names : list string := ["val"; "test"].

Definition unbound (var : string) : exn := UnboundLocalError var.

(** Reading the local variable [best_epoch]. *)
Definition read_best_epoch (b : option Z) : result Z :=
  match b with
  | Some z => Ok z
  | None => Raise (unbound "best_epoch")
  end.

(** [perf[i].append(x)] *)
Definition perf_append (perf : list (list stats)) (i : nat) (x : stats)
  : list (list stats) :=
  alter (fun l => l ++ [x]) i perf.

(** [perf[i][best_epoch][key]] *)
Definition perf_at (perf : list (list stats)) (i : nat) (best_epoch : Z)
    (key : string) : result Q :=
  p ← py_index perf i;
  s ← py_index p (Z.to_nat best_epoch);
  py_key s key.

Section Loop.
Variable c : config.
Variable w : world.

(** Lines 178-180: the evaluation splits of an evaluation epoch. *)
Fixpoint eval_splits (cur_epoch : Z) (perf : list (list stats))
    (splits : list nat) : run event (list (list stats)) :=
  match splits with
  | [] => mret perf
  | i :: rest =>
      l ← lift (py_index (loaders w) i);
      name ← lift (py_index split_names (i - 1));
      eval_epoch c l name;;
      emit (EvWriteEpoch i cur_epoch);;
      eval_splits cur_epoch (perf_append perf i (write_epoch w i cur_epoch))
                  rest
  end.

(** Lines 182-183: the last statistics are repeated. *)
Fixpoint repeat_last (perf : list (list stats)) (splits : list nat)
  : result (list (list stats)) :=
  match splits with
  | [] => Ok perf
  | i :: rest =>
      p ← py_index perf i;
      x ← py_last p;
      repeat_last (perf_append perf i x) rest
  end.

(** Lines 173-183. *)
Definition epoch_train_eval (cur_epoch : Z) (perf : list (list stats))
  : run event (list (list stats)) :=
  (if (loggers w =? 0)%nat
   then raise (IndexError "list index out of range") else mret tt);;
  l ← lift (py_index (loaders w) 0);
  train_epoch c l (optim_batch_accumulation c);;
  emit (EvWriteEpoch 0 cur_epoch);;
  let perf := perf_append perf 0 (write_epoch w 0 cur_epoch) in
  if is_eval_epoch w cur_epoch
  then eval_splits cur_epoch perf (seq 1 (loggers w - 1))
  else lift (repeat_last perf (seq 1 (loggers w - 1))).

(** Lines 185-197: scheduler, periodic checkpoint, wandb. *)
Definition epoch_schedule (cur_epoch : Z) (perf : list (list stats))
  : run event (list stats) :=
  val_perf ← lift (py_index perf 1);
  (if String.eqb (optim_scheduler c) "reduce_on_plateau" then
     loss ← lift (s ← py_last val_perf; py_key s "loss");
     emit (EvSchedulerStep (Some loss))
   else emit (EvSchedulerStep None));;
  (if train_enable_ckpt c && negb (train_ckpt_best c)
      && is_ckpt_epoch w cur_epoch
   then emit (EvSaveCkpt cur_epoch) else mret tt);;
  (if wandb_use c then emit (EvWandbLog cur_epoch) else mret tt);;
  mret val_perf.

(** Lines 200-228: on an evaluation epoch [best_epoch] is assigned. *)
Definition epoch_best (cur_epoch : Z) (perf : list (list stats))
    (val_perf : list stats) (old : option Z) : run event (option Z) :=
  if is_eval_epoch w cur_epoch then
    losses ← lift (mapM (fun vp => py_key vp "loss") val_perf);
    best_epoch ← lift (np_argmin losses);
    let m := metric_best c in
    best_epoch ←
      (if negb (String.eqb m "auto") then
         ms ← lift (mapM (fun vp => py_key vp m) val_perf);
         best_epoch ← lift (match metric_agg c with
                            | Argmax => np_argmax ms
                            | Argmin => np_argmin ms
                            end);
         lift (p ← py_index perf 0;
               py_index p (Z.to_nat best_epoch));;
         lift (perf_at perf 1 best_epoch m);;
         lift (perf_at perf 2 best_epoch m);;
         mret best_epoch
       else mret best_epoch);
    (if wandb_use c then
       lift (perf_at perf 0 best_epoch "loss");;
       lift (perf_at perf 1 best_epoch "loss");;
       lift (perf_at perf 2 best_epoch "loss");;
       emit (EvWandbBest best_epoch cur_epoch)
     else mret tt);;
    mret (Some best_epoch)
  else mret old.

(** Lines 229-251: best checkpoint, the log line, early stopping.
    The boolean says whether the loop is left with [break].  The log of
    the [gamma] parameters (lines 242-246) touches none of the variables
    of the loop; it is left out, and what it raises is outside the
    model. *)
Definition epoch_end (cur_epoch : Z) (perf : list (list stats))
    (best : option Z) : run event bool :=
  (if train_enable_ckpt c && train_ckpt_best c then
     best_epoch ← lift (read_best_epoch best);
     if best_epoch =? cur_epoch then
       emit (EvSaveCkpt cur_epoch);;
       (if train_ckpt_clean c then emit EvCleanCkpt else mret tt)
     else mret tt
   else mret tt);;
  best_epoch ← lift (read_best_epoch best);
  lift (perf_at perf 0 best_epoch "loss");;
  lift (perf_at perf 1 best_epoch "loss");;
  lift (perf_at perf 2 best_epoch "loss");;
  emit (EvLogEpoch cur_epoch best_epoch);;
  best_epoch ← lift (read_best_epoch best);
  if (-1 <? best_epoch)
     && (optim_early_stopping_patience c <? cur_epoch - best_epoch)
  then emit (EvStoppingEarly cur_epoch);; mret true
  else mret false.

(** The body of the loop over epochs. *)
Definition epoch (cur_epoch : Z) (st : loop_state)
  : run event (loop_state * bool) :=
  perf ← epoch_train_eval cur_epoch (perf st);
  val_perf ← epoch_schedule cur_epoch perf;
  best ← epoch_best cur_epoch perf val_perf (best_epoch st);
  stop ← epoch_end cur_epoch perf best;
  mret ({| perf := perf; best_epoch := best |}, stop).

(** [for cur_epoch in range(start_epoch, cfg.optim.max_epoch)] *)
Fixpoint epochs (range : list Z) (st : loop_state) : run event loop_state :=
  match range with
  | [] => mret st
  | cur_epoch :: rest =>
      '(st, stop) ← epoch cur_epoch st;
      if stop : bool then mret st else epochs rest st
  end.

Definition start_epoch : Z :=
  if train_auto_resume c then load_ckpt w else 0.

Definition initial_state : loop_state :=
  {| perf := replicate (loggers w) []; best_epoch := None |}.

Definition custom_train : run event unit :=
  (if wandb_use c then
     match import_wandb w with
     | Some _ => raise (ImportError "WandB is not installed.")
     | None => emit EvWandbInit
     end
   else mret tt);;
  epochs (py_range start_epoch (optim_max_epoch c)) initial_state;;
  mapM (fun i => emit (EvLoggerClose i)) (seq 0 (loggers w));;
  (if train_ckpt_clean c then emit EvCleanCkpt else mret tt);;
  (if wandb_use c then emit EvWandbFinish else mret tt);;
  emit EvTaskDone.
End Loop.

(** The test of line 249. *)
Definition stops_early (patience cur_epoch best_epoch : Z) : bool :=
  (-1 <? best_epoch) && (patience <? cur_epoch - best_epoch).

(** What a trace shows of the course of the loop: an epoch starts
    training, an epoch reaches its log line, the loop is left early. *)
Inductive obs : Type :=
| Started
| Logged (cur_epoch best_epoch : Z)
| Stopped (cur_epoch : Z).

Definition observe (ev : event) : option obs :=
  match ev with
  | EvModelTrain => Some Started
  | EvLogEpoch cur best => Some (Logged cur best)
  | EvStoppingEarly cur => Some (Stopped cur)
  | _ => None
  end.

Definition observations (t : list event) : list obs := omap observe t.

(** The early-stopping rule in the words of the description: the epochs
    of the range are run in order; at the end of an epoch whose number
    exceeds the best epoch by more than the patience the loop is left
    and no further epoch starts; otherwise the next epoch of the range
    runs, until the range is used up. *)
Fixpoint follows_patience (patience : Z) (range : list Z) (o : list obs)
  : Prop :=
  match range with
  | [] => o = []
  | cur_epoch :: rest =>
      exists (best : Z) (o' : list obs),
        o = Started :: Logged cur_epoch best :: o' /\
        if stops_early patience cur_epoch best
        then o' = [Stopped cur_epoch]
        else follows_patience patience rest o'
  end.

(** The run ended on a read of a local variable that is not bound. *)
Definition raises_unbound {A} (r : result A) : bool :=
  match r with
  | Raise (UnboundLocalError _) => true
  | _ => false
  end.

(** A run is silent when it shows nothing of the course of the loop and
    does not end on an unbound variable. *)
Definition silent {A} (m : run event A) : Prop :=
  observations (trace_of m) = [] /\
  raises_unbound (outcome m) = false.

(** The loader lets every batch through the model and the loss. *)
Definition loader_ok (c : config) (l : loader) : Prop :=
  Forall (fun b => batch_loss c b = Ok tt) l.

(** The optimizer is stepped. *)
Definition is_step (ev : event) : bool :=
  match ev with EvStep _ => true | _ => false end.

(** A checkpoint is written. *)
Definition is_save_ckpt (ev : event) : bool :=
  match ev with EvSaveCkpt _ => true | _ => false end.

(** The bookkeeping of a run whose first epoch is [start]: the best
    epoch of a log line, and the epoch of a checkpoint saved as the best
    one, are positions in [perf], which is filled from the first epoch of
    the run on; a periodic checkpoint is saved on a checkpoint epoch. *)
Definition bookkeeping_ok (c : config) (w : world) (start : Z) (ev : event)
  : Prop :=
  match ev with
  | EvLogEpoch cur best => 0 <= best <= cur - start
  | EvSaveCkpt cur =>
      train_enable_ckpt c = true /\
      if train_ckpt_best c then 0 <= cur <= cur - start
      else is_ckpt_epoch w cur = true
  | _ => True
  end.

(** [torch_geometric.graphgym.utils.epoch.is_eval_epoch] for a positive
    [cfg.train.eval_period]. *)
Definition graphgym_is_eval_epoch (eval_period max_epoch cur_epoch : Z)
  : bool :=
  ((cur_epoch + 1) mod eval_period =? 0)
  || (cur_epoch =? 0)
  || (cur_epoch + 1 =? max_epoch).

(** ** Sample runs *)

Definition sample_config (auto_resume wandb : bool) (patience : Z) : config :=
  {| dataset_name := "ZINC"; dataset_task_type := "regression";
     gnn_head := "graph";
     train_auto_resume := auto_resume; train_enable_ckpt := true;
     train_ckpt_best := true; train_ckpt_clean := false;
     optim_max_epoch := 10; optim_early_stopping_patience := patience;
     optim_batch_accumulation := 2; optim_clip_grad_norm := true;
     optim_scheduler := "cosine_with_warmup";
     wandb_use := wandb; metric_best := "auto"; metric_agg := Argmin |}.

Definition sample_loader : loader :=
  replicate 5 {| pred_ndim := 2; true_ndim := 1 |}.

(** Three loggers and loaders; the checkpoint found is that of epoch 0;
    every [eval_period]-th epoch is evaluated; the loss reported for an
    epoch grows with the epoch. *)
Definition sample_world (eval_period : Z) : world :=
  {| loggers := 3;
     loaders := [sample_loader; sample_loader; sample_loader];
     load_ckpt := 1;
     is_eval_epoch := graphgym_is_eval_epoch eval_period 10;
     is_ckpt_epoch := fun _ => false;
     import_wandb := Some (ModuleNotFoundError "No module named 'wandb'");
     write_epoch := fun _ epoch => {[ "loss" := inject_Z epoch ]} |}.

(** A run that goes on from the checkpoint of epoch [start - 1]:
    [load_ckpt] returns [start]; every epoch is evaluated and the loss
    reported for an epoch falls from epoch to epoch. *)
Definition improving_world (start : Z) : world :=
  {| loggers := 3;
     loaders := [sample_loader; sample_loader; sample_loader];
     load_ckpt := start;
     is_eval_epoch := graphgym_is_eval_epoch 1 10;
     is_ckpt_epoch := fun _ => false;
     import_wandb := Some (ModuleNotFoundError "No module named 'wandb'");
     write_epoch := fun _ epoch => {[ "loss" := inject_Z (100 - epoch) ]} |}.

End CustomTrain.

(** * graphgps/loader/master_loader.py *)

Module MasterLoader.

(** Text after the first ['_'] of [key]: [key.split('_', 1)[1]]. *)
Fixpoint after_underscore (key : string) : result string :=
  match key with
  | EmptyString => Raise (IndexError "list index out of range")
  | String ch rest =>
      if Ascii.eqb ch "_"%char then Ok rest else after_underscore rest
  end.

(** The [kernel] node of a positional encoding: the snippet
    [times_func] and the list [times]. *)
Record kernel_cfg : Type := {
  times_func : string;
  times : list Q
}.

(** A [posenc_*] node of the configuration; [kernel] is [None] when the
    node has no such attribute. *)
Record pecfg : Type := {
  enable : bool;
  kernel : option kernel_cfg
}.

Record config : Type := {
  items : list (string * pecfg);
  dataset_dir : string;
  dataset_name : string;
  prep_exp : bool;
  prep_exp_count : nat;
  prep_dist_enable : bool;
  posenc_ERN_enable : bool;
  posenc_ERE_enable : bool;
  posenc_ERN_accuracy : Q
}.

(** The test of line 94 on one item of the configuration. *)
Definition pe_selected (item : string * pecfg) : bool :=
  String.prefix "posenc_" item.1 && enable item.2
  && negb (String.prefix "posenc_ER" item.1).

(** Some positional encoding is switched on, whichever it is. *)
Definition pe_enabled (item : string * pecfg) : bool :=
  String.prefix "posenc_" item.1 && enable item.2.

Definition precomputed_path (c : config) : string :=
  os_path_join (dataset_dir c) (dataset_name c +:+ "_precomputed_posenc.pt").

(** [a // b] on Python integers, for [0 <= b]. *)
Definition py_floordiv (a b : Z) : result Z :=
  if b =? 0 then Raise ZeroDivisionError else Ok (a / b).

(** [max(l)] on a list of integers. *)
Definition py_max (l : list Z) : result Z :=
  match l with
  | [] => Raise (ValueError "max() arg is an empty sequence")
  | x :: l' => Ok (foldl Z.max x l')
  end.

Section Loader.
(** One graph of a dataset ([torch_geometric.data.Data]). *)
Variable graph : Type.

(** A PyG in-memory dataset that is not an index view ([_indices] is
    [None]), as the loaders build it and as [join_dataset_splits] leaves
    it: the graphs it holds, which indexing and iteration yield in this
    order, and the [split_idxs] attribute once it is set. *)
Record dataset : Type := {
  data : list graph;
  split_idxs : option (list (list nat))
}.

Definition dataset_len (d : dataset) : nat := length (data d).

(** An in-memory dataset that may be an index view: the graphs stored
    in [data] and [slices], and [_indices]. *)
Record in_memory_dataset : Type := {
  stored : list graph;
  indices : option (list nat)
}.

(** [d.indices()] *)
Definition view_indices (d : in_memory_dataset) : list nat :=
  match indices d with
  | Some l => l
  | None => seq 0 (length (stored d))
  end.

(** [len(d)]: the number of indices of the view. *)
Definition view_len (d : in_memory_dataset) : nat :=
  length (view_indices d).

(** [d.get(i)] reads the stored graphs, not the view; a dataset that
    stores a single graph returns it for every [i]. *)
Definition view_get (d : in_memory_dataset) (i : nat) : result graph :=
  match stored d with
  | [g] => Ok g
  | l => py_index l i
  end.

(** [d[i]] goes through the view. *)
Definition view_getitem (d : in_memory_dataset) (i : nat) : result graph :=
  idx ← py_index (view_indices d) i;
  view_get d idx.

(** [InMemoryDataset.collate(data_list)] reads [data_list[0]]. *)
Definition collate (data_list : list graph) : result (list graph) :=
  match data_list with
  | [] => Raise (IndexError "list index out of range")
  | _ => Ok data_list
  end.

Inductive event : Type :=
| EvLogLoadedDataset (num_graphs : nat) (avg_num_nodes : Z)
| EvKernelTimes (pe_name : string) (times : list Q)
| EvTorchLoad (path : string)
| EvPosencStats (pe_types : list string) (is_undirected : bool)
| EvTorchSave (path : string)
| EvExpander (round : nat)
| EvDistFeatures (max_n : Z) (is_undirected : bool)
| EvEffectiveResistance (MaxK : Z)
| EvLoggingError (msg : string)
| EvPCQM4Mv2 (name : string).

(** The events of lines 104-133: reading the file, computing the
    statistics, writing the file. *)
Definition is_posenc_event (ev : event) : bool :=
  match ev with
  | EvTorchLoad _ | EvPosencStats _ _ | EvTorchSave _ => true
  | _ => false
  end.

(** What a file holds, what [torch.load] makes of it and what
    [torch.save] writes for a dataset. *)
Variable file : Type.
Variable torch_load : file -> result dataset.
Variable torch_save : dataset -> file.
(** [list(eval(snippet))] *)
Variable eval_times : string -> result (list Q).
(** Lines 49-53: the number of nodes of the collated data. *)
Variable total_num_nodes : dataset -> Z.
Variable num_nodes : graph -> nat.
Variable num_edges : graph -> nat.
(** The transforms of [graphgps.transform] and the framework calls. *)
Variable is_undirected : graph -> bool.
Variable compute_posenc_stats : list string -> bool -> graph -> graph.
Variable pre_transform_in_memory : (graph -> graph) -> dataset -> dataset.
Variable generate_random_expander : nat -> graph -> graph.
Variable add_dist_features : Z -> bool -> graph -> graph.
(** [math.ceil(8 * math.log(num_edges) / accuracy**2)] for a positive
    number of edges and a non-zero accuracy. *)
Variable er_dim : nat -> Q -> Z.
Variable effective_resistance_embedding : Z -> graph -> graph.
Variable effective_resistances_from_embedding : graph -> graph.

(** [log_loaded_dataset]: the average of line 55 divides by the number
    of graphs; the other lines log properties of the dataset. *)
Definition log_loaded_dataset (ds : dataset) : run event unit :=
  avg ← lift (py_floordiv (total_num_nodes ds) (Z.of_nat (dataset_len ds)));
  emit (EvLogLoadedDataset (dataset_len ds) avg).

(** Lines 97-102 for one selected item. *)
Definition kernel_times (pe_name : string) (p : pecfg) : run event unit :=
  match kernel p with
  | None => mret tt
  | Some k =>
      times ← (if negb (String.eqb (times_func k) "")
               then lift (eval_times (times_func k))
               else mret (times k));
      emit (EvKernelTimes pe_name times)
  end.

(** Lines 92-102. *)
Fixpoint pe_enabled_list (its : list (string * pecfg))
  : run event (list string) :=
  match its with
  | [] => mret []
  | item :: rest =>
      if pe_selected item then
        pe_name ← lift (after_underscore item.1);
        kernel_times pe_name item.2;;
        names ← pe_enabled_list rest;
        mret (pe_name :: names)
      else pe_enabled_list rest
  end.

(** Lines 104-133, on the files [fs] of the machine: the dataset that
    goes on and the files afterwards. *)
Definition precompute (c : config) (ds : dataset)
    (fs : gmap string file) (pe_list : list string)
  : run event (dataset * gmap string file) :=
  let path := precomputed_path c in
  match fs !! path with
  | Some f =>
      emit (EvTorchLoad path);;
      stored ← lift (torch_load f);
      mret (stored, fs)
  | None =>
      match pe_list with
      | [] => mret (ds, fs)
      | _ =>
          let undirected := forallb is_undirected (take 10 (data ds)) in
          emit (EvPosencStats pe_list undirected);;
          let ds := pre_transform_in_memory
                      (compute_posenc_stats pe_list undirected) ds in
          emit (EvTorchSave path);;
          mret (ds, <[path := torch_save ds]> fs)
      end
  end.

(** Lines 91-133: the positional encodings are precomputed, or read
    back from the file of an earlier run. *)
Definition posenc_stage (c : config) (ds : dataset)
    (fs : gmap string file)
  : run event (dataset * gmap string file) :=
  pe_list ← pe_enabled_list (items c);
  precompute c ds fs pe_list.

(** Lines 137-153. *)
Fixpoint add_expanders (rounds : list nat) (ds : dataset)
  : run event dataset :=
  match rounds with
  | [] => mret ds
  | j :: rest =>
      emit (EvExpander j);;
      add_expanders rest
        (pre_transform_in_memory (generate_random_expander j) ds)
  end.

(** Lines 157-172. *)
Definition add_dist (ds : dataset) : run event dataset :=
  g ← lift (py_index (data ds) 0);
  Max_N ← lift (py_max ((fun g => Z.of_nat (num_nodes g)) <$> data ds));
  emit (EvDistFeatures Max_N (is_undirected g));;
  mret (pre_transform_in_memory
          (add_dist_features Max_N (is_undirected g)) ds).

(** The entry of one graph in the list of lines 181-187. *)
Definition er_k (c : config) (g : graph) : result Z :=
  if (num_edges g =? 0)%nat then Raise (ValueError "math domain error")
  else if Qeq_bool (posenc_ERN_accuracy c) 0 then Raise ZeroDivisionError
  else Ok (Z.min (Z.of_nat (num_nodes g) / 2)
                 (er_dim (num_edges g) (posenc_ERN_accuracy c))).

(** Lines 176-210. *)
Definition add_effective_resistance (c : config) (ds : dataset)
  : run event dataset :=
  ks ← lift (mapM (er_k c) (data ds));
  MaxK ← lift (py_max ks);
  emit (EvEffectiveResistance MaxK);;
  let ds := pre_transform_in_memory
              (effective_resistance_embedding MaxK) ds in
  mret (pre_transform_in_memory effective_resistances_from_embedding ds).

(** Lines 84-210: the dataset [ds] is the one the data-loading module
    returns for [name]. *)
Definition load_dataset_master (c : config) (ds : dataset)
    (fs : gmap string file)
  : run event (dataset * gmap string file) :=
  log_loaded_dataset ds;;
  '(ds, fs) ← posenc_stage c ds fs;
  ds ← (if prep_exp c then add_expanders (seq 0 (prep_exp_count c)) ds
        else mret ds);
  ds ← (if prep_dist_enable c then add_dist ds else mret ds);
  ds ← (if posenc_ERN_enable c || posenc_ERE_enable c
        then add_effective_resistance c ds else mret ds);
  mret (ds, fs).

(** [list(range(a, b))] on indices. *)
Definition index_range (a b : nat) : list nat := seq a (b - a).

(** [[d.get(i) for i in range(n)]] *)
Definition get_all (d : in_memory_dataset) (n : nat) : result (list graph) :=
  mapM (view_get d) (index_range 0 n).

Definition join_dataset_splits (datasets : list in_memory_dataset)
  : result dataset :=
  if negb (length datasets =? 3)%nat then
    Raise (AssertionError "Expecting train, val, test datasets")
  else
    d0 ← py_index datasets 0;
    d1 ← py_index datasets 1;
    d2 ← py_index datasets 2;
    let n1 := view_len d0 in
    let n2 := view_len d1 in
    let n3 := view_len d2 in
    l0 ← get_all d0 n1;
    l1 ← get_all d1 n2;
    l2 ← get_all d2 n3;
    let data_list := l0 ++ l1 ++ l2 in
    data ← collate data_list;
    let split_idxs := [index_range 0 n1;
                       index_range n1 (n1 + n2);
                       index_range (n1 + n2) (n1 + n2 + n3)] in
    Ok {| data := data; split_idxs := Some split_idxs |}.

(** Lines 385-422; [import_ogb_lsc] is the exception that
    [from ogb.lsc import PygPCQM4Mv2Dataset] raises, if any. *)
Definition preformat_OGB_PCQM4Mv2 (import_ogb_lsc : option exn)
    (name : string) : run event unit :=
  match import_ogb_lsc with
  | Some e =>
      emit (EvLoggingError
              "ERROR: Failed to import PygPCQM4Mv2Dataset, make sure RDKit is installed.");;
      raise e
  | None =>
      if String.eqb name "full" then emit (EvPCQM4Mv2 name)
      else if String.eqb name "subset" then emit (EvPCQM4Mv2 name)
      else raise (ValueError
                    ("Unexpected OGB PCQM4Mv2 subset choice: " +:+ name))
  end.
End Loader.

Arguments data {graph} d.
Arguments split_idxs {graph} d.
Arguments dataset_len {graph} d.
Arguments stored {graph} _.
Arguments indices {graph} _.
Arguments view_indices {graph} d.
Arguments view_len {graph} d.
Arguments view_get {graph} d i.
Arguments view_getitem {graph} d i.

(** ** [compute_indegree_histogram]

    A graph as the histogram reads it: [data.num_nodes] and the row
    [data.edge_index[1]] of the targets of its edges. *)
Record pyg_data : Type := {
  num_nodes : nat;
  edge_targets : list Z
}.

(** [out.scatter_add_(0, index, one)]: [out[j] += 1] for every [j] of
    [index]; an index outside of [out] is a [RuntimeError]. *)
Fixpoint scatter_add_ones (out : list Z) (index : list Z)
  : result (list Z) :=
  match index with
  | [] => Ok out
  | j :: rest =>
      if (0 <=? j) && (j <? Z.of_nat (length out))
      then scatter_add_ones (alter (Z.add 1) (Z.to_nat j) out) rest
      else Raise (RuntimeError "index out of bounds")
  end.

(** [torch_geometric.utils.degree(index, num_nodes, dtype=torch.long)] *)
Definition degree (index : list Z) (num_nodes : nat) : result (list Z) :=
  scatter_add_ones (replicate num_nodes 0) index.

(** [d.max().item()]: the maximum of an empty tensor is a
    [RuntimeError]. *)
Definition tensor_max (d : list Z) : result Z :=
  match d with
  | [] => Raise (RuntimeError "max(): input.numel() == 0")
  | x :: rest => Ok (foldr Z.max x rest)
  end.

(** [torch.bincount(d, minlength)] on a tensor of non-negative integers:
    as many bins as the largest entry needs, and at least
    [minlength]. *)
Definition bincount (d : list Z) (minlength : nat) : list Z :=
  let size := Nat.max minlength (Z.to_nat (foldr Z.max (-1) d + 1)) in
  foldl (fun out v => alter (Z.add 1) (Z.to_nat v) out) (replicate size 0) d.

(** [deg += b] on one-dimensional tensors: [b] has the shape of [deg],
    or a single entry that is broadcast. *)
Definition iadd (deg b : list Z) : result (list Z) :=
  if (length b =? length deg)%nat then Ok (zip_with Z.add deg b)
  else match b with
       | [x] => Ok ((fun y => y + x) <$> deg)
       | _ => Raise (RuntimeError
                "output with shape doesn't match the broadcast shape")
       end.

(** The loop of lines 246-250. *)
Fixpoint histogram_loop (dataset : list pyg_data) (deg : list Z)
    (max_degree : Z) : result (list Z * Z) :=
  match dataset with
  | [] => Ok (deg, max_degree)
  | data :: rest =>
      d ← degree (edge_targets data) (num_nodes data);
      m ← tensor_max d;
      let max_degree := Z.max max_degree m in
      deg ← iadd deg (bincount d (length deg));
      histogram_loop rest deg max_degree
  end.

Definition compute_indegree_histogram (dataset : list pyg_data)
  : result (list Z) :=
  r ← histogram_loop dataset (replicate 1000 0) 0;
  Ok (take (Z.to_nat (r.2 + 1)) r.1).

(** The number of edges of [g] that point to node [v]. *)
Definition in_degree (g : pyg_data) (v : nat) : nat :=
  length (filter (fun j => j = Z.of_nat v) (edge_targets g)).

(** The in-degrees of all nodes of all graphs. *)
Definition in_degrees (dataset : list pyg_data) : list nat :=
  dataset ≫= fun g => in_degree g <$> seq 0 (num_nodes g).

(** The graph has a node, and its edges point to its nodes. *)
Definition well_formed (g : pyg_data) : Prop :=
  num_nodes g <> 0%nat /\
  Forall (fun j => 0 <= j < Z.of_nat (num_nodes g)) (edge_targets g).

(** ** Sample runs *)

(** Only the effective-resistance node encoding is switched on. *)
Definition sample_config : config :=
  {| items := [("posenc_LapPE", {| enable := false; kernel := None |});
               ("posenc_ERN", {| enable := true; kernel := None |})];
     dataset_dir := "datasets"; dataset_name := "ZINC";
     prep_exp := false; prep_exp_count := 0; prep_dist_enable := false;
     posenc_ERN_enable := true; posenc_ERE_enable := false;
     posenc_ERN_accuracy := 1 # 10 |}.

(** The Laplacian encoding is switched on as well. *)
Definition sample_config_lap : config :=
  {| items := [("posenc_LapPE", {| enable := true; kernel := None |});
               ("posenc_ERN", {| enable := true; kernel := None |})];
     dataset_dir := "datasets"; dataset_name := "ZINC";
     prep_exp := false; prep_exp_count := 0; prep_dist_enable := false;
     posenc_ERN_enable := true; posenc_ERE_enable := false;
     posenc_ERN_accuracy := 1 # 10 |}.

(** The random-walk encoding with a kernel whose times come from a
    snippet. *)
Definition sample_config_rw (snippet : string) : config :=
  {| items := [("posenc_RWSE",
                {| enable := true;
                   kernel := Some {| times_func := snippet; times := [] |} |})];
     dataset_dir := "datasets"; dataset_name := "ZINC";
     prep_exp := false; prep_exp_count := 0; prep_dist_enable := false;
     posenc_ERN_enable := false; posenc_ERE_enable := false;
     posenc_ERN_accuracy := 1 # 10 |}.

(** Graphs are numbers here: a graph has as many nodes and edges as its
    number says, and a transform adds to it. *)
Definition sample_dataset : dataset nat :=
  {| data := [1; 2; 3]%nat; split_idxs := None |}.

Definition sample_pre_transform (f : nat -> nat) (ds : dataset nat)
  : dataset nat :=
  {| data := f <$> data ds; split_idxs := split_idxs ds |}.

(** The only snippet that evaluates is [range(1, 3)]. *)
Definition sample_eval (snippet : string) : result (list Q) :=
  if String.eqb snippet "range(1, 3)" then Ok [1; 2]%Q
  else Raise (TypeError "'int' object is not iterable").

(** A file holds the dataset that was written to it, or text that
    [torch.load] refuses. *)
Definition sample_file : Type := option (dataset nat).

Definition sample_torch_load (f : sample_file) : result (dataset nat) :=
  match f with
  | Some ds => Ok ds
  | None => Raise (RuntimeError "Invalid magic number; corrupt file?")
  end.

Definition sample_load (c : config) (ds : dataset nat)
    (fs : gmap string sample_file)
  : run event (dataset nat * gmap string sample_file) :=
  load_dataset_master nat sample_file sample_torch_load Some sample_eval
    (fun ds => Z.of_nat (foldr Nat.add 0%nat (data ds)))
    (fun g => g) (fun g => g)
    (fun _ => true) (fun _ _ g => (g + 10)%nat)
    sample_pre_transform (fun _ g => g) (fun _ _ g => g)
    (fun e _ => Z.of_nat e)
    (fun _ g => (g + 100)%nat) (fun g => g) c ds fs.

End MasterLoader.

(** * tokengt/collating_tokengt.py *)

Module Tokengt.

Abbreviation matrix := (list (list Q)).

Fixpoint insert_sorted (x : Q) (l : list Q) : list Q :=
  match l with
  | [] => [x]
  | y :: l' => if Qle_bool x y then x :: l else y :: insert_sorted x l'
  end.

(** [np.sort] on a vector. *)
Definition np_sort (l : list Q) : list Q := foldr insert_sorted [] l.

Definition eye (n : nat) : matrix :=
  (fun i => (fun j => if (i =? j)%nat then 1%Q else 0%Q) <$> seq 0 n)
    <$> seq 0 n.

Definition diag (v : list Q) : matrix :=
  imap (fun i x =>
          (fun j => if (i =? j)%nat then x else 0%Q) <$> seq 0 (length v)) v.

Definition dot (u v : list Q) : Q :=
  foldr Qplus 0%Q (zip_with Qmult u v).

Definition column (m : matrix) (j : nat) : list Q :=
  (fun row => default 0%Q (row !! j)) <$> m.

(** The shape of a two-dimensional array.  An array is the list of its
    rows, all of one length; an array without rows is taken to have no
    columns, as the arrays [np.zeros([n, n])], [np.eye(n)] and
    [np.diag(v)] of this file have. *)
Definition nrows (m : matrix) : nat := length m.
Definition ncols (m : matrix) : nat := length (default [] (head m)).

(** [a @ b]: numpy refuses operands whose inner dimensions differ. *)
Definition matmul (a b : matrix) : result matrix :=
  if (ncols a =? nrows b)%nat then
    Ok ((fun row => (fun j => dot row (column b j)) <$> seq 0 (ncols b)) <$> a)
  else
    Raise (ValueError
      "matmul: Input operand 1 has a mismatch in its core dimension 0").

(** One dimension of the shape of [a - b] under numpy's broadcasting. *)
Definition broadcast_dim (m n : nat) : result nat :=
  if (m =? n)%nat then Ok m
  else if (m =? 1)%nat then Ok n
  else if (n =? 1)%nat then Ok m
  else Raise (ValueError "operands could not be broadcast together").

(** The entry that position [(i, j)] of a broadcast result reads from
    [m]: a dimension of size 1 is repeated. *)
Definition entry (m : matrix) (i j : nat) : Q :=
  let i := if (nrows m =? 1)%nat then 0%nat else i in
  let j := if (ncols m =? 1)%nat then 0%nat else j in
  default 0%Q (default [] (m !! i) !! j).

(** [a - b] on two-dimensional arrays. *)
Definition np_sub (a b : matrix) : result matrix :=
  r ← broadcast_dim (nrows a) (nrows b);
  c ← broadcast_dim (ncols a) (ncols b);
  Ok ((fun i => (fun j => (entry a i j - entry b i j)%Q) <$> seq 0 c)
        <$> seq 0 r).

Section Eig.
(** [np.linalg.eigh]: eigenvalues and eigenvectors, or [LinAlgError]. *)
Variable eigh : matrix -> result (list Q * matrix).
(** Rounding of [astype(dtype=np.single)]. *)
Variable single : Q -> Q.
(** [x ** -0.5] *)
Variable rsqrt : Q -> Q.

Definition eig (sym_mat : matrix) : result (matrix * list Q) :=
  match eigh sym_mat with
  | Raise e => Raise e
  | Ok (EigVal, EigVec) =>
      let eigvec := (fun row : list Q => single <$> row) <$> EigVec in
      let eigval := single <$> np_sort (Qabs <$> EigVal) in
      Ok (eigvec, eigval)
  end.

(** Lines 55-57: the array [L]. *)
Definition laplacian (dense_adj : list (list bool)) (number_of_nodes : nat)
    (in_degree : list Z) : result matrix :=
  let A := (fun row : list bool => (fun b : bool => single (if b then 1 else 0)%Q) <$> row)
             <$> dense_adj in
  let num_nodes :=
    diag ((fun d => rsqrt (Qmax (single (inject_Z d)) 1)) <$> in_degree) in
  let I := eye number_of_nodes in
  NA ← matmul num_nodes A;
  NAN ← matmul NA num_nodes;
  np_sub I NAN.

Definition lap_eig (dense_adj : list (list bool)) (number_of_nodes : nat)
    (in_degree : list Z) : result (matrix * list Q) :=
  L ← laplacian dense_adj number_of_nodes in_degree;
  eig L.

(** The normalized Laplacian in the words of its definition,
    [I - D^(-1/2) A D^(-1/2)], entry by entry; a degree below 1 counts
    as 1. *)
Definition inv_sqrt_degree (in_degree : list Z) (i : nat) : Q :=
  rsqrt (Qmax (single (inject_Z (default 0 (in_degree !! i)))) 1).

Definition adjacency (dense_adj : list (list bool)) (i j : nat) : Q :=
  single (if default false (default [] (dense_adj !! i) !! j)
          then 1 else 0)%Q.

Definition normalized_laplacian_entry (dense_adj : list (list bool))
    (in_degree : list Z) (i j : nat) : Q :=
  ((if (i =? j)%nat then 1 else 0)
   - inv_sqrt_degree in_degree i * adjacency dense_adj i j
     * inv_sqrt_degree in_degree j)%Q.

(** [L] is the normalized Laplacian of a graph on [n] nodes, as an
    [n] by [n] array. *)
Definition is_normalized_laplacian (L : matrix) (dense_adj : list (list bool))
    (in_degree : list Z) (n : nat) : Prop :=
  length L = n /\
  forall i j, (i < n)%nat -> (j < n)%nat ->
    exists row x,
      L !! i = Some row /\ length row = n /\ row !! j = Some x /\
      (x == normalized_laplacian_entry dense_adj in_degree i j)%Q.
End Eig.

(** A decomposition of a path on two nodes whose smallest eigenvalue
    came out slightly negative. *)
Definition eigh_two_nodes (_ : matrix) : result (list Q * matrix) :=
  Ok ([- (1 # 100); 2]%Q, [[1; 1]; [1; -1]]%Q).

End Tokengt.

(** * transfer_learning/graphgps_3d/main.py *)

Module TransferMain.

(** ** [os.path.basename] and [os.path.splitext] on POSIX *)

(** [p.rfind(c)]: the last position of the character [c], or -1. *)
Fixpoint rfind (c : ascii) (p : string) : Z :=
  match p with
  | EmptyString => -1
  | String ch rest =>
      let r := rfind c rest in
      if 0 <=? r then r + 1
      else if Ascii.eqb ch c then 0 else -1
  end.

(** [p[:n]] and [p[n:]] *)
Fixpoint str_take (n : nat) (p : string) : string :=
  match n, p with
  | S n', String ch rest => String ch (str_take n' rest)
  | _, _ => EmptyString
  end.

Fixpoint str_drop (n : nat) (p : string) : string :=
  match n, p with
  | S n', String _ rest => str_drop n' rest
  | _, _ => p
  end.

(** [posixpath.basename]: [i = p.rfind('/') + 1; return p[i:]] *)
Definition basename (p : string) : string :=
  str_drop (Z.to_nat (rfind "/" p + 1)) p.

(** The loop of [genericpath._splitext] over the characters between the
    last separator and the last dot: a character that is not a dot ends
    it. *)
Fixpoint has_non_dot (s : string) : bool :=
  match s with
  | EmptyString => false
  | String ch rest => if Ascii.eqb ch "." then has_non_dot rest else true
  end.

(** [posixpath.splitext] *)
Definition splitext (p : string) : string * string :=
  let sepIndex := rfind "/" p in
  let dotIndex := rfind "." p in
  if (sepIndex <? dotIndex)
     && has_non_dot (str_take (Z.to_nat (dotIndex - (sepIndex + 1)))
                       (str_drop (Z.to_nat (sepIndex + 1)) p))
  then (str_take (Z.to_nat dotIndex) p, str_drop (Z.to_nat dotIndex) p)
  else (p, EmptyString).

(** ** [custom_set_out_dir]: the new [cfg.out_dir] *)
Definition custom_set_out_dir (out_dir cfg_fname name_tag : string) : string :=
  let run_name := (splitext (basename cfg_fname)).1 in
  let run_name :=
    run_name +:+ (if (String.length name_tag =? 0)%nat then EmptyString
                  else "-" +:+ name_tag) in
  os_path_join out_dir run_name.

(** ** [set_dataset_info] *)

(** One of the two loops of lines 56-63: the count goes up by one at the
    first key that contains [needle], and the loop is left. *)
Fixpoint count_split (needle : string) (keys : list string) (n : nat) : nat :=
  match keys with
  | [] => n
  | key :: rest =>
      if str_contains needle key then (n + 1)%nat
      else count_split needle rest n
  end.

(** [cfg.share.num_splits] after [set_dataset_info] on a dataset whose
    data has the keys [keys]. *)
Definition set_dataset_info (keys : list string) : nat :=
  count_split "test" keys (count_split "val" keys 1).

(** ** [create_logger] and the loggers of the main loop *)

Definition logger_names : list string := ["train"; "val"; "test"].

(** The names of the loggers that [create_logger] builds. *)
Definition create_logger (num_splits : nat) : result (list string) :=
  mapM (fun i => py_index logger_names i) (seq 0 num_splits).

(** [loggers[0].name = name] *)
Definition rename_first (loggers : list string) (name : string)
  : result (list string) :=
  match loggers with
  | [] => Raise (IndexError "list index out of range")
  | _ :: rest => Ok (name :: rest)
  end.

Definition is_ogbn (dataset_name : string) : bool :=
  String.eqb dataset_name "ogbn-arxiv" || String.eqb dataset_name "ogbn-proteins".

(** Lines 248-261: the loggers handed to the training function. *)
Definition main_loggers (dataset_name : string) (num_splits : nat)
  : result (list string) :=
  loggers ← create_logger num_splits;
  if is_ogbn dataset_name then
    loggers_2 ← create_logger num_splits;
    loggers_3 ← create_logger num_splits;
    loggers_2 ← rename_first loggers_2 "val";
    loggers_3 ← rename_first loggers_3 "test";
    Ok (loggers ++ loggers_2 ++ loggers_3)
  else Ok loggers.

(** ** [run_loop_settings] *)

(** What [run_loop_settings] reads: [cfg.run_multiple_splits],
    [cfg.seed], [cfg.dataset.split_index] and [args.repeat]. *)
Record loop_cfg : Type := {
  run_multiple_splits : list Z;
  seed : Z;
  split_index : Z;
  repeat : Z
}.

Record loop_settings : Type := {
  run_ids : list Z;
  seeds : list Z;
  split_indices : list Z
}.

(** The function returns its three lists, or raises
    [NotImplementedError] with a message. *)
Inductive loop_outcome : Type :=
| Settings (s : loop_settings)
| NotImplementedError (msg : string).

Definition run_loop_settings (cfg : loop_cfg) : loop_outcome :=
  if (length (run_multiple_splits cfg) =? 0)%nat then
    let num_iterations := repeat cfg in
    let seeds := (fun x => seed cfg + x) <$> py_range 0 num_iterations in
    let split_indices :=
      replicate (Z.to_nat num_iterations) (split_index cfg) in
    Settings {| run_ids := seeds; seeds := seeds;
                split_indices := split_indices |}
  else if negb (repeat cfg =? 1) then
    NotImplementedError
      "Running multiple repeats of multiple splits in one run is not supported."
  else
    let num_iterations := length (run_multiple_splits cfg) in
    Settings {| run_ids := run_multiple_splits cfg;
                seeds := replicate num_iterations (seed cfg);
                split_indices := run_multiple_splits cfg |}.

(** The runs of the main loop: the three lists zipped. *)
Definition runs (s : loop_settings) : list (Z * Z * Z) :=
  zip (zip (run_ids s) (seeds s)) (split_indices s).

End TransferMain.

(** * Properties *)

(** ** Runs *)

Lemma bind_ok_inv {E A B} (m : run E A) (f : A -> run E B) t b :
  m ≫= f = (t, Ok b) ->
  exists t1 a t2, m = (t1, Ok a) /\ f a = (t2, Ok b) /\ t = t1 ++ t2.
Proof.
  unfold mbind, run_bind, bind. destruct m as [t1 [a|e]]; [|done].
  destruct (f a) as [t2 r] eqn:Hf. intros [= <- ->]. eauto 6.
Qed.

Lemma bind_raise_inv {E A B} (m : run E A) (f : A -> run E B) t e :
  m ≫= f = (t, Raise e) ->
  m = (t, Raise e) \/
  exists t1 a t2, m = (t1, Ok a) /\ f a = (t2, Raise e) /\ t = t1 ++ t2.
Proof.
  unfold mbind, run_bind, bind. destruct m as [t1 [a|e']].
  - destruct (f a) as [t2 r] eqn:Hf. intros [= <- ->]. right. eauto 6.
  - intros [= <- <-]. by left.
Qed.

Lemma bind_ok {E A B} (m : run E A) (f : A -> run E B) t a :
  m = (t, Ok a) -> m ≫= f = (t ++ (f a).1, (f a).2).
Proof. intros ->. unfold mbind, run_bind, bind. by destruct (f a). Qed.

Lemma bind_raise {E A B} (m : run E A) (f : A -> run E B) t e :
  m = (t, Raise e) -> m ≫= f = (t, Raise e).
Proof. by intros ->. Qed.

Lemma bind_emit {E B} (ev : E) (f : unit -> run E B) :
  emit ev ≫= f = (ev :: (f tt).1, (f tt).2).
Proof. unfold mbind, run_bind, bind, emit. by destruct (f tt). Qed.

Lemma bind_call_ok {E B} (ev : E) (f : unit -> run E B) :
  call ev None ≫= f = (ev :: (f tt).1, (f tt).2).
Proof. unfold mbind, run_bind, bind, call. by destruct (f tt). Qed.

Lemma bind_call_raise {E B} (ev : E) e (f : unit -> run E B) :
  call ev (Some e) ≫= f = ([ev], Raise e).
Proof. done. Qed.

Lemma bind_ret {E A B} (a : A) (f : A -> run E B) :
  (mret a : run E A) ≫= f = f a.
Proof.
  unfold mbind, run_bind, bind, mret, run_ret, ret. by destruct (f a).
Qed.

Lemma bind_lift_ok {E A B} (a : A) (f : A -> run E B) :
  (lift (Ok a) : run E A) ≫= f = f a.
Proof. unfold mbind, run_bind, bind, lift. by destruct (f a). Qed.

Lemma bind_lift_raise {E A B} e (f : A -> run E B) :
  (lift (Raise e) : run E A) ≫= f = ([], Raise e).
Proof. done. Qed.

Lemma result_bind_ok {A B} (a : A) (f : A -> result B) : Ok a ≫= f = f a.
Proof. done. Qed.

Lemma trace_bind {E A B} (m : run E A) (f : A -> run E B) :
  trace_of (m ≫= f)
  = trace_of m ++ match outcome m with
                  | Ok a => trace_of (f a)
                  | Raise _ => []
                  end.
Proof.
  destruct m as [t [a|e]]; unfold mbind, run_bind, bind, trace_of, outcome;
    simpl; [by destruct (f a)|by rewrite app_nil_r].
Qed.

Lemma outcome_bind {E A B} (m : run E A) (f : A -> run E B) :
  outcome (m ≫= f)
  = match outcome m with
    | Ok a => outcome (f a)
    | Raise e => Raise e
    end.
Proof.
  destruct m as [t [a|e]]; unfold mbind, run_bind, bind, outcome;
    simpl; [by destruct (f a)|done].
Qed.

Lemma forall_trace_bind {E A B} (P : E -> Prop) (m : run E A)
    (f : A -> run E B) :
  Forall P (trace_of m) ->
  (forall a, outcome m = Ok a -> Forall P (trace_of (f a))) ->
  Forall P (trace_of (m ≫= f)).
Proof.
  intros Hm Hf. rewrite trace_bind. apply Forall_app. split; [done|].
  destruct (outcome m) eqn:Ho; [by apply Hf|done].
Qed.

Lemma forall_trace_emit {E} (P : E -> Prop) (ev : E) :
  P ev -> Forall P (trace_of (emit ev)).
Proof. intros H. by repeat constructor. Qed.

Lemma outcome_ok_eq {E A} (m : run E A) (a : A) :
  outcome m = Ok a -> m = (trace_of m, Ok a).
Proof. destruct m as [t r]. simpl. by intros ->. Qed.

(** ** gnn/train.py: the last batch of the training loader *)

Section BatchSampler.
Context {A : Type}.
Implicit Types (sampler batch : list A).

Lemma batch_sampler_nil bs sampler batch :
  GnnTrain.batch_sampler bs sampler batch = [] -> sampler = [] /\ batch = [].
Proof.
  revert batch. induction sampler as [|idx rest IH]; intros batch; simpl.
  - by destruct batch.
  - case_match; [done|]. intros [_ Hb]%IH. by destruct batch.
Qed.

(** The size of the last batch: what is left over by the full batches,
    or a full batch when nothing is left over. *)
Lemma batch_sampler_last (bs : nat) sampler batch :
  (length batch < bs)%nat ->
  (0 < length batch + length sampler)%nat ->
  exists b, last (GnnTrain.batch_sampler bs sampler batch) = Some b /\
    length b =
      let r := ((length batch + length sampler) mod bs)%nat in
      if (r =? 0)%nat then bs else r.
Proof.
  revert batch. induction sampler as [|idx rest IH]; intros batch Hlt Hpos;
    simpl in *.
  - destruct batch as [|x batch]; [simpl in Hpos; lia|].
    exists (x :: batch). split; [done|].
    rewrite Nat.add_0_r, Nat.mod_small by done.
    destruct (Nat.eqb_spec (length (x :: batch)) 0); simpl in *; lia.
  - rewrite length_app; simpl.
    destruct (Nat.eqb_spec (length batch + 1) bs) as [Heq|Hne].
    + destruct rest as [|idx' rest'].
      * exists (batch ++ [idx]). simpl. split; [done|].
        rewrite length_app; simpl.
        replace (length batch + 1)%nat with bs by lia.
        rewrite Nat.Div0.mod_same. done.
      * destruct (IH [] ltac:(simpl; lia) ltac:(simpl; lia)) as (b & Hb & Hlen).
        exists b. split.
        -- rewrite last_cons, Hb. done.
        -- rewrite Hlen. simpl.
           replace (length batch + S (S (length rest')))%nat
             with (S (length rest') + 1 * bs)%nat by lia.
           by rewrite Nat.Div0.mod_add.
    + destruct (IH (batch ++ [idx])) as (b & Hb & Hlen).
      * rewrite length_app; simpl; lia.
      * rewrite length_app; simpl; lia.
      * exists b. split; [done|]. rewrite Hlen, length_app; simpl.
        by replace (length batch + 1 + length rest)%nat
             with (length batch + S (length rest))%nat by lia.
Qed.
End BatchSampler.

(** C9 (the code at n = 13, batch size 3): [main] raises the batch size
    to 4 because 13 mod 3 = 1, and the thirteen samples are then split
    into three batches of four and a last batch that holds exactly one
    sample. *)
Theorem main_batch_adjustment_leaves_singleton_batch :
  GnnTrain.adjust_batch_size 13 3 = Ok 4 /\
  GnnTrain.train_batches (seq 0 13) 3 =
    [[0; 1; 2; 3]; [4; 5; 6; 7]; [8; 9; 10; 11]; [12]]%nat /\
  (length <$> last (GnnTrain.train_batches (seq 0 13) 3)) = Some 1%nat.
Proof. repeat split; vm_compute; reflexivity. Qed.

(** For a non-empty training set and a batch size above 1, the last
    batch after the adjustment of [main] is a single sample exactly
    when the size of the training set is congruent to 1 modulo the
    adjusted batch size. *)
Lemma train_batches_singleton_iff (perm : list nat) (bs : Z) :
  perm <> [] -> 1 < bs ->
  exists bs' b,
    GnnTrain.adjust_batch_size (length perm) bs = Ok bs' /\
    last (GnnTrain.train_batches perm bs) = Some b /\
    (length b = 1%nat <-> Z.of_nat (length perm) mod bs' = 1).
Proof.
  intros Hne Hbs. unfold GnnTrain.train_batches, GnnTrain.adjust_batch_size.
  destruct (Z.eqb_spec bs 0); [lia|].
  assert (0 < length perm)%nat by (destruct perm; simpl; [done|lia]).
  set (bs' := if Z.of_nat (length perm) mod bs =? 1 then bs + 1 else bs).
  assert (1 < bs') by (subst bs'; case_match; lia).
  assert (Hok : (if Z.of_nat (length perm) mod bs =? 1
                 then Ok (bs + 1) else Ok bs) = Ok bs')
    by (subst bs'; by case_match).
  rewrite Hok.
  destruct (batch_sampler_last (Z.to_nat bs') perm [])
    as (b & Hb & Hlen); [simpl; lia..|].
  exists bs', b. split_and!; [done..|].
  rewrite Hlen. simpl.
  assert (Hmod : Z.of_nat (length perm mod Z.to_nat bs')
                 = Z.of_nat (length perm) mod bs').
  { rewrite Nat2Z.inj_mod, Z2Nat.id by lia. done. }
  destruct (Nat.eqb_spec (length perm mod Z.to_nat bs') 0); lia.
Qed.

(** ** master_loader.py: joining the three splits *)

Section JoinDatasetSplits.
Context {graph : Type}.
Implicit Types (d : MasterLoader.in_memory_dataset graph).

Lemma mapM_py_index_seq (pre l : list graph) :
  mapM (py_index (pre ++ l)) (seq (length pre) (length l)) = Ok l.
Proof.
  revert pre. induction l as [|x l IH]; intros pre; [done|].
  assert (Hx : py_index (pre ++ x :: l) (length pre) = Ok x).
  { unfold py_index. by rewrite list_lookup_middle. }
  specialize (IH (pre ++ [x])).
  rewrite length_app, Nat.add_1_r, <- app_assoc in IH. simpl in IH.
  simpl. rewrite Hx. simpl. by rewrite IH.
Qed.

(** On a dataset that is not an index view, [get] reads the graphs of
    the dataset in their order. *)
Lemma get_all_ok d :
  MasterLoader.indices d = None ->
  MasterLoader.view_len d = length (MasterLoader.stored d) /\
  MasterLoader.get_all graph d (MasterLoader.view_len d)
  = Ok (MasterLoader.stored d).
Proof.
  destruct d as [st ix]. cbn [MasterLoader.indices MasterLoader.stored].
  intros ->.
  assert (Hlen : MasterLoader.view_len
                   {| MasterLoader.stored := st; MasterLoader.indices := None |}
                 = length st).
  { unfold MasterLoader.view_len, MasterLoader.view_indices.
    cbn [MasterLoader.indices MasterLoader.stored]. apply length_seq. }
  split; [exact Hlen|]. rewrite Hlen.
  unfold MasterLoader.get_all, MasterLoader.index_range.
  rewrite Nat.sub_0_r.
  destruct st as [|g [|g' l]]; [done|done|].
  apply (mapM_py_index_seq [] (g :: g' :: l)).
Qed.

Lemma index_range_elem (a b i : nat) :
  i ∈ MasterLoader.index_range a b <-> (a <= i < b)%nat.
Proof. unfold MasterLoader.index_range. rewrite elem_of_seq. lia. Qed.

(** C5 (as amended): on a list of three datasets, none of them an index
    view and not all of them empty, [join_dataset_splits] returns the
    graphs of the first, then the second, then the third dataset, with
    [split_idxs] the three consecutive index ranges; the ranges are
    pairwise disjoint and cover all indices.  On a list of any other
    length the assertion fails. *)
Theorem join_dataset_splits_spec
    (datasets : list (MasterLoader.in_memory_dataset graph)) :
  match datasets with
  | [d0; d1; d2] =>
      MasterLoader.indices d0 = None ->
      MasterLoader.indices d1 = None ->
      MasterLoader.indices d2 = None ->
      MasterLoader.stored d0 ++ MasterLoader.stored d1
        ++ MasterLoader.stored d2 <> [] ->
      let n1 := length (MasterLoader.stored d0) in
      let n2 := length (MasterLoader.stored d1) in
      let n3 := length (MasterLoader.stored d2) in
      exists joined s1 s2 s3,
        MasterLoader.join_dataset_splits graph datasets = Ok joined /\
        MasterLoader.data joined
          = MasterLoader.stored d0 ++ MasterLoader.stored d1
              ++ MasterLoader.stored d2 /\
        MasterLoader.dataset_len joined = (n1 + n2 + n3)%nat /\
        MasterLoader.split_idxs joined = Some [s1; s2; s3] /\
        s1 = seq 0 n1 /\ s2 = seq n1 n2 /\ s3 = seq (n1 + n2) n3 /\
        (forall i, i ∈ s1 <-> (i < n1)%nat) /\
        (forall i, i ∈ s2 <-> (n1 <= i < n1 + n2)%nat) /\
        (forall i, i ∈ s3 <-> (n1 + n2 <= i < n1 + n2 + n3)%nat) /\
        (forall i, ~ (i ∈ s1 /\ i ∈ s2) /\ ~ (i ∈ s1 /\ i ∈ s3)
                   /\ ~ (i ∈ s2 /\ i ∈ s3)) /\
        (forall i, (i < MasterLoader.dataset_len joined)%nat
                   <-> i ∈ s1 \/ i ∈ s2 \/ i ∈ s3)
  | _ =>
      MasterLoader.join_dataset_splits graph datasets
        = Raise (AssertionError "Expecting train, val, test datasets")
  end.
Proof.
  destruct datasets as [|d0 [|d1 [|d2 [|d3 rest]]]]; try done.
  intros H0 H1 H2 Hne n1 n2 n3.
  destruct (get_all_ok d0 H0) as [Hl0 Hg0].
  destruct (get_all_ok d1 H1) as [Hl1 Hg1].
  destruct (get_all_ok d2 H2) as [Hl2 Hg2].
  exists {| MasterLoader.data :=
              MasterLoader.stored d0 ++ MasterLoader.stored d1
                ++ MasterLoader.stored d2;
            MasterLoader.split_idxs :=
              Some [MasterLoader.index_range 0 n1;
                    MasterLoader.index_range n1 (n1 + n2);
                    MasterLoader.index_range (n1 + n2) (n1 + n2 + n3)] |},
    (MasterLoader.index_range 0 n1),
    (MasterLoader.index_range n1 (n1 + n2)),
    (MasterLoader.index_range (n1 + n2) (n1 + n2 + n3)).
  assert (Hlen : MasterLoader.dataset_len
            {| MasterLoader.data :=
                 MasterLoader.stored d0 ++ MasterLoader.stored d1
                   ++ MasterLoader.stored d2;
               MasterLoader.split_idxs :=
                 Some [MasterLoader.index_range 0 n1;
                       MasterLoader.index_range n1 (n1 + n2);
                       MasterLoader.index_range (n1 + n2) (n1 + n2 + n3)] |}
          = (n1 + n2 + n3)%nat).
  { unfold MasterLoader.dataset_len; simpl. rewrite !length_app.
    subst n1 n2 n3. lia. }
  split_and!.
  - unfold MasterLoader.join_dataset_splits.
    cbn [length Nat.eqb negb py_index lookup list_lookup].
    rewrite !result_bind_ok, Hg0, Hg1, Hg2, !result_bind_ok.
    rewrite Hl0, Hl1, Hl2. fold n1 n2 n3.
    unfold MasterLoader.collate.
    destruct (MasterLoader.stored d0 ++ MasterLoader.stored d1
                ++ MasterLoader.stored d2) as [|g l] eqn:E; [done|].
    by rewrite result_bind_ok.
  - done.
  - done.
  - done.
  - unfold MasterLoader.index_range. f_equal; lia.
  - unfold MasterLoader.index_range. f_equal; lia.
  - unfold MasterLoader.index_range. f_equal; lia.
  - intros i. rewrite index_range_elem. lia.
  - intros i. rewrite index_range_elem. lia.
  - intros i. rewrite index_range_elem. lia.
  - intros i. rewrite !index_range_elem. lia.
  - intros i. rewrite Hlen, !index_range_elem. lia.
Qed.
End JoinDatasetSplits.

(** Two, one and three graphs: five positions are handed out in
    order. *)
Lemma join_dataset_splits_spec_witness :
  let d0 := {| MasterLoader.stored := [10; 11]%nat;
               MasterLoader.indices := None |} in
  let d1 := {| MasterLoader.stored := [20]%nat;
               MasterLoader.indices := None |} in
  let d2 := {| MasterLoader.stored := [30; 31; 32]%nat;
               MasterLoader.indices := None |} in
  exists joined s1 s2 s3,
    MasterLoader.join_dataset_splits nat [d0; d1; d2] = Ok joined /\
    MasterLoader.data joined = [10; 11; 20; 30; 31; 32]%nat /\
    MasterLoader.dataset_len joined = 6%nat /\
    MasterLoader.split_idxs joined = Some [s1; s2; s3] /\
    s1 = [0; 1]%nat /\ s2 = [2]%nat /\ s3 = [3; 4; 5]%nat /\
    (forall i, i ∈ s1 <-> (i < 2)%nat) /\
    (forall i, i ∈ s2 <-> (2 <= i < 3)%nat) /\
    (forall i, i ∈ s3 <-> (3 <= i < 6)%nat) /\
    (forall i, ~ (i ∈ s1 /\ i ∈ s2) /\ ~ (i ∈ s1 /\ i ∈ s3)
               /\ ~ (i ∈ s2 /\ i ∈ s3)) /\
    (forall i, (i < MasterLoader.dataset_len joined)%nat
               <-> i ∈ s1 \/ i ∈ s2 \/ i ∈ s3).
Proof.
  intros d0 d1 d2.
  apply (join_dataset_splits_spec [d0; d1; d2]); done.
Defined.

(** C5 (the claim as stated fails): three datasets without graphs are
    a list of three datasets, and [collate] raises on the empty list;
    and for a first dataset that is an index view showing the graph 8
    of the stored graphs 7 and 8, the joint dataset holds the graph 7,
    which [get] reads, and not the graph 8 of the dataset. *)
Lemma join_dataset_splits_empty_or_view :
  let empty := {| MasterLoader.stored := @nil nat;
                  MasterLoader.indices := None |} in
  let view := {| MasterLoader.stored := [7; 8]%nat;
                 MasterLoader.indices := Some [1%nat] |} in
  let d1 := {| MasterLoader.stored := [20]%nat;
               MasterLoader.indices := None |} in
  let d2 := {| MasterLoader.stored := [30]%nat;
               MasterLoader.indices := None |} in
  MasterLoader.join_dataset_splits nat [empty; empty; empty]
  = Raise (IndexError "list index out of range") /\
  MasterLoader.view_len view = 1%nat /\
  MasterLoader.view_getitem view 0 = Ok 8%nat /\
  MasterLoader.join_dataset_splits nat [view; d1; d2]
  = Ok {| MasterLoader.data := [7; 20; 30]%nat;
          MasterLoader.split_idxs := Some [[0]; [1]; [2]]%nat |}.
Proof. cbv zeta. split_and!; reflexivity. Qed.

(** ** collating_tokengt.py: the spectrum of the Laplacian *)

Lemma insert_sorted_perm x l : Tokengt.insert_sorted x l ≡ₚ x :: l.
Proof.
  induction l as [|y l IH]; simpl; [done|].
  case_match; [done|]. rewrite IH. apply Permutation_swap.
Qed.

Lemma np_sort_perm l : Tokengt.np_sort l ≡ₚ l.
Proof.
  induction l as [|x l IH]; simpl; [done|].
  unfold Tokengt.np_sort in *. simpl.
  by rewrite insert_sorted_perm, IH.
Qed.

Lemma insert_sorted_sorted x l :
  StronglySorted Qle l -> StronglySorted Qle (Tokengt.insert_sorted x l).
Proof.
  induction 1 as [|y l Hs IH Hall]; simpl.
  - repeat constructor.
  - destruct (Qle_bool x y) eqn:Hxy.
    + apply Qle_bool_iff in Hxy. constructor; [by constructor|].
      constructor; [done|].
      eapply Forall_impl; [exact Hall|]. intros z Hz. simpl in Hz.
      by apply Qle_trans with y.
    + assert (Hyx : (y <= x)%Q).
      { apply Qlt_le_weak, Qnot_le_lt. intros Hle.
        apply Qle_bool_iff in Hle. congruence. }
      constructor; [done|].
      rewrite (insert_sorted_perm x l). by constructor.
Qed.

Lemma np_sort_sorted l : StronglySorted Qle (Tokengt.np_sort l).
Proof.
  induction l as [|x l IH]; [constructor|].
  apply insert_sorted_sorted, IH.
Qed.

Lemma fmap_sorted (f : Q -> Q) l :
  (forall x y, (x <= y)%Q -> (f x <= f y)%Q) ->
  StronglySorted Qle l -> StronglySorted Qle (f <$> l).
Proof.
  intros Hf. induction 1 as [|y l Hs IH Hall]; simpl; constructor; [done|].
  rewrite Forall_fmap. eapply Forall_impl; [exact Hall|]. intros z Hz.
  by apply Hf.
Qed.

(** ** collating_tokengt.py: the Laplacian that is decomposed *)

Lemma dot_nil_r u : Tokengt.dot u [] = 0%Q.
Proof. by destruct u. Qed.

Lemma dot_cons x u y v :
  Tokengt.dot (x :: u) (y :: v) = (x * y + Tokengt.dot u v)%Q.
Proof. done. Qed.

(** A row whose only entry that may differ from 0 is at column [i]. *)
Lemma dot_unit_row (x : Q) (i : nat) (w : list Q) : forall s : nat,
  (Tokengt.dot ((fun k => if (i =? k)%nat then x else 0%Q)
                  <$> seq s (length w)) w
   == if (s <=? i)%nat then x * default 0%Q (w !! (i - s)%nat) else 0)%Q.
Proof.
  induction w as [|y w IH]; intros s.
  - cbn [length seq fmap list_fmap]. rewrite dot_nil_r.
    destruct (s <=? i)%nat; [|reflexivity].
    rewrite lookup_nil. simpl. ring.
  - cbn [length seq]. rewrite fmap_cons, dot_cons, (IH (S s)).
    destruct (Nat.eqb_spec i s) as [->|Hne].
    + rewrite Nat.leb_refl, Nat.sub_diag.
      destruct (Nat.leb_spec (S s) s) as [?|_]; [lia|]. simpl. ring.
    + destruct (Nat.leb_spec s i) as [Hle|Hgt].
      * destruct (Nat.leb_spec (S s) i) as [_|?]; [|lia].
        replace (i - s)%nat with (S (i - S s)) by lia. simpl. ring.
      * destruct (Nat.leb_spec (S s) i) as [?|_]; [lia|]. ring.
Qed.

(** A column whose only entry that may differ from 0 is at row [j]. *)
Lemma dot_unit_column (j : nat) (u v : list Q) : forall s : nat,
  (Tokengt.dot u (imap (fun k x => if (s + k =? j)%nat then x else 0%Q) v)
   == if (s <=? j)%nat
      then default 0%Q (u !! (j - s)%nat) * default 0%Q (v !! (j - s)%nat)
      else 0)%Q.
Proof.
  revert u. induction v as [|y v IH]; intros u s.
  - cbn [imap]. rewrite dot_nil_r, lookup_nil.
    destruct (s <=? j)%nat; simpl; ring.
  - destruct u as [|x u].
    { cbn. rewrite lookup_nil. destruct (s <=? j)%nat; simpl; ring. }
    cbn [imap]. rewrite dot_cons.
    rewrite (imap_ext _ (fun k x => if (S s + k =? j)%nat then x else 0%Q))
      by (intros k ? _; simpl; by replace (s + S k)%nat with (S (s + k)) by lia).
    rewrite (IH u (S s)). rewrite Nat.add_0_r.
    destruct (Nat.eqb_spec s j) as [->|Hne].
    + rewrite Nat.leb_refl, Nat.sub_diag.
      destruct (Nat.leb_spec (S j) j) as [?|_]; [lia|]. simpl. ring.
    + destruct (Nat.leb_spec s j) as [Hle|Hgt].
      * destruct (Nat.leb_spec (S s) j) as [_|?]; [|lia].
        replace (j - s)%nat with (S (j - S s)) by lia. simpl. ring.
      * destruct (Nat.leb_spec (S s) j) as [?|_]; [lia|]. ring.
Qed.

Lemma ncols_rows {A} (f : A -> list Q) (l : list A) (k : nat) :
  (forall x, length (f x) = k) -> l <> [] -> Tokengt.ncols (f <$> l) = k.
Proof. intros Hf Hl. destruct l as [|x l]; [done|]. apply Hf. Qed.

Lemma ncols_diag v : Tokengt.ncols (Tokengt.diag v) = length v.
Proof.
  destruct v as [|x v]; [done|].
  unfold Tokengt.ncols, Tokengt.diag. cbn [imap head from_option]. unfold id.
  by rewrite length_fmap, length_seq.
Qed.

Lemma ncols_eye n : Tokengt.ncols (Tokengt.eye n) = n.
Proof.
  destruct n as [|n]; [done|].
  unfold Tokengt.ncols, Tokengt.eye.
  change (seq 0 (S n)) with (0%nat :: seq 1 n) at 2. rewrite fmap_cons.
  cbn [head from_option]. unfold id. by rewrite length_fmap, length_seq.
Qed.

Lemma diag_lookup v i x :
  v !! i = Some x ->
  Tokengt.diag v !! i
  = Some ((fun j => if (i =? j)%nat then x else 0%Q) <$> seq 0 (length v)).
Proof. intros H. unfold Tokengt.diag. by rewrite list_lookup_imap, H. Qed.

Lemma column_diag v j :
  (j < length v)%nat ->
  Tokengt.column (Tokengt.diag v) j
  = imap (fun k x => if (0 + k =? j)%nat then x else 0%Q) v.
Proof.
  intros Hj. unfold Tokengt.column, Tokengt.diag. rewrite fmap_imap.
  apply imap_ext. intros k x _. simpl.
  rewrite list_lookup_fmap, lookup_seq_lt by done. done.
Qed.

Lemma entry_inside (m : Tokengt.matrix) i j :
  (i < Tokengt.nrows m)%nat -> (j < Tokengt.ncols m)%nat ->
  Tokengt.entry m i j = default 0%Q (default [] (m !! i) !! j).
Proof.
  intros Hi Hj. unfold Tokengt.entry.
  destruct (Nat.eqb_spec (Tokengt.nrows m) 1) as [H1|_];
    destruct (Nat.eqb_spec (Tokengt.ncols m) 1) as [H2|_];
    try (replace i with 0%nat by lia); try (replace j with 0%nat by lia);
    reflexivity.
Qed.

Lemma matmul_ok (a b : Tokengt.matrix) :
  Tokengt.ncols a = Tokengt.nrows b ->
  Tokengt.matmul a b
  = Ok ((fun row => (fun j => Tokengt.dot row (Tokengt.column b j))
                      <$> seq 0 (Tokengt.ncols b)) <$> a).
Proof. intros H. unfold Tokengt.matmul. by rewrite H, Nat.eqb_refl. Qed.

Lemma np_sub_ok (a b : Tokengt.matrix) (r c : nat) :
  Tokengt.nrows a = r -> Tokengt.nrows b = r ->
  Tokengt.ncols a = c -> Tokengt.ncols b = c ->
  Tokengt.np_sub a b
  = Ok ((fun i => (fun j => (Tokengt.entry a i j - Tokengt.entry b i j)%Q)
                    <$> seq 0 c) <$> seq 0 r).
Proof.
  intros Ha Hb Hca Hcb. unfold Tokengt.np_sub, Tokengt.broadcast_dim.
  by rewrite Ha, Hb, Hca, Hcb, !Nat.eqb_refl.
Qed.

Section Laplacian.
Variable single : Q -> Q.
Variable rsqrt : Q -> Q.

(** On a square adjacency array with one degree per node, the array
    of lines 55-57 is the normalized Laplacian. *)
Lemma laplacian_spec dense_adj n in_degree :
  length dense_adj = n ->
  Forall (fun row => length row = n) dense_adj ->
  length in_degree = n ->
  exists L,
    Tokengt.laplacian single rsqrt dense_adj n in_degree = Ok L /\
    Tokengt.is_normalized_laplacian single rsqrt L dense_adj in_degree n.
Proof.
  intros HA Hrows Hd. unfold Tokengt.laplacian.
  set (A := (fun row : list bool => _ <$> row) <$> dense_adj).
  set (v := _ <$> in_degree).
  assert (Hv : length v = n) by (subst v; by rewrite length_fmap).
  assert (HnA : Tokengt.nrows A = n).
  { subst A. unfold Tokengt.nrows. by rewrite length_fmap. }
  assert (HcA : Tokengt.ncols A = n).
  { subst A. destruct dense_adj as [|row rows]; [done|].
    unfold Tokengt.ncols. rewrite fmap_cons. cbn [head from_option].
    unfold id. rewrite length_fmap. by inversion Hrows. }
  (* num_nodes @ A *)
  rewrite (matmul_ok (Tokengt.diag v) A) by (by rewrite ncols_diag, Hv, HnA).
  rewrite result_bind_ok, HcA.
  set (NA := _ <$> Tokengt.diag v).
  assert (HnNA : Tokengt.nrows NA = n).
  { subst NA. unfold Tokengt.nrows, Tokengt.diag.
    by rewrite length_fmap, length_imap. }
  assert (HcNA : Tokengt.ncols NA = n).
  { destruct v as [|x v'] eqn:Ev; [by subst n|].
    subst NA. apply ncols_rows; [|done]. intros row.
    by rewrite length_fmap, length_seq. }
  (* ... @ num_nodes *)
  assert (HnD : Tokengt.nrows (Tokengt.diag v) = n).
  { unfold Tokengt.nrows, Tokengt.diag. by rewrite length_imap. }
  rewrite (matmul_ok NA (Tokengt.diag v)) by (by rewrite HcNA, HnD).
  rewrite result_bind_ok, ncols_diag, Hv.
  set (NAN := _ <$> NA).
  assert (HnNAN : Tokengt.nrows NAN = n).
  { subst NAN. unfold Tokengt.nrows in *. by rewrite length_fmap. }
  assert (HcNAN : Tokengt.ncols NAN = n).
  { destruct NA as [|x NA'] eqn:ENA; [by subst n|].
    subst NAN. apply ncols_rows; [|done]. intros row.
    by rewrite length_fmap, length_seq. }
  (* I - ... *)
  assert (HnI : Tokengt.nrows (Tokengt.eye n) = n).
  { unfold Tokengt.nrows, Tokengt.eye. by rewrite length_fmap, length_seq. }
  rewrite (np_sub_ok (Tokengt.eye n) NAN n n HnI HnNAN (ncols_eye n) HcNAN).
  eexists. split; [reflexivity|].
  split; [by rewrite length_fmap, length_seq|].
  intros i j Hi Hj.
  eexists _, _. split_and!.
  - rewrite list_lookup_fmap, lookup_seq_lt by done. reflexivity.
  - by rewrite length_fmap, length_seq.
  - rewrite list_lookup_fmap, lookup_seq_lt by done. reflexivity.
  - cbn [plus].
    destruct (lookup_lt_is_Some_2 in_degree i) as [zi Hzi]; [lia|].
    destruct (lookup_lt_is_Some_2 in_degree j) as [zj Hzj]; [lia|].
    destruct (lookup_lt_is_Some_2 dense_adj i) as [ri Hri]; [lia|].
    assert (Hlri : length ri = n).
    { by apply (proj1 (Forall_lookup _ _) Hrows i ri). }
    destruct (lookup_lt_is_Some_2 ri j) as [b Hb]; [lia|].
    unfold Tokengt.normalized_laplacian_entry, Tokengt.inv_sqrt_degree,
      Tokengt.adjacency.
    rewrite Hzi, Hzj, Hri. cbn [from_option]. unfold id.
    rewrite Hb. cbn [from_option]. unfold id.
    (* the entry of the identity *)
    rewrite (entry_inside (Tokengt.eye n)) by (rewrite ?HnI, ?ncols_eye; done).
    unfold Tokengt.eye at 1.
    rewrite list_lookup_fmap, lookup_seq_lt by done.
    cbn [fmap option_fmap option_map from_option]. unfold id.
    rewrite list_lookup_fmap, lookup_seq_lt by done.
    cbn [fmap option_fmap option_map from_option plus]. unfold id.
    (* the entry of the product *)
    rewrite (entry_inside NAN) by (rewrite ?HnNAN, ?HcNAN; done).
    assert (Hvi : v !! i = Some (rsqrt (Qmax (single (inject_Z zi)) 1))).
    { subst v. by rewrite list_lookup_fmap, Hzi. }
    assert (Hvj : v !! j = Some (rsqrt (Qmax (single (inject_Z zj)) 1))).
    { subst v. by rewrite list_lookup_fmap, Hzj. }
    subst NAN NA. rewrite !list_lookup_fmap, (diag_lookup _ _ _ Hvi).
    cbn [fmap option_fmap option_map from_option]. unfold id.
    rewrite list_lookup_fmap, lookup_seq_lt by done.
    cbn [fmap option_fmap option_map from_option plus]. unfold id.
    rewrite column_diag by lia.
    rewrite (dot_unit_column j _ v 0). cbn [Nat.leb]. rewrite Nat.sub_0_r.
    rewrite Hvj, list_lookup_fmap, lookup_seq_lt by lia.
    cbn [fmap option_fmap option_map from_option plus].
    assert (Hcol : length (Tokengt.column A j) = length v).
    { unfold Tokengt.column. rewrite length_fmap. unfold Tokengt.nrows in HnA.
      lia. }
    rewrite <- Hcol, (dot_unit_row _ i (Tokengt.column A j) 0).
    cbn [Nat.leb]. rewrite Nat.sub_0_r.
    unfold Tokengt.column. subst A.
    rewrite !list_lookup_fmap, Hri.
    cbn [fmap option_fmap option_map from_option].
    rewrite list_lookup_fmap, Hb.
    cbn [fmap option_fmap option_map from_option]. unfold id.
    reflexivity.
Qed.
End Laplacian.

(** ** collating_tokengt.py: the spectrum that is returned *)

Section EigProps.
Variable eigh : Tokengt.matrix -> result (list Q * Tokengt.matrix).
Variable single : Q -> Q.
Variable rsqrt : Q -> Q.

(** Rounding to single precision keeps the order and does not turn 0
    into a negative number. *)
Hypothesis single_mono : forall x y, (x <= y)%Q -> (single x <= single y)%Q.
Hypothesis single_zero : (0 <= single 0)%Q.

Lemma eig_spec sym_mat :
  match Tokengt.eig eigh single sym_mat with
  | Ok (eigvec, eigval) =>
      exists EigVal EigVec,
        eigh sym_mat = Ok (EigVal, EigVec) /\
        eigvec = (fun row : list Q => single <$> row) <$> EigVec /\
        eigval ≡ₚ single <$> (Qabs <$> EigVal) /\
        Forall (fun v => (0 <= v)%Q) eigval /\
        StronglySorted Qle eigval
  | Raise e => eigh sym_mat = Raise e
  end.
Proof.
  unfold Tokengt.eig. destruct (eigh sym_mat) as [[EigVal EigVec]|e]; [|done].
  exists EigVal, EigVec. split_and!; [done..| | |].
  - by rewrite np_sort_perm.
  - rewrite np_sort_perm, !Forall_fmap. apply Forall_true. intros x. simpl.
    apply Qle_trans with (single 0); [done|]. apply single_mono, Qabs_nonneg.
  - apply fmap_sorted; [done|]. apply np_sort_sorted.
Qed.

(** C10: [lap_eig] decomposes the array [L] of lines 55-57.  When
    [eigh] returns, the eigenvalue array of [lap_eig] holds the rounded
    absolute values of the eigenvalues of [L], entrywise non-negative
    and in non-decreasing order, and the eigenvector array is that of
    [eigh], rounded, in the order in which [eigh] gave it; [lap_eig]
    raises what numpy raises on arrays whose shapes do not fit, or what
    [eigh] raises on [L].  On a square adjacency array with one degree
    per node the shapes fit and [L] is the normalized Laplacian. *)
Theorem lap_eig_spec dense_adj number_of_nodes in_degree :
  match Tokengt.lap_eig eigh single rsqrt dense_adj number_of_nodes
          in_degree with
  | Ok (eigvec, eigval) =>
      exists L EigVal EigVec,
        Tokengt.laplacian single rsqrt dense_adj number_of_nodes in_degree
        = Ok L /\
        eigh L = Ok (EigVal, EigVec) /\
        eigvec = (fun row : list Q => single <$> row) <$> EigVec /\
        eigval ≡ₚ single <$> (Qabs <$> EigVal) /\
        Forall (fun v => (0 <= v)%Q) eigval /\
        StronglySorted Qle eigval
  | Raise e =>
      Tokengt.laplacian single rsqrt dense_adj number_of_nodes in_degree
      = Raise e \/
      exists L,
        Tokengt.laplacian single rsqrt dense_adj number_of_nodes in_degree
        = Ok L /\ eigh L = Raise e
  end /\
  (length dense_adj = number_of_nodes ->
   Forall (fun row => length row = number_of_nodes) dense_adj ->
   length in_degree = number_of_nodes ->
   exists L,
     Tokengt.laplacian single rsqrt dense_adj number_of_nodes in_degree
     = Ok L /\
     Tokengt.is_normalized_laplacian single rsqrt L dense_adj in_degree
       number_of_nodes).
Proof.
  split; [|apply laplacian_spec].
  unfold Tokengt.lap_eig.
  destruct (Tokengt.laplacian single rsqrt dense_adj number_of_nodes
              in_degree) as [L|e]; [|by left].
  rewrite result_bind_ok. pose proof (eig_spec L) as H.
  destruct (Tokengt.eig eigh single L) as [[eigvec eigval]|e].
  - destruct H as (EigVal & EigVec & H). exists L, EigVal, EigVec. by split.
  - right. by exists L.
Qed.
End EigProps.

(** A path on two nodes: the array decomposed is the normalized
    Laplacian [[1; -1]; [-1; 1]]; the eigenvalue array is sorted after
    the absolute value is taken, the eigenvector array is the one
    [eigh] returned. *)
Lemma lap_eig_spec_witness :
  match Tokengt.lap_eig Tokengt.eigh_two_nodes id (fun x => x)
          [[false; true]; [true; false]] 2 [1; 1] with
  | Ok (eigvec, eigval) =>
      exists L EigVal EigVec,
        Tokengt.laplacian id (fun x => x) [[false; true]; [true; false]] 2
          [1; 1] = Ok L /\
        Tokengt.eigh_two_nodes L = Ok (EigVal, EigVec) /\
        eigvec = (fun row : list Q => id <$> row) <$> EigVec /\
        eigval ≡ₚ id <$> (Qabs <$> EigVal) /\
        Forall (fun v => (0 <= v)%Q) eigval /\
        StronglySorted Qle eigval
  | Raise e =>
      Tokengt.laplacian id (fun x => x) [[false; true]; [true; false]] 2
        [1; 1] = Raise e \/
      exists L,
        Tokengt.laplacian id (fun x => x) [[false; true]; [true; false]] 2
          [1; 1] = Ok L /\ Tokengt.eigh_two_nodes L = Raise e
  end /\
  exists L,
    Tokengt.laplacian id (fun x => x) [[false; true]; [true; false]] 2 [1; 1]
    = Ok L /\
    Tokengt.is_normalized_laplacian id (fun x => x) L
      [[false; true]; [true; false]] [1; 1] 2.
Proof.
  assert (Hmono : forall x y : Q, (x <= y)%Q -> (id x <= id y)%Q)
    by (intros x y H; exact H).
  assert (Hzero : (0 <= id 0)%Q) by (vm_compute; discriminate).
  destruct (lap_eig_spec Tokengt.eigh_two_nodes id (fun x => x) Hmono Hzero
              [[false; true]; [true; false]] 2%nat [1; 1]) as [H1 H2].
  split; [exact H1|]. apply H2.
  - reflexivity.
  - repeat constructor.
  - reflexivity.
Defined.

(** A degree vector that is longer than the adjacency array has rows is
    refused by the first product. *)
Example lap_eig_shape_mismatch :
  Tokengt.lap_eig Tokengt.eigh_two_nodes id (fun x => x)
    [[false; true]; [true; false]] 2 [1; 1; 1]
  = Raise (ValueError
      "matmul: Input operand 1 has a mismatch in its core dimension 0").
Proof. reflexivity. Qed.

(** The identity on one node is broadcast against the product. *)
Example lap_eig_broadcast :
  Tokengt.np_sub (Tokengt.eye 1) [[1; 2]; [3; 4]]%Q
  = Ok [[1 - 1; 1 - 2]; [1 - 3; 1 - 4]]%Q.
Proof. reflexivity. Qed.

(** Eigenvalues [-3, 1] come back as [1, 3] while the eigenvectors keep
    the order of [eigh]: column 0 still belongs to the eigenvalue -3. *)
Example eig_not_reordered :
  Tokengt.eig (fun _ => Ok ([-3; 1]%Q, [[1; 0]; [0; 1]]%Q)) id []
  = Ok ([[1; 0]; [0; 1]]%Q, [1; 3]%Q).
Proof. reflexivity. Qed.

(** ** master_loader.py: the cache of the positional encodings *)

Lemma posenc_key_split key :
  String.prefix "posenc_" key = true ->
  exists rest,
    key = "posenc_" +:+ rest /\ MasterLoader.after_underscore key = Ok rest.
Proof.
  intros H.
  do 7 (destruct key as [|? key]; cbn [String.prefix] in H; [done|];
        destruct (ascii_dec _ _) as [<-|]; [|done]).
  exists key. by split.
Qed.

Section PosencCache.
Context {graph file : Type}.
Variable torch_load : file -> result (MasterLoader.dataset graph).
Variable torch_save : MasterLoader.dataset graph -> file.
Variable eval_times : string -> result (list Q).
Variable total_num_nodes : MasterLoader.dataset graph -> Z.
Variable num_nodes : graph -> nat.
Variable num_edges : graph -> nat.
Variable is_undirected : graph -> bool.
Variable compute_posenc_stats : list string -> bool -> graph -> graph.
Variable pre_transform_in_memory :
  (graph -> graph) -> MasterLoader.dataset graph -> MasterLoader.dataset graph.
Variable generate_random_expander : nat -> graph -> graph.
Variable add_dist_features : Z -> bool -> graph -> graph.
Variable er_dim : nat -> Q -> Z.
Variable effective_resistance_embedding : Z -> graph -> graph.
Variable effective_resistances_from_embedding : graph -> graph.

Local Abbreviation pe_enabled_list :=
  (MasterLoader.pe_enabled_list eval_times).
Local Abbreviation posenc_stage :=
  (MasterLoader.posenc_stage graph file torch_load torch_save eval_times
     is_undirected compute_posenc_stats pre_transform_in_memory).
Local Abbreviation load_dataset_master :=
  (MasterLoader.load_dataset_master graph file torch_load torch_save
     eval_times total_num_nodes num_nodes num_edges is_undirected
     compute_posenc_stats pre_transform_in_memory generate_random_expander
     add_dist_features er_dim effective_resistance_embedding
     effective_resistances_from_embedding).
Local Abbreviation quiet t :=
  (Forall (fun ev => MasterLoader.is_posenc_event ev = false) t).
Local Abbreviation posenc_events t :=
  (filter (fun ev => MasterLoader.is_posenc_event ev = true) t).

Lemma quiet_filter t : quiet t -> posenc_events t = [].
Proof.
  induction 1 as [|ev t Hev _ IH]; [done|].
  rewrite filter_cons. rewrite Hev. simpl. by rewrite IH.
Qed.

Lemma kernel_times_quiet pe_name p :
  quiet (trace_of (MasterLoader.kernel_times eval_times pe_name p)).
Proof.
  unfold MasterLoader.kernel_times. destruct (MasterLoader.kernel p) as [k|];
    [|apply Forall_nil_2].
  apply forall_trace_bind.
  - destruct (negb _); apply Forall_nil_2.
  - intros times _. by apply forall_trace_emit.
Qed.

Lemma pe_enabled_list_quiet its : quiet (trace_of (pe_enabled_list its)).
Proof.
  induction its as [|item its IH]; cbn [MasterLoader.pe_enabled_list];
    [apply Forall_nil_2|].
  destruct (MasterLoader.pe_selected item); [|done].
  apply forall_trace_bind; [apply Forall_nil_2|]. intros pe_name _.
  apply forall_trace_bind; [apply kernel_times_quiet|]. intros [] _.
  apply forall_trace_bind; [done|]. intros names _. apply Forall_nil_2.
Qed.

Lemma pe_enabled_list_nil its t names :
  pe_enabled_list its = (t, Ok names) ->
  names = [] <-> existsb MasterLoader.pe_selected its = false.
Proof.
  revert t names. induction its as [|item its IH]; intros t names H;
    cbn [MasterLoader.pe_enabled_list existsb] in *.
  - by injection H as _ <-.
  - destruct (MasterLoader.pe_selected item); cbn [orb]; [|by eapply IH].
    apply bind_ok_inv in H as (? & pe_name & ? & _ & H & _).
    apply bind_ok_inv in H as (? & [] & ? & _ & H & _).
    apply bind_ok_inv in H as (? & names' & ? & _ & H & _).
    injection H as _ <-. done.
Qed.

Lemma add_expanders_quiet rounds ds :
  quiet (trace_of (MasterLoader.add_expanders graph pre_transform_in_memory
                     generate_random_expander rounds ds)).
Proof.
  revert ds. induction rounds as [|j rounds IH]; intros ds;
    cbn [MasterLoader.add_expanders]; [apply Forall_nil_2|].
  apply forall_trace_bind; [by apply forall_trace_emit|]. intros [] _.
  apply IH.
Qed.

Lemma add_dist_quiet ds :
  quiet (trace_of (MasterLoader.add_dist graph num_nodes is_undirected
                     pre_transform_in_memory add_dist_features ds)).
Proof.
  unfold MasterLoader.add_dist.
  apply forall_trace_bind; [apply Forall_nil_2|]. intros g _.
  apply forall_trace_bind; [apply Forall_nil_2|]. intros Max_N _.
  apply forall_trace_bind; [by apply forall_trace_emit|]. intros [] _.
  apply Forall_nil_2.
Qed.

Lemma add_effective_resistance_quiet c ds :
  quiet (trace_of (MasterLoader.add_effective_resistance graph num_nodes
                     num_edges pre_transform_in_memory er_dim
                     effective_resistance_embedding
                     effective_resistances_from_embedding c ds)).
Proof.
  unfold MasterLoader.add_effective_resistance.
  apply forall_trace_bind; [apply Forall_nil_2|]. intros ks _.
  apply forall_trace_bind; [apply Forall_nil_2|]. intros MaxK _.
  apply forall_trace_bind; [by apply forall_trace_emit|]. intros [] _.
  apply Forall_nil_2.
Qed.

(** A stage that leaves the files alone, followed by stages that do. *)
Lemma quiet_then {A} (m : run MasterLoader.event A)
    (k : A -> run MasterLoader.event
                (MasterLoader.dataset graph * gmap string file))
    (fs1 : gmap string file) :
  quiet (trace_of m) ->
  (forall a, quiet (trace_of (k a)) /\
             forall ds2 fs2, outcome (k a) = Ok (ds2, fs2) -> fs2 = fs1) ->
  quiet (trace_of (m ≫= k)) /\
  forall ds2 fs2, outcome (m ≫= k) = Ok (ds2, fs2) -> fs2 = fs1.
Proof.
  intros Hm Hk. split.
  - apply forall_trace_bind; [done|]. intros a _. apply Hk.
  - intros ds2 fs2. rewrite outcome_bind.
    destruct (outcome m) as [a|e]; [apply Hk|done].
Qed.

Lemma log_loaded_dataset_ok ds :
  MasterLoader.dataset_len ds <> 0%nat ->
  MasterLoader.log_loaded_dataset graph total_num_nodes ds
  = ([MasterLoader.EvLogLoadedDataset (MasterLoader.dataset_len ds)
        (total_num_nodes ds / Z.of_nat (MasterLoader.dataset_len ds))],
     Ok tt).
Proof.
  intros Hlen. unfold MasterLoader.log_loaded_dataset, MasterLoader.py_floordiv.
  destruct (Z.eqb_spec (Z.of_nat (MasterLoader.dataset_len ds)) 0) as [?|_];
    [lia|].
  by rewrite bind_lift_ok.
Qed.

(** What precedes [posenc_stage] in [load_dataset_master] is the log of
    the dataset; what follows neither reads nor writes the file and
    computes no statistics. *)
Lemma load_dataset_master_trace c ds fs t r :
  MasterLoader.dataset_len ds <> 0%nat ->
  posenc_stage c ds fs = (t, r) ->
  exists t',
    trace_of (load_dataset_master c ds fs)
    = MasterLoader.EvLogLoadedDataset (MasterLoader.dataset_len ds)
        (total_num_nodes ds / Z.of_nat (MasterLoader.dataset_len ds))
      :: t ++ t' /\
    quiet t' /\
    match r with
    | Ok (ds1, fs1) =>
        forall ds2 fs2,
          outcome (load_dataset_master c ds fs) = Ok (ds2, fs2) -> fs2 = fs1
    | Raise e => outcome (load_dataset_master c ds fs) = Raise e
    end.
Proof.
  intros Hlen Hst. unfold MasterLoader.load_dataset_master.
  rewrite trace_bind, outcome_bind, (log_loaded_dataset_ok ds Hlen).
  cbn [trace_of outcome fst snd].
  rewrite trace_bind, outcome_bind, Hst. cbn [trace_of outcome fst snd app].
  destruct r as [[ds1 fs1]|e].
  - match goal with |- context [trace_of ?m] => set (rest := m) end.
    assert (Hrest : quiet (trace_of rest) /\
              forall ds2 fs2, outcome rest = Ok (ds2, fs2) -> fs2 = fs1).
    { subst rest. apply quiet_then.
      { destruct (MasterLoader.prep_exp c);
          [apply add_expanders_quiet|apply Forall_nil_2]. }
      intros dse. apply quiet_then.
      { destruct (MasterLoader.prep_dist_enable c);
          [apply add_dist_quiet|apply Forall_nil_2]. }
      intros dsd. apply quiet_then.
      { destruct (_ || _);
          [apply add_effective_resistance_quiet|apply Forall_nil_2]. }
      intros dsr. split; [apply Forall_nil_2|]. by intros ? ? [= _ <-]. }
    destruct Hrest as [Hq Hfs]. exists (trace_of rest). by split_and!.
  - exists []. by split_and!.
Qed.

(** A run that does not get to line 104 ends in the log of an empty
    dataset or in the [eval] of a kernel snippet; it looks for no file
    and computes no statistics. *)
Lemma load_dataset_master_before_cache c ds fs :
  (MasterLoader.dataset_len ds = 0%nat ->
   load_dataset_master c ds fs = ([], Raise ZeroDivisionError)) /\
  (forall t0 e,
     MasterLoader.dataset_len ds <> 0%nat ->
     pe_enabled_list (MasterLoader.items c) = (t0, Raise e) ->
     quiet t0 /\
     load_dataset_master c ds fs
     = (MasterLoader.EvLogLoadedDataset (MasterLoader.dataset_len ds)
          (total_num_nodes ds / Z.of_nat (MasterLoader.dataset_len ds))
        :: t0, Raise e)).
Proof.
  split.
  - intros Hlen. unfold MasterLoader.load_dataset_master,
      MasterLoader.log_loaded_dataset, MasterLoader.py_floordiv.
    by rewrite Hlen.
  - intros t0 e Hlen Hlist. split.
    { pose proof (pe_enabled_list_quiet (MasterLoader.items c)) as Hq.
      by rewrite Hlist in Hq. }
    assert (Hst : posenc_stage c ds fs = (t0, Raise e)).
    { unfold MasterLoader.posenc_stage. by rewrite (bind_raise _ _ _ _ Hlist). }
    unfold MasterLoader.load_dataset_master.
    rewrite (bind_ok _ _ _ _ (log_loaded_dataset_ok ds Hlen)).
    by rewrite (bind_raise _ _ _ _ Hst).
Qed.

End PosencCache.

(** ** custom_train.py: gradient accumulation in [train_epoch] *)

Section TrainEpochProps.
Variable c : CustomTrain.config.

Lemma train_iters_trace len ba iter (batches : list CustomTrain.batch) :
  ba <> 0 -> CustomTrain.loader_ok c batches ->
  CustomTrain.train_iters c len ba iter batches
  = (seq iter (length batches) ≫= CustomTrain.iteration_events c len ba,
     Ok tt).
Proof.
  intros Hba Hok. revert iter.
  induction Hok as [|b batches Hb _ IH]; intros iter; [done|].
  cbn [CustomTrain.train_iters length seq].
  rewrite bind_cons. unfold CustomTrain.train_iter.
  rewrite Hb. unfold CustomTrain.py_mod.
  destruct (Z.eqb_spec ba 0) as [|_]; [done|].
  rewrite (IH (S iter)).
  generalize (seq (S iter) (length batches)
              ≫= CustomTrain.iteration_events c len ba).
  intros rest. unfold CustomTrain.iteration_events, CustomTrain.steps_at.
  simpl.
  destruct (_ || _); destruct (CustomTrain.optim_clip_grad_norm c); done.
Qed.

Lemma step_in_iteration_events len ba k ev :
  ev ∈ CustomTrain.iteration_events c len ba k ->
  match ev with
  | CustomTrain.EvStep i | CustomTrain.EvZeroGrad i
  | CustomTrain.EvScalerUpdate i =>
      i = k /\ CustomTrain.steps_at len ba k = true
  | CustomTrain.EvClipGradNorm i _ | CustomTrain.EvUnscale i =>
      i = k /\ CustomTrain.steps_at len ba k = true
      /\ CustomTrain.optim_clip_grad_norm c = true
  | CustomTrain.EvBackward i | CustomTrain.EvForward _ i
  | CustomTrain.EvUpdateStats _ i => i = k
  | _ => False
  end.
Proof.
  unfold CustomTrain.iteration_events.
  destruct (CustomTrain.steps_at len ba k);
    destruct (CustomTrain.optim_clip_grad_norm c); simpl;
    rewrite ?elem_of_cons, elem_of_nil; intros H;
    repeat (destruct H as [->|H]; [done|]); done.
Qed.

Local Ltac in_events :=
  simpl; rewrite ?elem_of_app, ?elem_of_cons; auto 12.

(** C4: in an epoch over a loader whose batches all go through, with a
    non-zero [batch_accumulation], every iteration runs the backward
    pass, and the optimizer is stepped and its gradients are zeroed at
    iteration [iter] exactly when [iter + 1] is a multiple of
    [batch_accumulation] or equals the number of batches; the gradients
    are clipped to norm 1, right before that step, exactly when
    [cfg.optim.clip_grad_norm] is set. *)
Theorem train_epoch_optimizer_steps (l : CustomTrain.loader) (ba : Z) :
  ba <> 0 -> CustomTrain.loader_ok c l ->
  let stepping iter :=
    (iter < length l)%nat /\
    ((Z.of_nat iter + 1) mod ba = 0 \/ (iter + 1)%nat = length l) in
  exists t,
    CustomTrain.train_epoch c l ba = (t, Ok tt) /\
    (forall iter, CustomTrain.EvBackward iter ∈ t <-> (iter < length l)%nat) /\
    (forall iter, CustomTrain.EvStep iter ∈ t <-> stepping iter) /\
    (forall iter, CustomTrain.EvZeroGrad iter ∈ t <-> stepping iter) /\
    (forall iter q,
       CustomTrain.EvClipGradNorm iter q ∈ t <->
       CustomTrain.optim_clip_grad_norm c = true /\ q = 1%Q /\ stepping iter) /\
    (forall iter, stepping iter ->
       exists before after,
         t = before
             ++ [CustomTrain.EvBackward iter]
             ++ (if CustomTrain.optim_clip_grad_norm c
                 then [CustomTrain.EvUnscale iter;
                       CustomTrain.EvClipGradNorm iter 1]
                 else [])
             ++ [CustomTrain.EvStep iter; CustomTrain.EvScalerUpdate iter;
                 CustomTrain.EvZeroGrad iter]
             ++ after).
Proof.
  intros Hba Hok stepping.
  assert (Hstep : forall iter, stepping iter <->
            (iter < length l)%nat /\
            CustomTrain.steps_at (length l) ba iter = true).
  { intros iter. unfold stepping, CustomTrain.steps_at.
    rewrite orb_true_iff, Z.eqb_eq, Nat.eqb_eq. done. }
  eexists. split.
  { unfold CustomTrain.train_epoch. rewrite train_iters_trace by done.
    rewrite bind_emit. reflexivity. }
  simpl.
  assert (Hin : forall ev, ev <> CustomTrain.EvModelTrain ->
    ev ∈ CustomTrain.EvModelTrain
         :: (seq 0 (length l) ≫= CustomTrain.iteration_events c (length l) ba)
    <-> exists k, (k < length l)%nat /\
          ev ∈ CustomTrain.iteration_events c (length l) ba k).
  { intros ev Hev. rewrite elem_of_cons, list_elem_of_bind.
    setoid_rewrite elem_of_seq. split.
    - intros [?|(k & ? & ?)]; [done|]. exists k. split; [lia|done].
    - intros (k & ? & ?). right. exists k. split; [done|lia]. }
  split_and!.
  - intros iter. rewrite Hin by done. split.
    + intros (k & Hk & Hev%step_in_iteration_events). simpl in Hev.
      by subst.
    + intros Hit. exists iter. split; [done|].
      unfold CustomTrain.iteration_events. in_events.
  - intros iter. rewrite Hin, Hstep by done. split.
    + intros (k & Hk & Hev%step_in_iteration_events). simpl in Hev.
      by destruct Hev as [-> ?].
    + intros [Hit Hs]. exists iter. split; [done|].
      unfold CustomTrain.iteration_events. rewrite Hs.
      destruct (CustomTrain.optim_clip_grad_norm c); in_events.
  - intros iter. rewrite Hin, Hstep by done. split.
    + intros (k & Hk & Hev%step_in_iteration_events). simpl in Hev.
      by destruct Hev as [-> ?].
    + intros [Hit Hs]. exists iter. split; [done|].
      unfold CustomTrain.iteration_events. rewrite Hs.
      destruct (CustomTrain.optim_clip_grad_norm c); in_events.
  - intros iter q. rewrite Hin, Hstep by done. split.
    + intros (k & Hk & Hev).
      pose proof (step_in_iteration_events _ _ _ _ Hev) as Hev'.
      simpl in Hev'. destruct Hev' as (-> & Hs & Hc).
      split_and!; [done| |done..].
      unfold CustomTrain.iteration_events in Hev. rewrite Hs, Hc in Hev.
      simpl in Hev. rewrite !elem_of_cons, elem_of_nil in Hev.
      repeat (destruct Hev as [?|Hev]; [congruence|]). done.
    + intros (Hc & -> & Hit & Hs). exists iter. split; [done|].
      unfold CustomTrain.iteration_events. rewrite Hs, Hc. in_events.
  - intros iter [Hit Hs]%Hstep.
    destruct (list_elem_of_split_length (seq 0 (length l)) iter iter)
      as (l1 & l2 & Hl & _).
    { apply lookup_seq. done. }
    rewrite Hl, bind_app, bind_cons.
    unfold CustomTrain.iteration_events at 2. rewrite Hs.
    eexists (CustomTrain.EvModelTrain :: (l1 ≫= _)
             ++ [CustomTrain.EvForward "train" iter]), _.
    simpl. rewrite <- !app_assoc. simpl. reflexivity.
Qed.
End TrainEpochProps.

(** ** Missing optional dependencies *)

(** C6: with [cfg.wandb.use] set and [import wandb] failing,
    [custom_train] raises [ImportError("WandB is not installed.")]
    before anything else happens; and when the import of the PCQM4Mv2
    dataset class fails with an import error, [preformat_OGB_PCQM4Mv2]
    logs that RDKit must be installed and raises that import error. *)
Theorem missing_dependency_raises_import_error
    (c : CustomTrain.config) (w : CustomTrain.world) (e e' : exn)
    (name : string) :
  CustomTrain.wandb_use c = true ->
  CustomTrain.import_wandb w = Some e ->
  is_import_error e' = true ->
  CustomTrain.custom_train c w
    = ([], Raise (ImportError "WandB is not installed.")) /\
  MasterLoader.preformat_OGB_PCQM4Mv2 (Some e') name
    = ([MasterLoader.EvLoggingError
          "ERROR: Failed to import PygPCQM4Mv2Dataset, make sure RDKit is installed."],
       Raise e') /\
  exists msg, e' = ImportError msg \/ e' = ModuleNotFoundError msg.
Proof.
  intros Huse Himp He'. split_and!.
  - unfold CustomTrain.custom_train. rewrite Huse, Himp. done.
  - done.
  - destruct e'; try done; eauto.
Qed.

(** ** gnn/train.py: argument checks and the saved test arrays *)

Section MainProps.
Variable w : GnnTrain.world.

Local Abbreviation no_data_loading t :=
  (Forall (fun ev => GnnTrain.is_data_loading ev = false) t).
Local Abbreviation no_np_save t :=
  (Forall (fun ev => GnnTrain.is_np_save ev = false) t).

Lemma read_arguments_trace args t r :
  GnnTrain.read_arguments w args = (t, r) ->
  no_data_loading t /\ no_np_save t.
Proof.
  unfold GnnTrain.read_arguments, call. intros H.
  repeat (case_match; simpl in *; simplify_eq);
    split; repeat constructor.
Qed.

Lemma check_arguments_trace a t r :
  GnnTrain.check_arguments a = (t, r) -> t = [].
Proof.
  unfold GnnTrain.check_arguments, GnnTrain.contains.
  destruct (bool_decide _);
    [|destruct (GnnTrain.monitor_loss_name a) as [m|]; [|by intros [= <- <-]]];
    rewrite bind_lift_ok;
    destruct (GnnTrain.opt_in (GnnTrain.dataset a) GnnTrain.regression_datasets);
    destruct (GnnTrain.regression_loss_fn a);
    destruct (GnnTrain.opt_in (GnnTrain.dataset a) GnnTrain.target_datasets);
    destruct (GnnTrain.dataset_target_name a);
    by intros [= <- <-].
Qed.

(** With a monitored loss given, the two assertions decide the outcome
    of [check_arguments]. *)
Lemma check_arguments_asserts a :
  is_Some (GnnTrain.monitor_loss_name a) ->
  GnnTrain.missing_loss_fn a || GnnTrain.missing_target a = true ->
  GnnTrain.check_arguments a
  = ([], Raise (AssertionError
       (if GnnTrain.missing_loss_fn a
        then "A loss functions must be specified for regression tasks!"
        else "A target must be specified for QM9 and DOCKSTRING!"))).
Proof.
  intros [m Hm]. unfold GnnTrain.missing_loss_fn, GnnTrain.missing_target.
  unfold GnnTrain.check_arguments, GnnTrain.contains. rewrite Hm.
  destruct (bool_decide (Some m = Some "MCC")); rewrite bind_lift_ok;
    destruct (GnnTrain.opt_in (GnnTrain.dataset a) GnnTrain.regression_datasets);
    destruct (GnnTrain.regression_loss_fn a);
    destruct (GnnTrain.opt_in (GnnTrain.dataset a) GnnTrain.target_datasets);
    destruct (GnnTrain.dataset_target_name a); done.
Qed.

(** C2 (as amended): when the arguments are read and validated, the
    seeding goes through and a monitored loss is named, a regression
    dataset without a regression loss function, or QM9 or DOCKSTRING
    without a target name, makes [main] fail with the assertion error of
    line 118 or 121, and no data is loaded. *)
Theorem main_asserts_required_arguments args t0 argsdict :
  GnnTrain.read_arguments w args = (t0, Ok argsdict) ->
  GnnTrain.seed_everything w (GnnTrain.seed argsdict) = None ->
  is_Some (GnnTrain.monitor_loss_name argsdict) ->
  GnnTrain.missing_loss_fn argsdict || GnnTrain.missing_target argsdict = true ->
  exists t,
    GnnTrain.main w args
    = (t, Raise (AssertionError
         (if GnnTrain.missing_loss_fn argsdict
          then "A loss functions must be specified for regression tasks!"
          else "A target must be specified for QM9 and DOCKSTRING!"))) /\
    no_data_loading t.
Proof.
  intros Hread Hseed Hmon Hmiss. unfold GnnTrain.main.
  rewrite (bind_ok _ _ _ _ Hread), Hseed, bind_call_ok.
  rewrite (check_arguments_asserts _ Hmon Hmiss). simpl.
  eexists. split; [done|].
  apply Forall_app. split; [by eapply read_arguments_trace|].
  by repeat constructor.
Qed.

(** Whatever the validation, the seeding and the monitored loss are,
    with such arguments [main] stops before any data is loaded. *)
Lemma main_stops_before_data_loading args t0 argsdict :
  GnnTrain.read_arguments w args = (t0, Ok argsdict) ->
  GnnTrain.missing_loss_fn argsdict || GnnTrain.missing_target argsdict = true ->
  exists t e, GnnTrain.main w args = (t, Raise e) /\ no_data_loading t.
Proof.
  intros Hread Hmiss. unfold GnnTrain.main.
  rewrite (bind_ok _ _ _ _ Hread).
  pose proof (read_arguments_trace _ _ _ Hread) as [Ht0 _].
  destruct (GnnTrain.seed_everything w (GnnTrain.seed argsdict)) as [e|].
  { rewrite bind_call_raise. simpl. eexists _, _. split; [done|].
    apply Forall_app. split; [done|]. by repeat constructor. }
  rewrite bind_call_ok.
  destruct (GnnTrain.monitor_loss_name argsdict) as [m|] eqn:Hm.
  - rewrite (check_arguments_asserts argsdict) by (by rewrite ?Hm).
    simpl. eexists _, _. split; [done|]. apply Forall_app. split; [done|].
    by repeat constructor.
  - unfold GnnTrain.check_arguments. rewrite Hm. simpl.
    eexists _, _. split; [done|]. apply Forall_app. split; [done|].
    by repeat constructor.
Qed.
End MainProps.

Lemma prefix_append (a b : string) : String.prefix a (a +:+ b) = true.
Proof.
  induction a as [|ch a IH]; [by destruct b|].
  change (String ch a +:+ b) with (String ch (a +:+ b)).
  cbn [String.prefix]. by destruct (ascii_dec ch ch).
Qed.

(** A file name without a leading separator is put inside the
    directory. *)
Lemma os_path_join_inside (dir name : string) :
  starts_with_sep name = false ->
  String.prefix dir (os_path_join dir name) = true.
Proof.
  intros Hn. unfold os_path_join. rewrite Hn.
  destruct (_ || _); apply prefix_append.
Qed.

Section SaveTestMetrics.
Variable w : GnnTrain.world.

Local Abbreviation no_np_save t :=
  (Forall (fun ev => GnnTrain.is_np_save ev = false) t).

Lemma load_data_trace a t r :
  GnnTrain.load_data w a = (t, r) -> no_np_save t.
Proof.
  unfold GnnTrain.load_data. intros H.
  destruct (GnnTrain.check_is_node_level_dataset (GnnTrain.dataset a))
    as [node_level|e]; [|by simplify_eq/=].
  rewrite bind_lift_ok, bind_emit in H.
  destruct (GnnTrain.get_dataset_train_val_test w node_level _ a)
    as [data|e]; [|by simplify_eq/=; repeat constructor].
  rewrite bind_lift_ok in H.
  destruct (GnnTrain.adjust_batch_size _ _) as [bs|e];
    [|by simplify_eq/=; repeat constructor].
  rewrite bind_lift_ok in H.
  destruct (GnnTrain.train_len data =? 0)%nat;
    simplify_eq/=; repeat constructor.
Qed.

Lemma train_and_test_ok a monitor t dir cfgp :
  GnnTrain.train_and_test w a monitor = (t, Ok (dir, cfgp)) ->
  exists out pre ckpt,
    GnnTrain.out_path a = Some out /\
    dir = os_path_join out (GnnTrain.get_gnn_wandb_name w a) /\
    cfgp = GnnTrain.save_gnn_arguments_to_json w a dir /\
    t = GnnTrain.EvMkdir dir :: pre
        ++ [GnnTrain.EvFit ckpt; GnnTrain.EvTest "best"] /\
    no_np_save pre.
Proof.
  unfold GnnTrain.train_and_test, GnnTrain.join_opt, GnnTrain.contains.
  intros H.
  destruct (GnnTrain.out_path a) as [out|]; [|by simplify_eq/=].
  rewrite bind_lift_ok in H. rewrite !bind_emit in H. cbn [fst snd] in H.
  destruct (GnnTrain.estimator_init w); [by simplify_eq/=|].
  rewrite bind_call_ok in H. cbn [fst snd] in H.
  destruct (GnnTrain.train_regime a) as [regime|]; [|by simplify_eq/=].
  rewrite bind_lift_ok, bind_emit in H. cbn [fst snd] in H.
  destruct (GnnTrain.trainer_fit w); [by simplify_eq/=|].
  rewrite bind_call_ok in H. cbn [fst snd] in H.
  destruct (GnnTrain.trainer_test w); [by simplify_eq/=|].
  rewrite bind_call_ok in H. unfold mret, run_ret, ret in H.
  cbn [fst snd] in H. injection H as <- <- <-.
  eexists out, [_; _; _; _; _; _], _.
  split_and!; [reflexivity..|]. by repeat constructor.
Qed.

Lemma save_test_metrics_eq dir cfgp :
  GnnTrain.save_test_metrics dir cfgp
  = ([GnnTrain.EvNpSave (os_path_join dir "test_y_pred.npy") GnnTrain.TestOutput;
      GnnTrain.EvNpSave (os_path_join dir "test_y_true.npy") GnnTrain.TestTrue;
      GnnTrain.EvNpSave (os_path_join dir "test_metrics.npy")
        GnnTrain.TestMetrics;
      GnnTrain.EvWandbSave (os_path_join dir "test_y_pred.npy");
      GnnTrain.EvWandbSave (os_path_join dir "test_y_true.npy");
      GnnTrain.EvWandbSave (os_path_join dir "test_metrics.npy");
      GnnTrain.EvWandbSave cfgp;
      GnnTrain.EvWandbFinish], Ok tt).
Proof. reflexivity. Qed.

(** C7: a run of [main] that completes has created the output
    directory [os.path.join(out_path, run_name)], fitted the model,
    run the test on the best checkpoint, and then written with
    [np.save] exactly three files, [test_y_pred.npy], [test_y_true.npy]
    and [test_metrics.npy], all inside that directory, holding the
    test predictions, the test labels and the test metrics. *)
Theorem main_saves_test_arrays args t :
  GnnTrain.main w args = (t, Ok tt) ->
  exists t0 argsdict out before ckpt uploads,
    let dir := os_path_join out (GnnTrain.get_gnn_wandb_name w argsdict) in
    let preds_path := os_path_join dir "test_y_pred.npy" in
    let true_path := os_path_join dir "test_y_true.npy" in
    let metrics_path := os_path_join dir "test_metrics.npy" in
    GnnTrain.read_arguments w args = (t0, Ok argsdict) /\
    GnnTrain.out_path argsdict = Some out /\
    t = before
        ++ [GnnTrain.EvFit ckpt; GnnTrain.EvTest "best";
            GnnTrain.EvNpSave preds_path GnnTrain.TestOutput;
            GnnTrain.EvNpSave true_path GnnTrain.TestTrue;
            GnnTrain.EvNpSave metrics_path GnnTrain.TestMetrics]
        ++ uploads /\
    GnnTrain.EvMkdir dir ∈ before /\
    no_np_save before /\ no_np_save uploads /\
    String.prefix dir preds_path = true /\
    String.prefix dir true_path = true /\
    String.prefix dir metrics_path = true.
Proof.
  intros H. unfold GnnTrain.main in H.
  apply bind_ok_inv in H as (t1 & argsdict & t2 & Hread & H & ->).
  apply bind_ok_inv in H as (t3 & [] & t4 & Hseed & H & ->).
  apply bind_ok_inv in H as (t5 & monitor & t6 & Hcheck & H & ->).
  apply bind_ok_inv in H as (t7 & ld & t8 & Hload & H & ->).
  apply bind_ok_inv in H as (t9 & [dir cfgp] & t10 & Htrain & H & ->).
  rewrite save_test_metrics_eq in H. injection H as <-.
  apply train_and_test_ok in Htrain
    as (out & pre & ckpt & Hout & -> & -> & -> & Hpre).
  apply check_arguments_trace in Hcheck as ->.
  pose proof (read_arguments_trace _ _ _ _ Hread) as [_ Ht1].
  apply load_data_trace in Hload.
  assert (Ht3 : no_np_save t3).
  { unfold call in Hseed. destruct (GnnTrain.seed_everything _ _);
      simplify_eq. by repeat constructor. }
  exists t1, argsdict, out.
  eexists (t1 ++ t3 ++ t7 ++ GnnTrain.EvMkdir _ :: pre), ckpt, _.
  cbv zeta. split_and!; [done..| | | | | | |].
  - rewrite <- !app_assoc. simpl. rewrite <- !app_assoc. simpl.
    repeat f_equal.
  - rewrite !elem_of_app, elem_of_cons. auto.
  - repeat (apply Forall_app; split); try done. by constructor.
  - by repeat constructor.
  - by apply os_path_join_inside.
  - by apply os_path_join_inside.
  - by apply os_path_join_inside.
Qed.
End SaveTestMetrics.

(** ** custom_train.py: the loop over epochs *)

Lemma result_bind_unbound {A B} (r : result A) (f : A -> result B) :
  CustomTrain.raises_unbound r = false ->
  (forall a, CustomTrain.raises_unbound (f a) = false) ->
  CustomTrain.raises_unbound (r ≫= f) = false.
Proof. destruct r as [a|e]; [intros _ H; apply H|intros H _; exact H]. Qed.

Lemma py_index_unbound {A} (l : list A) i :
  CustomTrain.raises_unbound (py_index l i) = false.
Proof. unfold py_index. by destruct (l !! i). Qed.

Lemma py_last_unbound {A} (l : list A) :
  CustomTrain.raises_unbound (py_last l) = false.
Proof. unfold py_last. by destruct (last l). Qed.

Lemma py_key_unbound {V} (d : gmap string V) k :
  CustomTrain.raises_unbound (py_key d k) = false.
Proof. unfold py_key. by destruct (d !! k). Qed.

Lemma np_arg_unbound better name l :
  CustomTrain.raises_unbound (np_arg better name l) = false.
Proof. by destruct l. Qed.

Lemma mapM_unbound {A B} (f : A -> result B) (l : list A) :
  (forall a, CustomTrain.raises_unbound (f a) = false) ->
  CustomTrain.raises_unbound (mapM f l) = false.
Proof.
  intros Hf. induction l as [|a l IH]; [done|].
  cbn [mapM]. apply result_bind_unbound; [done|]. intros b.
  apply result_bind_unbound; [done|]. done.
Qed.

Lemma perf_at_unbound perf i b key :
  CustomTrain.raises_unbound (CustomTrain.perf_at perf i b key) = false.
Proof.
  unfold CustomTrain.perf_at.
  apply result_bind_unbound; [apply py_index_unbound|]. intros p.
  apply result_bind_unbound; [apply py_index_unbound|]. intros s.
  apply py_key_unbound.
Qed.

Lemma batch_loss_unbound c b :
  CustomTrain.raises_unbound (CustomTrain.batch_loss c b) = false.
Proof.
  unfold CustomTrain.batch_loss, CustomTrain.arxiv_cross_entropy.
  repeat case_match; done.
Qed.

Lemma py_mod_unbound a b :
  CustomTrain.raises_unbound (CustomTrain.py_mod a b) = false.
Proof. unfold CustomTrain.py_mod. by case_match. Qed.

Lemma silent_bind {A B} (m : run CustomTrain.event A)
    (f : A -> run CustomTrain.event B) :
  CustomTrain.silent m -> (forall a, CustomTrain.silent (f a)) -> CustomTrain.silent (m ≫= f).
Proof.
  intros [Ht Ho] Hf. split.
  - rewrite trace_bind. unfold CustomTrain.observations in *.
    rewrite omap_app, Ht. destruct (outcome m); [apply Hf|done].
  - rewrite outcome_bind. destruct (outcome m); [apply Hf|done].
Qed.

Lemma silent_emit ev :
  CustomTrain.observe ev = None -> CustomTrain.silent (emit ev).
Proof.
  intros H. split; [|done]. unfold CustomTrain.observations. simpl.
  by rewrite H.
Qed.

Lemma silent_ret {A} (a : A) : CustomTrain.silent (mret a : run CustomTrain.event A).
Proof. done. Qed.

Lemma silent_lift {A} (r : result A) :
  CustomTrain.raises_unbound r = false ->
  CustomTrain.silent (lift r : run CustomTrain.event A).
Proof. done. Qed.

Lemma silent_raise {A} e :
  CustomTrain.raises_unbound (Raise e : result A) = false ->
  CustomTrain.silent (raise e : run CustomTrain.event A).
Proof. done. Qed.

Local Ltac silent_step :=
  first
    [ apply silent_ret
    | apply silent_emit; reflexivity
    | apply silent_lift;
      first [ apply py_index_unbound | apply py_last_unbound
            | apply py_key_unbound | apply perf_at_unbound
            | apply batch_loss_unbound | apply py_mod_unbound
            | apply np_arg_unbound ]
    | apply silent_bind; [|intros ?] ].

Section LoopProps.
Variable c : CustomTrain.config.
Variable w : CustomTrain.world.

Lemma train_iters_silent len ba iter batches :
  CustomTrain.silent (CustomTrain.train_iters c len ba iter batches).
Proof.
  revert iter. induction batches as [|b batches IH]; intros iter.
  - apply silent_ret.
  - cbn [CustomTrain.train_iters]. apply silent_bind; [|intros _; apply IH].
    unfold CustomTrain.train_iter.
    repeat silent_step.
    destruct (_ || _); repeat silent_step.
    destruct (CustomTrain.optim_clip_grad_norm c); repeat silent_step.
Qed.

Lemma train_epoch_observed l ba :
  CustomTrain.observations (trace_of (CustomTrain.train_epoch c l ba))
    = [CustomTrain.Started] /\
  CustomTrain.raises_unbound (outcome (CustomTrain.train_epoch c l ba)) = false.
Proof.
  unfold CustomTrain.train_epoch.
  destruct (train_iters_silent (length l) ba 0 l) as [Ht Ho].
  rewrite trace_bind, outcome_bind. simpl. unfold CustomTrain.observations in *.
  simpl. by rewrite Ht.
Qed.

Lemma eval_iters_silent split iter batches :
  CustomTrain.silent (CustomTrain.eval_iters c split iter batches).
Proof.
  revert iter. induction batches as [|b batches IH]; intros iter.
  - apply silent_ret.
  - cbn [CustomTrain.eval_iters]. repeat silent_step. apply IH.
Qed.

Lemma eval_epoch_silent l split : CustomTrain.silent (CustomTrain.eval_epoch c l split).
Proof.
  unfold CustomTrain.eval_epoch. repeat silent_step. apply eval_iters_silent.
Qed.

Lemma eval_splits_silent cur perf splits :
  CustomTrain.silent (CustomTrain.eval_splits c w cur perf splits).
Proof.
  revert perf. induction splits as [|i splits IH]; intros perf.
  - apply silent_ret.
  - cbn [CustomTrain.eval_splits]. repeat silent_step.
    + apply eval_iters_silent.
    + apply IH.
Qed.

Lemma repeat_last_unbound perf splits :
  CustomTrain.raises_unbound (CustomTrain.repeat_last perf splits) = false.
Proof.
  revert perf. induction splits as [|i splits IH]; intros perf; [done|].
  cbn [CustomTrain.repeat_last].
  apply result_bind_unbound; [apply py_index_unbound|]. intros p.
  apply result_bind_unbound; [apply py_last_unbound|]. intros x. apply IH.
Qed.

Lemma epoch_schedule_silent cur perf :
  CustomTrain.silent (CustomTrain.epoch_schedule c w cur perf).
Proof.
  unfold CustomTrain.epoch_schedule. repeat silent_step.
  - destruct (String.eqb _ _); repeat silent_step.
    apply silent_lift, result_bind_unbound; [apply py_last_unbound|].
    intros s. apply py_key_unbound.
  - destruct (_ && _); repeat silent_step.
  - destruct (CustomTrain.wandb_use c); repeat silent_step.
Qed.

Lemma epoch_best_silent cur perf val_perf old :
  CustomTrain.silent (CustomTrain.epoch_best c w cur perf val_perf old).
Proof.
  unfold CustomTrain.epoch_best.
  destruct (CustomTrain.is_eval_epoch w cur); [|apply silent_ret].
  apply silent_bind.
  { apply silent_lift, mapM_unbound. intros vp. apply py_key_unbound. }
  intros losses. repeat silent_step.
  - destruct (negb _); repeat silent_step.
    + apply silent_lift, mapM_unbound. intros vp. apply py_key_unbound.
    + apply silent_lift. destruct (CustomTrain.metric_agg c);
        apply np_arg_unbound.
    + apply silent_lift, result_bind_unbound; [apply py_index_unbound|].
      intros p. apply py_index_unbound.
  - destruct (CustomTrain.wandb_use c); repeat silent_step.
Qed.
End LoopProps.

Section EpochProps.
Variable c : CustomTrain.config.
Variable w : CustomTrain.world.

Local Abbreviation patience := (CustomTrain.optim_early_stopping_patience c).

Lemma epoch_train_eval_unbound cur perf :
  CustomTrain.raises_unbound
    (outcome (CustomTrain.epoch_train_eval c w cur perf)) = false.
Proof.
  unfold CustomTrain.epoch_train_eval.
  rewrite outcome_bind. destruct (CustomTrain.loggers w =? 0)%nat; [done|].
  cbn [outcome mret run_ret ret snd].
  rewrite outcome_bind. unfold lift at 1. cbn [outcome snd].
  pose proof (py_index_unbound (CustomTrain.loaders w) 0) as Hl.
  destruct (py_index (CustomTrain.loaders w) 0) as [l|e]; [clear Hl|done].
  rewrite outcome_bind.
  destruct (train_epoch_observed c l (CustomTrain.optim_batch_accumulation c))
    as [_ Ho].
  destruct (outcome (CustomTrain.train_epoch c l _)) as [[]|e]; [|done].
  rewrite outcome_bind. cbn [outcome emit snd].
  destruct (CustomTrain.is_eval_epoch w cur).
  - apply eval_splits_silent.
  - apply repeat_last_unbound.
Qed.

Lemma epoch_train_eval_ok cur perf t perf' :
  CustomTrain.epoch_train_eval c w cur perf = (t, Ok perf') ->
  CustomTrain.observations t = [CustomTrain.Started] /\
  (CustomTrain.loggers w =? 0)%nat = false /\
  (CustomTrain.is_eval_epoch w cur = false ->
   CustomTrain.repeat_last
     (CustomTrain.perf_append perf 0 (CustomTrain.write_epoch w 0 cur))
     (seq 1 (CustomTrain.loggers w - 1)) = Ok perf').
Proof.
  unfold CustomTrain.epoch_train_eval. intros H.
  apply bind_ok_inv in H as (ta & [] & tb & H1 & H & ->).
  destruct (CustomTrain.loggers w =? 0)%nat; [done|].
  injection H1 as <-.
  apply bind_ok_inv in H as (tc & l & td & H1 & H & ->).
  assert (tc = []) as -> by (unfold lift in H1; by simplify_eq).
  apply bind_ok_inv in H as (t1 & [] & t3 & H2 & H & ->).
  apply bind_ok_inv in H as (t4 & [] & t5 & H3 & H & ->).
  injection H3 as <-.
  destruct (train_epoch_observed c l (CustomTrain.optim_batch_accumulation c))
    as [Ht _].
  rewrite H2 in Ht. cbn [trace_of fst] in Ht.
  unfold CustomTrain.observations in *.
  destruct (CustomTrain.is_eval_epoch w cur).
  - destruct (eval_splits_silent c w cur
                (CustomTrain.perf_append perf 0 (CustomTrain.write_epoch w 0 cur))
                (seq 1 (CustomTrain.loggers w - 1))) as [Hs _].
    rewrite H in Hs. cbn [trace_of fst] in Hs.
    unfold CustomTrain.observations in Hs.
    rewrite !omap_app, Ht, Hs. done.
  - unfold lift in H. injection H as <- H.
    rewrite !omap_app, Ht. done.
Qed.

Lemma epoch_best_some cur perf val_perf old t best :
  CustomTrain.epoch_best c w cur perf val_perf old = (t, Ok best) ->
  CustomTrain.is_eval_epoch w cur = true \/ is_Some old ->
  is_Some best.
Proof.
  unfold CustomTrain.epoch_best. intros H Hor.
  destruct (CustomTrain.is_eval_epoch w cur).
  - apply bind_ok_inv in H as (? & losses & ? & _ & H & _).
    apply bind_ok_inv in H as (? & b0 & ? & _ & H & _).
    apply bind_ok_inv in H as (? & b1 & ? & _ & H & _).
    apply bind_ok_inv in H as (? & [] & ? & _ & H & _).
    injection H as _ <-. eauto.
  - destruct Hor as [?|Hs]; [done|]. by injection H as _ <-.
Qed.

Lemma epoch_end_ok cur perf best t stop :
  CustomTrain.epoch_end c cur perf best = (t, Ok stop) ->
  exists b,
    best = Some b /\
    stop = CustomTrain.stops_early patience cur b /\
    CustomTrain.observations t
    = CustomTrain.Logged cur b
      :: (if stop then [CustomTrain.Stopped cur] else []).
Proof.
  unfold CustomTrain.epoch_end. intros H.
  apply bind_ok_inv in H as (t1 & [] & t2 & H1 & H & ->).
  destruct best as [b|]; [|done].
  exists b. split; [done|].
  assert (Ht1 : CustomTrain.observations t1 = []).
  { destruct (_ && _); [|by injection H1 as <-].
    cbn [CustomTrain.read_best_epoch] in H1. rewrite bind_lift_ok in H1.
    destruct (b =? cur); [|by injection H1 as <-].
    destruct (CustomTrain.train_ckpt_clean c); by injection H1 as <-. }
  cbn [CustomTrain.read_best_epoch] in H. rewrite bind_lift_ok in H.
  apply bind_ok_inv in H as (t3 & ? & t4 & H3 & H & ->).
  apply bind_ok_inv in H as (t5 & ? & t6 & H5 & H & ->).
  apply bind_ok_inv in H as (t7 & ? & t8 & H7 & H & ->).
  unfold lift in H3, H5, H7. injection H3 as <- _. injection H5 as <- _.
  injection H7 as <- _.
  rewrite bind_emit, bind_lift_ok in H.
  unfold CustomTrain.stops_early, CustomTrain.observations in *.
  destruct ((-1 <? b) && _); simpl in H; injection H as <- <-;
    by rewrite omap_app, Ht1.
Qed.

Lemma epoch_end_unbound cur perf b :
  CustomTrain.raises_unbound
    (outcome (CustomTrain.epoch_end c cur perf (Some b))) = false.
Proof.
  unfold CustomTrain.epoch_end. cbn [CustomTrain.read_best_epoch].
  rewrite outcome_bind.
  assert (H1 : exists t,
    (if CustomTrain.train_enable_ckpt c && CustomTrain.train_ckpt_best c
     then
       lift (Ok b) ≫= (fun best_epoch =>
         if best_epoch =? cur
         then emit (CustomTrain.EvSaveCkpt cur);;
              (if CustomTrain.train_ckpt_clean c
               then emit CustomTrain.EvCleanCkpt else mret tt)
         else mret tt)
     else mret tt) = (t, Ok tt)).
  { destruct (_ && _); [|by eexists].
    rewrite bind_lift_ok. destruct (b =? cur); [|by eexists].
    destruct (CustomTrain.train_ckpt_clean c); by eexists. }
  destruct H1 as [t1 ->]. cbn [outcome snd].
  rewrite bind_lift_ok.
  repeat (rewrite outcome_bind; unfold lift at 1; cbn [outcome snd];
          pose proof (perf_at_unbound perf) as Hp;
          match goal with
          | |- context [CustomTrain.perf_at perf ?i b "loss"] =>
              specialize (Hp i b "loss");
              destruct (CustomTrain.perf_at perf i b "loss"); [clear Hp|done]
          end).
  rewrite bind_emit, bind_lift_ok. cbn [outcome snd].
  by destruct (_ && _).
Qed.

(** An epoch that completes has a bound [best_epoch], has logged it, and
    leaves the loop exactly on the test of line 249. *)
Lemma epoch_ok cur st t st' stop :
  CustomTrain.epoch c w cur st = (t, Ok (st', stop)) ->
  exists b,
    CustomTrain.best_epoch st' = Some b /\
    stop = CustomTrain.stops_early patience cur b /\
    CustomTrain.observations t
    = CustomTrain.Started :: CustomTrain.Logged cur b
      :: (if stop then [CustomTrain.Stopped cur] else []).
Proof.
  unfold CustomTrain.epoch. intros H.
  apply bind_ok_inv in H as (t1 & perf' & t2 & H1 & H & ->).
  apply bind_ok_inv in H as (t3 & val_perf & t4 & H3 & H & ->).
  apply bind_ok_inv in H as (t5 & best & t6 & H5 & H & ->).
  apply bind_ok_inv in H as (t7 & stop' & t8 & H7 & H & ->).
  injection H as <- <- <-.
  apply epoch_train_eval_ok in H1 as (Ht1 & _ & _).
  pose proof (epoch_schedule_silent c w cur perf') as [Ht3 _].
  rewrite H3 in Ht3.
  pose proof (epoch_best_silent c w cur perf' val_perf (CustomTrain.best_epoch st))
    as [Ht5 _].
  rewrite H5 in Ht5.
  apply epoch_end_ok in H7 as (b & -> & Hstop & Ht7).
  exists b. split_and!; [done..|].
  cbn [trace_of fst] in *. unfold CustomTrain.observations in *.
  rewrite !omap_app, Ht1, Ht3, Ht5, Ht7. simpl. by rewrite app_nil_r.
Qed.

Lemma epoch_unbound cur st :
  CustomTrain.is_eval_epoch w cur = true \/ is_Some (CustomTrain.best_epoch st) ->
  CustomTrain.raises_unbound (outcome (CustomTrain.epoch c w cur st)) = false.
Proof.
  intros Hor. unfold CustomTrain.epoch.
  rewrite outcome_bind.
  pose proof (epoch_train_eval_unbound cur (CustomTrain.perf st)) as H1.
  destruct (outcome (CustomTrain.epoch_train_eval c w cur (CustomTrain.perf st)))
    as [perf'|e]; [clear H1|done].
  rewrite outcome_bind.
  pose proof (epoch_schedule_silent c w cur perf') as [_ H2].
  destruct (outcome (CustomTrain.epoch_schedule c w cur perf'))
    as [val_perf|e]; [clear H2|done].
  rewrite outcome_bind.
  pose proof (epoch_best_silent c w cur perf' val_perf
                (CustomTrain.best_epoch st)) as [_ H3].
  destruct (CustomTrain.epoch_best c w cur perf' val_perf
              (CustomTrain.best_epoch st)) as [t3 [best|e]] eqn:Hbest;
    [clear H3|done].
  cbn [outcome snd].
  destruct (epoch_best_some _ _ _ _ _ _ Hbest Hor) as [b ->].
  rewrite outcome_bind.
  pose proof (epoch_end_unbound cur perf' b) as H4.
  by destruct (outcome (CustomTrain.epoch_end c cur perf' (Some b))).
Qed.
End EpochProps.

Section CustomTrainProps.
Variable c : CustomTrain.config.
Variable w : CustomTrain.world.

Local Abbreviation patience := (CustomTrain.optim_early_stopping_patience c).

Lemma epochs_follow_patience range st t st' :
  CustomTrain.epochs c w range st = (t, Ok st') ->
  CustomTrain.follows_patience patience range (CustomTrain.observations t).
Proof.
  revert st t. induction range as [|cur rest IH]; intros st t H.
  - by injection H as <- _.
  - cbn [CustomTrain.epochs] in H.
    apply bind_ok_inv in H as (t1 & [st1 stop] & t2 & H1 & H & ->).
    apply epoch_ok in H1 as (b & _ & Hstop & Ht1).
    cbn [CustomTrain.follows_patience].
    unfold CustomTrain.observations in *. rewrite omap_app, Ht1.
    destruct stop.
    + injection H as <- _. exists b, [CustomTrain.Stopped cur].
      by rewrite <- Hstop.
    + exists b, (omap CustomTrain.observe t2). rewrite <- Hstop.
      split; [done|]. by eapply IH.
Qed.

Lemma epochs_unbound range st :
  is_Some (CustomTrain.best_epoch st) ->
  CustomTrain.raises_unbound (outcome (CustomTrain.epochs c w range st)) = false.
Proof.
  revert st. induction range as [|cur rest IH]; intros st Hst; [done|].
  cbn [CustomTrain.epochs]. rewrite outcome_bind.
  pose proof (epoch_unbound c w cur st (or_intror Hst)) as Hu.
  destruct (CustomTrain.epoch c w cur st) as [t1 [[st1 stop]|e]] eqn:H1;
    [clear Hu|done].
  cbn [outcome snd]. destruct stop; [done|].
  apply IH. apply epoch_ok in H1 as (b & -> & _). eauto.
Qed.

(** The first epoch of a run that is not an evaluation epoch fails in
    lines 173-197, on [perf[i][-1]] or on [perf[1]]. *)
Lemma first_epoch_not_eval cur t perf' :
  CustomTrain.is_eval_epoch w cur = false ->
  CustomTrain.epoch_train_eval c w cur (replicate (CustomTrain.loggers w) [])
    = (t, Ok perf') ->
  CustomTrain.epoch_schedule c w cur perf'
    = ([], Raise (IndexError "list index out of range")).
Proof.
  intros Hev H. apply epoch_train_eval_ok in H as (_ & Hn & H).
  specialize (H Hev).
  destruct (CustomTrain.loggers w) as [|[|n]]; [done| |].
  - injection H as <-. done.
  - done.
Qed.

Lemma first_epoch_unbound cur :
  CustomTrain.raises_unbound
    (outcome (CustomTrain.epoch c w cur (CustomTrain.initial_state w))) = false.
Proof.
  destruct (CustomTrain.is_eval_epoch w cur) eqn:Hev.
  { apply epoch_unbound. by left. }
  unfold CustomTrain.epoch. rewrite outcome_bind.
  cbn [CustomTrain.initial_state CustomTrain.perf].
  pose proof (epoch_train_eval_unbound c w cur
                (replicate (CustomTrain.loggers w) [])) as Hu.
  destruct (CustomTrain.epoch_train_eval c w cur
              (replicate (CustomTrain.loggers w) []))
    as [t1 [perf'|e]] eqn:H1; [clear Hu|done].
  cbn [outcome snd]. rewrite outcome_bind.
  by rewrite (first_epoch_not_eval _ _ _ Hev H1).
Qed.

Lemma epochs_initial_unbound range :
  CustomTrain.raises_unbound
    (outcome (CustomTrain.epochs c w range (CustomTrain.initial_state w)))
  = false.
Proof.
  destruct range as [|cur rest]; [done|].
  cbn [CustomTrain.epochs]. rewrite outcome_bind.
  pose proof (first_epoch_unbound cur) as Hu.
  destruct (CustomTrain.epoch c w cur (CustomTrain.initial_state w))
    as [t1 [[st1 stop]|e]] eqn:H1; [clear Hu|done].
  cbn [outcome snd]. destruct stop; [done|].
  apply epochs_unbound. apply epoch_ok in H1 as (b & -> & _). eauto.
Qed.

Lemma close_loggers_silent (l : list nat) :
  CustomTrain.silent (mapM (fun i => emit (CustomTrain.EvLoggerClose i)) l).
Proof.
  induction l as [|i l IH]; [apply silent_ret|].
  cbn [mapM]. apply silent_bind; [by apply silent_emit|]. intros ?.
  apply silent_bind; [done|]. intros ?. apply silent_ret.
Qed.

Lemma custom_train_tail_silent :
  CustomTrain.silent (mapM (fun i => emit (CustomTrain.EvLoggerClose i))
            (seq 0 (CustomTrain.loggers w));;
          (if CustomTrain.train_ckpt_clean c
           then emit CustomTrain.EvCleanCkpt else mret tt);;
          (if CustomTrain.wandb_use c
           then emit CustomTrain.EvWandbFinish else mret tt);;
          emit CustomTrain.EvTaskDone).
Proof.
  apply silent_bind; [apply close_loggers_silent|]. intros _.
  apply silent_bind.
  { destruct (CustomTrain.train_ckpt_clean c);
      [by apply silent_emit|apply silent_ret]. }
  intros _. apply silent_bind.
  { destruct (CustomTrain.wandb_use c);
      [by apply silent_emit|apply silent_ret]. }
  intros _. by apply silent_emit.
Qed.

Lemma custom_train_head_silent :
  CustomTrain.silent (if CustomTrain.wandb_use c then
            match CustomTrain.import_wandb w with
            | Some _ => raise (ImportError "WandB is not installed.")
            | None => emit CustomTrain.EvWandbInit
            end
          else mret tt : run CustomTrain.event unit).
Proof.
  destruct (CustomTrain.wandb_use c); [|apply silent_ret].
  destruct (CustomTrain.import_wandb w); [done|by apply silent_emit].
Qed.

(** In a run of [custom_train] that completes, the epochs of
    [range(start_epoch, cfg.optim.max_epoch)] are run in order; the loop
    is left at the end of the first epoch whose number exceeds the
    value of [best_epoch] in its log line (which is above -1) by more
    than [cfg.optim.early_stopping_patience], and no further epoch
    starts; if there is no such epoch, every epoch of the range is
    run. *)
Lemma custom_train_follows_patience t :
  CustomTrain.custom_train c w = (t, Ok tt) ->
  CustomTrain.follows_patience patience
    (py_range (CustomTrain.start_epoch c w) (CustomTrain.optim_max_epoch c))
    (CustomTrain.observations t).
Proof.
  unfold CustomTrain.custom_train. intros H.
  apply bind_ok_inv in H as (t1 & [] & t2 & H1 & H & ->).
  apply bind_ok_inv in H as (t3 & st' & t4 & H3 & H & ->).
  pose proof custom_train_head_silent as [Hh _]. rewrite H1 in Hh.
  pose proof custom_train_tail_silent as [Ht _]. rewrite H in Ht.
  cbn [trace_of fst] in Hh, Ht.
  apply epochs_follow_patience in H3.
  unfold CustomTrain.observations in *.
  by rewrite !omap_app, Hh, Ht, app_nil_r.
Qed.

(** No run of [custom_train] ends on a read of [best_epoch] before it
    is assigned: an epoch that gets to line 229 has either assigned it
    or inherited it from an earlier epoch of the run. *)
Lemma custom_train_never_unbound :
  CustomTrain.raises_unbound (outcome (CustomTrain.custom_train c w)) = false.
Proof.
  unfold CustomTrain.custom_train. rewrite outcome_bind.
  pose proof custom_train_head_silent as [_ Hh].
  destruct (outcome _) as [[]|e]; [clear Hh|done].
  rewrite outcome_bind.
  pose proof (epochs_initial_unbound
                (py_range (CustomTrain.start_epoch c w)
                   (CustomTrain.optim_max_epoch c))) as Hl.
  destruct (outcome (CustomTrain.epochs _ _ _ _)) as [st'|e];
    [clear Hl|done].
  apply custom_train_tail_silent.
Qed.
End CustomTrainProps.

(** ** Sample runs *)

(** Patience 1, losses that grow from epoch 0 on: epochs 0, 1 and 2 run,
    the best epoch stays 0, and the loop is left after epoch 2. *)
Example custom_train_sample_run :
  CustomTrain.observations
    (trace_of (CustomTrain.custom_train
                 (CustomTrain.sample_config false false 1)
                 (CustomTrain.sample_world 1)))
  = [CustomTrain.Started; CustomTrain.Logged 0 0;
     CustomTrain.Started; CustomTrain.Logged 1 0;
     CustomTrain.Started; CustomTrain.Logged 2 0; CustomTrain.Stopped 2].
Proof. vm_compute. reflexivity. Qed.

(** C1 (the code diverges): validation improves in every epoch, so
    the best validation epoch is always the current one and the claim
    has training go on until [cfg.optim.max_epoch]; started from epoch
    0 with patience 3 the run does so.  Resumed at epoch 5 it runs
    epoch 5 alone: [best_epoch] is the position 0 of the one entry of
    [val_perf], line 249 takes it for an epoch number, and
    [5 - 0 > 3] leaves the loop. *)
Theorem custom_train_resumed_stops_on_best_epoch :
  let w := CustomTrain.improving_world 5 in
  let fresh := CustomTrain.sample_config false false 3 in
  let resumed := CustomTrain.sample_config true false 3 in
  CustomTrain.start_epoch fresh w = 0 /\
  (exists t, CustomTrain.custom_train fresh w = (t, Ok tt) /\
     CustomTrain.observations t
     = flat_map (fun e => [CustomTrain.Started; CustomTrain.Logged e e])
         (py_range 0 10)) /\
  CustomTrain.start_epoch resumed w = 5 /\
  CustomTrain.stops_early 3 5 5 = false /\
  (exists t, CustomTrain.custom_train resumed w = (t, Ok tt) /\
     CustomTrain.observations t
     = [CustomTrain.Started; CustomTrain.Logged 5 0; CustomTrain.Stopped 5]).
Proof.
  cbv zeta. split_and!.
  - reflexivity.
  - eexists. split; [vm_compute; reflexivity|]. vm_compute. reflexivity.
  - reflexivity.
  - reflexivity.
  - eexists. split; [vm_compute; reflexivity|]. vm_compute. reflexivity.
Qed.

(** C8 (the code diverges): a run resumed after epoch 0 with
    evaluation every third epoch starts at epoch 1, which is not an
    evaluation epoch; the epoch is trained, lines 182-183 read
    [perf[1][-1]] on the empty list, and the run ends on that
    [IndexError] without getting to a log line. *)
Theorem custom_train_resumed_first_epoch_not_eval :
  let c := CustomTrain.sample_config true false 1 in
  let w := CustomTrain.sample_world 3 in
  CustomTrain.start_epoch c w = 1 /\
  CustomTrain.is_eval_epoch w (CustomTrain.start_epoch c w) = false /\
  CustomTrain.observations (trace_of (CustomTrain.custom_train c w))
  = [CustomTrain.Started] /\
  outcome (CustomTrain.custom_train c w)
  = Raise (IndexError "list index out of range").
Proof. cbv zeta. split_and!; vm_compute; reflexivity. Qed.

(** Gradient accumulation over two batches on a loader of five. *)
Lemma train_epoch_optimizer_steps_witness :
  let c := CustomTrain.sample_config false false 1 in
  let l := CustomTrain.sample_loader in
  let ba := 2 in
  let stepping iter :=
    (iter < length l)%nat /\
    ((Z.of_nat iter + 1) mod ba = 0 \/ (iter + 1)%nat = length l) in
  exists t,
    CustomTrain.train_epoch c l ba = (t, Ok tt) /\
    (forall iter, CustomTrain.EvBackward iter ∈ t <-> (iter < length l)%nat) /\
    (forall iter, CustomTrain.EvStep iter ∈ t <-> stepping iter) /\
    (forall iter, CustomTrain.EvZeroGrad iter ∈ t <-> stepping iter) /\
    (forall iter q,
       CustomTrain.EvClipGradNorm iter q ∈ t <->
       CustomTrain.optim_clip_grad_norm c = true /\ q = 1%Q /\ stepping iter) /\
    (forall iter, stepping iter ->
       exists before after,
         t = before
             ++ [CustomTrain.EvBackward iter]
             ++ (if CustomTrain.optim_clip_grad_norm c
                 then [CustomTrain.EvUnscale iter;
                       CustomTrain.EvClipGradNorm iter 1]
                 else [])
             ++ [CustomTrain.EvStep iter; CustomTrain.EvScalerUpdate iter;
                 CustomTrain.EvZeroGrad iter]
             ++ after).
Proof.
  intros c l ba.
  apply (train_epoch_optimizer_steps c l ba).
  - discriminate.
  - repeat constructor.
Defined.

(** Five batches, accumulation over two: the optimizer steps at
    iterations 1, 3 and 4. *)
Example train_epoch_sample_steps :
  omap (fun ev => match ev with
                  | CustomTrain.EvStep iter => Some iter
                  | _ => None
                  end)
    (trace_of (CustomTrain.train_epoch
                 (CustomTrain.sample_config false false 1)
                 CustomTrain.sample_loader 2))
  = [1; 3; 4]%nat.
Proof. vm_compute. reflexivity. Qed.

(** Neither wandb nor RDKit is installed. *)
Lemma missing_dependency_raises_import_error_witness :
  let c := CustomTrain.sample_config false true 1 in
  let w := CustomTrain.sample_world 1 in
  let e' := ModuleNotFoundError "No module named 'rdkit'" in
  CustomTrain.custom_train c w
    = ([], Raise (ImportError "WandB is not installed.")) /\
  MasterLoader.preformat_OGB_PCQM4Mv2 (Some e') "full"
    = ([MasterLoader.EvLoggingError
          "ERROR: Failed to import PygPCQM4Mv2Dataset, make sure RDKit is installed."],
       Raise e') /\
  exists msg, e' = ImportError msg \/ e' = ModuleNotFoundError msg.
Proof.
  intros c w e'.
  apply (missing_dependency_raises_import_error c w
           (ModuleNotFoundError "No module named 'wandb'") e' "full");
    reflexivity.
Defined.

(** C2 (the claim as stated fails): ESOL without a regression loss
    function and without a monitored loss passes the validation and the
    seeding of the sample world, and [main] ends on the [TypeError] of
    line 114, not on an assertion error. *)
Lemma main_type_error_before_assertion :
  let a := GnnTrain.sample_args (Some "ESOL") None None None in
  GnnTrain.missing_loss_fn a = true /\
  outcome (GnnTrain.main GnnTrain.sample_world a)
    = Raise (TypeError "argument of type 'NoneType' is not iterable") /\
  is_assertion_error
    (TypeError "argument of type 'NoneType' is not iterable") = false.
Proof. cbv zeta. split_and!; vm_compute; reflexivity. Qed.

(** ESOL with a monitored loss and no regression loss function ends on
    the first assertion. *)
Lemma main_asserts_required_arguments_witness :
  let a := GnnTrain.sample_args (Some "ESOL") (Some "Validation loss")
             None None in
  let argsdict := GnnTrain.del_config_json_path a in
  exists t,
    GnnTrain.main GnnTrain.sample_world a
    = (t, Raise (AssertionError
         (if GnnTrain.missing_loss_fn argsdict
          then "A loss functions must be specified for regression tasks!"
          else "A target must be specified for QM9 and DOCKSTRING!"))) /\
    Forall (fun ev => GnnTrain.is_data_loading ev = false) t.
Proof.
  intros a argsdict.
  apply (main_asserts_required_arguments GnnTrain.sample_world a
           [GnnTrain.EvValidate a] argsdict).
  - reflexivity.
  - reflexivity.
  - by eexists.
  - vm_compute. reflexivity.
Defined.

(** QM9 with a loss function and no target name ends on the second
    assertion. *)
Example main_qm9_without_target :
  outcome (GnnTrain.main GnnTrain.sample_world
             (GnnTrain.sample_args (Some "QM9") (Some "Validation loss")
                (Some "mae") None))
  = Raise (AssertionError "A target must be specified for QM9 and DOCKSTRING!").
Proof. vm_compute. reflexivity. Qed.

(** A complete run on ESOL writes the three arrays under
    [out/GCN-ESOL]. *)
Lemma main_saves_test_arrays_witness :
  let w := GnnTrain.sample_world in
  let args := GnnTrain.sample_args (Some "ESOL") (Some "Validation loss")
                (Some "mae") None in
  let t := trace_of (GnnTrain.main w args) in
  exists t0 argsdict out before ckpt uploads,
    let dir := os_path_join out (GnnTrain.get_gnn_wandb_name w argsdict) in
    let preds_path := os_path_join dir "test_y_pred.npy" in
    let true_path := os_path_join dir "test_y_true.npy" in
    let metrics_path := os_path_join dir "test_metrics.npy" in
    GnnTrain.read_arguments w args = (t0, Ok argsdict) /\
    GnnTrain.out_path argsdict = Some out /\
    t = before
        ++ [GnnTrain.EvFit ckpt; GnnTrain.EvTest "best";
            GnnTrain.EvNpSave preds_path GnnTrain.TestOutput;
            GnnTrain.EvNpSave true_path GnnTrain.TestTrue;
            GnnTrain.EvNpSave metrics_path GnnTrain.TestMetrics]
        ++ uploads /\
    GnnTrain.EvMkdir dir ∈ before /\
    Forall (fun ev => GnnTrain.is_np_save ev = false) before /\
    Forall (fun ev => GnnTrain.is_np_save ev = false) uploads /\
    String.prefix dir preds_path = true /\
    String.prefix dir true_path = true /\
    String.prefix dir metrics_path = true.
Proof.
  intros w args t.
  apply (main_saves_test_arrays w args t).
  vm_compute. reflexivity.
Defined.



Example load_dataset_master_lap_saved :
  MasterLoader.sample_load MasterLoader.sample_config_lap
    MasterLoader.sample_dataset ∅
  = ([MasterLoader.EvLogLoadedDataset 3 2;
      MasterLoader.EvPosencStats ["LapPE"] true;
      MasterLoader.EvTorchSave "datasets/ZINC_precomputed_posenc.pt";
      MasterLoader.EvEffectiveResistance 6],
     Ok ({| MasterLoader.data := [111; 112; 113]%nat;
            MasterLoader.split_idxs := None |},
         {[ "datasets/ZINC_precomputed_posenc.pt" :=
              Some {| MasterLoader.data := [11; 12; 13]%nat;
                      MasterLoader.split_idxs := None |} ]})).
Proof. vm_compute. reflexivity. Qed.

(** A file of an earlier run is read back and nothing is computed. *)
Example load_dataset_master_cached :
  MasterLoader.sample_load MasterLoader.sample_config_lap
    MasterLoader.sample_dataset
    {[ "datasets/ZINC_precomputed_posenc.pt" :=
         Some {| MasterLoader.data := [7; 8]%nat;
                 MasterLoader.split_idxs := None |} ]}
  = ([MasterLoader.EvLogLoadedDataset 3 2;
      MasterLoader.EvTorchLoad "datasets/ZINC_precomputed_posenc.pt";
      MasterLoader.EvEffectiveResistance 4],
     Ok ({| MasterLoader.data := [107; 108]%nat;
            MasterLoader.split_idxs := None |},
         {[ "datasets/ZINC_precomputed_posenc.pt" :=
              Some {| MasterLoader.data := [7; 8]%nat;
                      MasterLoader.split_idxs := None |} ]})).
Proof. vm_compute. reflexivity. Qed.

(** A file that [torch.load] refuses ends the loading; nothing is
    computed in its place. *)
Example load_dataset_master_unreadable :
  MasterLoader.sample_load MasterLoader.sample_config_lap
    MasterLoader.sample_dataset
    {[ "datasets/ZINC_precomputed_posenc.pt" := None ]}
  = ([MasterLoader.EvLogLoadedDataset 3 2;
      MasterLoader.EvTorchLoad "datasets/ZINC_precomputed_posenc.pt"],
     Raise (RuntimeError "Invalid magic number; corrupt file?")).
Proof. vm_compute. reflexivity. Qed.

(** A dataset without graphs ends the loading in the log of the
    dataset, before the file is looked for. *)
Example load_dataset_master_empty :
  MasterLoader.sample_load MasterLoader.sample_config_lap
    {| MasterLoader.data := []; MasterLoader.split_idxs := None |} ∅
  = ([], Raise ZeroDivisionError).
Proof. vm_compute. reflexivity. Qed.

(** A graph without edges ends the choice of the dimension of the
    effective-resistance encoding. *)
Example load_dataset_master_no_edges :
  MasterLoader.sample_load MasterLoader.sample_config
    {| MasterLoader.data := [2; 0]%nat; MasterLoader.split_idxs := None |} ∅
  = ([MasterLoader.EvLogLoadedDataset 2 1],
     Raise (ValueError "math domain error")).
Proof. vm_compute. reflexivity. Qed.

(** * Further properties *)

(** ** gnn/train.py *)

(** ESOL without a loss function and without a monitored loss: [main]
    stops on the [TypeError] of line 114, with no data loaded. *)
Lemma main_stops_before_data_loading_witness :
  let a := GnnTrain.sample_args (Some "ESOL") None None None in
  exists t e,
    GnnTrain.main GnnTrain.sample_world a = (t, Raise e) /\
    Forall (fun ev => GnnTrain.is_data_loading ev = false) t.
Proof.
  intros a.
  apply (main_stops_before_data_loading GnnTrain.sample_world a
           [GnnTrain.EvValidate a] (GnnTrain.del_config_json_path a)).
  - reflexivity.
  - vm_compute. reflexivity.
Defined.

(** Thirteen samples and batch size 3. *)
Lemma train_batches_singleton_iff_witness :
  exists bs' b,
    GnnTrain.adjust_batch_size (length (seq 0 13)) 3 = Ok bs' /\
    last (GnnTrain.train_batches (seq 0 13) 3) = Some b /\
    (length b = 1%nat <-> Z.of_nat (length (seq 0 13)) mod bs' = 1).
Proof.
  apply (train_batches_singleton_iff (seq 0 13) 3).
  - discriminate.
  - lia.
Defined.

Lemma prefix_refl (s : string) : String.prefix s s = true.
Proof.
  induction s as [|ch s IH]; [done|].
  cbn [String.prefix]. by destruct (ascii_dec ch ch).
Qed.

Lemma str_contains_self (s : string) : str_contains s s = true.
Proof. destruct s; cbn [str_contains]; by rewrite prefix_refl. Qed.

Section MainCompletes.
Variable w : GnnTrain.world.

Lemma check_arguments_ok a t monitor :
  GnnTrain.check_arguments a = (t, Ok monitor) ->
  exists m,
    GnnTrain.monitor_loss_name a = Some m /\
    monitor = (if str_contains "MCC" m then "Validation MCC" else m) /\
    GnnTrain.missing_loss_fn a = false /\
    GnnTrain.missing_target a = false.
Proof.
  unfold GnnTrain.check_arguments, GnnTrain.contains,
    GnnTrain.missing_loss_fn, GnnTrain.missing_target.
  destruct (GnnTrain.monitor_loss_name a) as [m|] eqn:Hm.
  2: { rewrite bool_decide_eq_false_2 by done. by intros [=]. }
  intros H. exists m. split; [done|].
  assert (Hmcc : (if bool_decide (Some m = Some "MCC")
                  then Ok true else Ok (str_contains "MCC" m))
                 = Ok (str_contains "MCC" m)).
  { case_bool_decide as Heq; [|done].
    injection Heq as ->. by rewrite str_contains_self. }
  rewrite Hmcc, bind_lift_ok in H. cbn [default] in H.
  destruct (GnnTrain.opt_in (GnnTrain.dataset a) GnnTrain.regression_datasets);
    destruct (GnnTrain.regression_loss_fn a);
    destruct (GnnTrain.opt_in (GnnTrain.dataset a) GnnTrain.target_datasets);
    destruct (GnnTrain.dataset_target_name a);
    simpl in H; try done; by injection H as _ <-.
Qed.

Lemma load_data_ok a t data bs :
  GnnTrain.load_data w a = (t, Ok (data, bs)) ->
  exists name node_level,
    GnnTrain.dataset a = Some name /\
    GnnTrain.get_dataset_train_val_test w node_level name a = Ok data /\
    GnnTrain.train_len data <> 0%nat /\
    GnnTrain.batch_size a <> 0 /\
    GnnTrain.adjust_batch_size (GnnTrain.train_len data) (GnnTrain.batch_size a)
      = Ok bs /\
    t = [GnnTrain.EvGetDataset node_level name;
         GnnTrain.EvDataLoader "train" bs true;
         GnnTrain.EvDataLoader "val" bs false;
         GnnTrain.EvDataLoader "test" bs false].
Proof.
  unfold GnnTrain.load_data. intros H.
  destruct (GnnTrain.dataset a) as [name|] eqn:Hd.
  2: { by simplify_eq/=. }
  destruct (GnnTrain.check_is_node_level_dataset (Some name))
    as [node_level|e]; [|by simplify_eq/=].
  rewrite bind_lift_ok, bind_emit in H. cbn [from_option id] in H.
  destruct (GnnTrain.get_dataset_train_val_test w node_level name a)
    as [data'|e] eqn:Hget; [|by simplify_eq/=].
  rewrite bind_lift_ok in H.
  destruct (GnnTrain.adjust_batch_size _ _) as [bs'|e] eqn:Hbs;
    [|by simplify_eq/=].
  rewrite bind_lift_ok in H.
  destruct (Nat.eqb_spec (GnnTrain.train_len data') 0); [by simplify_eq/=|].
  simpl in H. injection H as <- <- <-.
  exists name, node_level. split_and!; try done.
  unfold GnnTrain.adjust_batch_size in Hbs.
  destruct (Z.eqb_spec (GnnTrain.batch_size a) 0); [done|done].
Qed.

Lemma train_and_test_trace a monitor t dir cfgp :
  GnnTrain.train_and_test w a monitor = (t, Ok (dir, cfgp)) ->
  exists out regime,
    GnnTrain.out_path a = Some out /\
    GnnTrain.train_regime a = Some regime /\
    GnnTrain.estimator_init w = None /\
    GnnTrain.trainer_fit w = None /\
    GnnTrain.trainer_test w = None /\
    dir = os_path_join out (GnnTrain.get_gnn_wandb_name w a) /\
    let mode := if str_contains "MCC" monitor then "max" else "min" in
    t = [GnnTrain.EvMkdir dir; GnnTrain.EvSaveJson dir;
         GnnTrain.EvWandbLogger (GnnTrain.get_gnn_wandb_name w a);
         GnnTrain.EvModelCheckpoint monitor dir mode;
         GnnTrain.EvEarlyStopping monitor (GnnTrain.early_stopping_patience a)
           mode;
         GnnTrain.EvEstimator (bool_decide (GnnTrain.conv_type a = Some "PNA"));
         GnnTrain.EvTrainer
           (if bool_decide (Some regime = Some "gpu-bf16") then "bf16-mixed"
            else if bool_decide (Some regime = Some "gpu-fp16") then "16-mixed"
            else "32")
           (if str_contains "gpu" regime then "gpu" else "cpu");
         GnnTrain.EvFit (GnnTrain.ckpt_path a); GnnTrain.EvTest "best"].
Proof.
  unfold GnnTrain.train_and_test, GnnTrain.join_opt, GnnTrain.contains.
  intros H.
  destruct (GnnTrain.out_path a) as [out|]; [|by simplify_eq/=].
  rewrite bind_lift_ok in H. rewrite !bind_emit in H. cbn [fst snd] in H.
  destruct (GnnTrain.estimator_init w); [by simplify_eq/=|].
  rewrite bind_call_ok in H. cbn [fst snd] in H.
  destruct (GnnTrain.train_regime a) as [regime|]; [|by simplify_eq/=].
  rewrite bind_lift_ok, bind_emit in H. cbn [fst snd] in H.
  destruct (GnnTrain.trainer_fit w); [by simplify_eq/=|].
  rewrite bind_call_ok in H. cbn [fst snd] in H.
  destruct (GnnTrain.trainer_test w); [by simplify_eq/=|].
  rewrite bind_call_ok in H. unfold mret, run_ret, ret in H.
  cbn [fst snd] in H. injection H as <- <- <-.
  exists out, regime. by split_and!.
Qed.

(** What a run of [main] that completes tells about its arguments: they
    were read and validated, the seeding went through, the dataset, the
    monitored loss, the output path and the training regime were all
    given, no assertion was violated, the batch size is not zero, the
    training set is not empty, and the model was built, fitted and
    tested without an exception. *)
Theorem main_completes_only_if args t :
  GnnTrain.main w args = (t, Ok tt) ->
  exists t0 a,
    GnnTrain.read_arguments w args = (t0, Ok a) /\
    GnnTrain.seed_everything w (GnnTrain.seed a) = None /\
    is_Some (GnnTrain.dataset a) /\
    is_Some (GnnTrain.monitor_loss_name a) /\
    is_Some (GnnTrain.out_path a) /\
    is_Some (GnnTrain.train_regime a) /\
    GnnTrain.missing_loss_fn a = false /\
    GnnTrain.missing_target a = false /\
    GnnTrain.batch_size a <> 0 /\
    GnnTrain.estimator_init w = None /\
    GnnTrain.trainer_fit w = None /\
    GnnTrain.trainer_test w = None.
Proof.
  intros H. unfold GnnTrain.main in H.
  apply bind_ok_inv in H as (t1 & a & t2 & Hread & H & ->).
  apply bind_ok_inv in H as (t3 & [] & t4 & Hseed & H & ->).
  apply bind_ok_inv in H as (t5 & monitor & t6 & Hcheck & H & ->).
  apply bind_ok_inv in H as (t7 & [data bs] & t8 & Hload & H & ->).
  apply bind_ok_inv in H as (t9 & [dir cfgp] & t10 & Htrain & H & ->).
  apply check_arguments_ok in Hcheck as (m & Hm & _ & Hloss & Htarget).
  apply load_data_ok in Hload as (name & nl & Hd & _ & _ & Hbs & _).
  apply train_and_test_trace in Htrain
    as (out & regime & Hout & Hreg & He & Hf & Ht & _).
  exists t1, a. split_and!; try done; try by eexists.
  unfold call in Hseed. by destruct (GnnTrain.seed_everything w _).
Qed.

(** The monitored quantity of a run that completes: a loss name that
    contains "MCC" is replaced by "Validation MCC" and is maximised, any
    other name is kept and minimised; the checkpoint callback and the
    early-stopping callback are given the same name and the same
    mode, and early stopping the patience of the command line. *)
Theorem main_callbacks_agree args t :
  GnnTrain.main w args = (t, Ok tt) ->
  exists t0 a m dir,
    GnnTrain.read_arguments w args = (t0, Ok a) /\
    GnnTrain.monitor_loss_name a = Some m /\
    let monitor := if str_contains "MCC" m then "Validation MCC" else m in
    let mode := if str_contains "MCC" m then "max" else "min" in
    GnnTrain.EvModelCheckpoint monitor dir mode ∈ t /\
    GnnTrain.EvEarlyStopping monitor (GnnTrain.early_stopping_patience a) mode
      ∈ t.
Proof.
  intros H. unfold GnnTrain.main in H.
  apply bind_ok_inv in H as (t1 & a & t2 & Hread & H & ->).
  apply bind_ok_inv in H as (t3 & [] & t4 & Hseed & H & ->).
  apply bind_ok_inv in H as (t5 & monitor & t6 & Hcheck & H & ->).
  apply bind_ok_inv in H as (t7 & [data bs] & t8 & Hload & H & ->).
  apply bind_ok_inv in H as (t9 & [dir cfgp] & t10 & Htrain & H & ->).
  apply check_arguments_ok in Hcheck as (m & Hm & -> & _ & _).
  apply train_and_test_trace in Htrain
    as (out & regime & _ & _ & _ & _ & _ & _ & ->).
  exists t1, a, m, dir. split; [done|]. split; [done|]. cbv zeta.
  assert (Hmode : str_contains "MCC"
                    (if str_contains "MCC" m then "Validation MCC" else m)
                  = str_contains "MCC" m).
  { by destruct (str_contains "MCC" m) eqn:Hc. }
  rewrite Hmode.
  split; rewrite !elem_of_app, !elem_of_cons; auto 14.
Qed.
End MainCompletes.

(** The complete run on ESOL. *)
Lemma main_completes_only_if_witness :
  let w := GnnTrain.sample_world in
  let args := GnnTrain.sample_args (Some "ESOL") (Some "Validation loss")
                (Some "mae") None in
  exists t0 a,
    GnnTrain.read_arguments w args = (t0, Ok a) /\
    GnnTrain.seed_everything w (GnnTrain.seed a) = None /\
    is_Some (GnnTrain.dataset a) /\
    is_Some (GnnTrain.monitor_loss_name a) /\
    is_Some (GnnTrain.out_path a) /\
    is_Some (GnnTrain.train_regime a) /\
    GnnTrain.missing_loss_fn a = false /\
    GnnTrain.missing_target a = false /\
    GnnTrain.batch_size a <> 0 /\
    GnnTrain.estimator_init w = None /\
    GnnTrain.trainer_fit w = None /\
    GnnTrain.trainer_test w = None.
Proof.
  intros w args.
  apply (main_completes_only_if w args (trace_of (GnnTrain.main w args))).
  vm_compute. reflexivity.
Defined.

(** A classification run that monitors the MCC. *)
Lemma main_callbacks_agree_witness :
  let w := GnnTrain.sample_world in
  let args := GnnTrain.sample_args (Some "HIV") (Some "MCC") None None in
  let t := trace_of (GnnTrain.main w args) in
  exists t0 a m dir,
    GnnTrain.read_arguments w args = (t0, Ok a) /\
    GnnTrain.monitor_loss_name a = Some m /\
    let monitor := if str_contains "MCC" m then "Validation MCC" else m in
    let mode := if str_contains "MCC" m then "max" else "min" in
    GnnTrain.EvModelCheckpoint monitor dir mode ∈ t /\
    GnnTrain.EvEarlyStopping monitor (GnnTrain.early_stopping_patience a) mode
      ∈ t.
Proof.
  intros w args t.
  apply (main_callbacks_agree w args t).
  vm_compute. reflexivity.
Defined.

(** ** custom_train.py: the optimizer steps of an epoch *)

Section TrainEpochSteps.
Variable c : CustomTrain.config.

(** With [batch_accumulation] 0 the test of line 57 divides by zero: an
    epoch over a loader whose first batch goes through the model and the
    loss ends on [ZeroDivisionError] right after the first backward
    pass, and the optimizer is never stepped. *)
Theorem train_epoch_zero_accumulation (b : CustomTrain.batch)
    (l : CustomTrain.loader) :
  CustomTrain.batch_loss c b = Ok tt ->
  CustomTrain.train_epoch c (b :: l) 0
  = ([CustomTrain.EvModelTrain; CustomTrain.EvForward "train" 0;
      CustomTrain.EvBackward 0], Raise ZeroDivisionError).
Proof.
  intros Hb. unfold CustomTrain.train_epoch. cbn [CustomTrain.train_iters].
  unfold CustomTrain.train_iter. rewrite Hb. reflexivity.
Qed.

Lemma step_count_iteration len ba k :
  length (filter (fun ev => CustomTrain.is_step ev = true)
            (CustomTrain.iteration_events c len ba k))
  = if CustomTrain.steps_at len ba k then 1%nat else 0%nat.
Proof.
  unfold CustomTrain.iteration_events.
  destruct (CustomTrain.steps_at len ba k);
    destruct (CustomTrain.optim_clip_grad_norm c); reflexivity.
Qed.

Lemma step_count_bind len ba (ks : list nat) :
  length (filter (fun ev => CustomTrain.is_step ev = true)
            (ks ≫= CustomTrain.iteration_events c len ba))
  = length (filter (fun k => CustomTrain.steps_at len ba k = true) ks).
Proof.
  induction ks as [|k ks IH]; [done|].
  rewrite bind_cons, filter_app, length_app, step_count_iteration, IH.
  rewrite filter_cons. by destruct (CustomTrain.steps_at len ba k).
Qed.

Lemma div_succ (ba m : Z) :
  0 < ba -> 0 <= m ->
  (m + 1) / ba = m / ba + (if (m + 1) mod ba =? 0 then 1 else 0).
Proof.
  intros Hba Hm.
  pose proof (Z.div_mod m ba) as Hd. pose proof (Z.mod_pos_bound m ba Hba).
  pose proof (Z.div_mod (m + 1) ba) as Hd'.
  pose proof (Z.mod_pos_bound (m + 1) ba Hba).
  destruct (Z.eqb_spec ((m + 1) mod ba) 0) as [Hz|Hz]; nia.
Qed.

(** The iterations before the last one step on the multiples of
    [batch_accumulation]. *)
Lemma multiples_count (ba : Z) (len m : nat) :
  0 < ba -> (m < len)%nat ->
  length (filter (fun k => CustomTrain.steps_at len ba k = true) (seq 0 m))
  = Z.to_nat (Z.of_nat m / ba).
Proof.
  intros Hba. induction m as [|m IH]; intros Hm.
  - by rewrite Z.div_0_l by lia.
  - rewrite seq_S, filter_app, length_app, IH by lia. cbn [Nat.add].
    rewrite Nat2Z.inj_succ, <- Z.add_1_r, div_succ by lia.
    rewrite filter_cons, filter_nil. unfold CustomTrain.steps_at.
    destruct (Nat.eqb_spec (m + 1) len) as [|_]; [lia|].
    rewrite orb_false_r.
    assert (0 <= Z.of_nat m / ba) by (apply Z.div_pos; lia).
    destruct ((Z.of_nat m + 1) mod ba =? 0); simpl; lia.
Qed.

Lemma steps_count (ba : Z) (n : nat) :
  0 < ba ->
  length (filter (fun k => CustomTrain.steps_at n ba k = true) (seq 0 n))
  = Z.to_nat ((Z.of_nat n + ba - 1) / ba).
Proof.
  intros Hba. destruct n as [|m].
  - rewrite Z.div_small by lia. done.
  - rewrite seq_S, filter_app, length_app, multiples_count by lia.
    cbn [Nat.add]. rewrite filter_cons, filter_nil.
    assert (Hs : CustomTrain.steps_at (S m) ba m = true).
    { unfold CustomTrain.steps_at. apply orb_true_iff. right.
      apply Nat.eqb_eq. lia. }
    rewrite Hs.
    replace (Z.of_nat (S m) + ba - 1) with (Z.of_nat m + 1 * ba) by lia.
    rewrite Z.div_add by lia.
    assert (0 <= Z.of_nat m / ba) by (apply Z.div_pos; lia).
    simpl. lia.
Qed.

(** With a positive [batch_accumulation], an epoch over a loader of [n]
    batches that all go through steps the optimizer [ceil(n /
    batch_accumulation)] times: once for every full group of
    accumulated batches and once more for a last, shorter group. *)
Theorem train_epoch_step_count (l : CustomTrain.loader) (ba : Z) :
  0 < ba -> CustomTrain.loader_ok c l ->
  length (filter (fun ev => CustomTrain.is_step ev = true)
            (trace_of (CustomTrain.train_epoch c l ba)))
  = Z.to_nat ((Z.of_nat (length l) + ba - 1) / ba).
Proof.
  intros Hba Hok. unfold CustomTrain.train_epoch.
  rewrite train_iters_trace by (done || lia). rewrite bind_emit.
  cbn [trace_of fst snd]. rewrite filter_cons. cbn [CustomTrain.is_step].
  rewrite decide_False by done.
  rewrite step_count_bind. by apply steps_count.
Qed.
End TrainEpochSteps.

(** The first batch of the sample loader with [batch_accumulation] 0. *)
Lemma train_epoch_zero_accumulation_witness :
  CustomTrain.train_epoch (CustomTrain.sample_config false false 1)
    CustomTrain.sample_loader 0
  = ([CustomTrain.EvModelTrain; CustomTrain.EvForward "train" 0;
      CustomTrain.EvBackward 0], Raise ZeroDivisionError).
Proof.
  apply (train_epoch_zero_accumulation
           (CustomTrain.sample_config false false 1)
           {| CustomTrain.pred_ndim := 2; CustomTrain.true_ndim := 1 |}
           (replicate 4 {| CustomTrain.pred_ndim := 2;
                           CustomTrain.true_ndim := 1 |})).
  reflexivity.
Defined.

(** Five batches accumulated two by two: three steps. *)
Lemma train_epoch_step_count_witness :
  length (filter (fun ev => CustomTrain.is_step ev = true)
            (trace_of (CustomTrain.train_epoch
                         (CustomTrain.sample_config false false 1)
                         CustomTrain.sample_loader 2)))
  = 3%nat.
Proof.
  apply (train_epoch_step_count (CustomTrain.sample_config false false 1)
           CustomTrain.sample_loader 2).
  - lia.
  - by repeat constructor.
Defined.

(** ** custom_train.py: the bookkeeping of the loop over epochs *)

Lemma arg_first_lt better l i best_i best :
  (best_i < i)%nat -> (arg_first better l i best_i best < i + length l)%nat.
Proof.
  revert i best_i best.
  induction l as [|x l IH]; intros i best_i best Hlt; simpl; [lia|].
  destruct (better x best).
  - specialize (IH (S i) i x). lia.
  - specialize (IH (S i) best_i best). lia.
Qed.

(** [argmin] and [argmax] return a position of the array. *)
Lemma np_arg_bound better name l b :
  np_arg better name l = Ok b -> 0 <= b < Z.of_nat (length l).
Proof.
  destruct l as [|x l]; [done|]. intros [= <-].
  pose proof (arg_first_lt better l 1 0 x). simpl. lia.
Qed.

Lemma mapM_result_length {A B} (f : A -> result B) l l' :
  mapM f l = Ok l' -> length l' = length l.
Proof.
  revert l'. induction l as [|a l IH]; intros l'; cbn [mapM].
  - by intros [= <-].
  - destruct (f a) as [b|e]; [|done]. simpl.
    destruct (mapM f l) as [k|e]; [|done]. simpl.
    intros [= <-]. simpl. f_equal. by apply IH.
Qed.

Lemma py_range_nil (a b : Z) : b <= a -> py_range a b = [].
Proof. intros H. unfold py_range. by replace (Z.to_nat (b - a)) with 0%nat by lia. Qed.

Lemma py_range_cons (a b : Z) : a < b -> py_range a b = a :: py_range (a + 1) b.
Proof.
  intros H. unfold py_range.
  replace (Z.to_nat (b - a)) with (S (Z.to_nat (b - (a + 1)))) by lia.
  cbn [seq]. rewrite <- fmap_S_seq. rewrite fmap_cons, <- list_fmap_compose.
  f_equal; [lia|]. apply list_fmap_ext. intros i k _. simpl. lia.
Qed.

(** Appending to the list at position [i] makes that list, and no other,
    longer by one. *)
Lemma perf_append_lens perf i x :
  length <$> CustomTrain.perf_append perf i x = alter S i (length <$> perf).
Proof.
  unfold CustomTrain.perf_append. apply list_fmap_alter.
  apply Forall_forall. intros p _. rewrite length_app. simpl. lia.
Qed.

Lemma bump_lookup (l : list nat) a m j :
  foldl (fun l i => alter S i l) l (seq a m) !! j
  = if bool_decide (a <= j < a + m)%nat then S <$> l !! j else l !! j.
Proof.
  revert a l. induction m as [|m IH]; intros a l; cbn [seq foldl].
  - rewrite bool_decide_eq_false_2 by lia. done.
  - rewrite IH. destruct (decide (j = a)) as [->|Hne].
    + rewrite bool_decide_eq_false_2 by lia.
      rewrite bool_decide_eq_true_2 by lia.
      by rewrite list_lookup_alter_eq.
    + rewrite list_lookup_alter_ne by done.
      repeat case_bool_decide; try lia; done.
Qed.

Section LoopBookkeeping.
Variable c : CustomTrain.config.
Variable w : CustomTrain.world.
Variable start : Z.

Local Abbreviation ok := (CustomTrain.bookkeeping_ok c w start).

Local Ltac quiet_step :=
  first
    [ apply Forall_nil_2
    | apply forall_trace_emit; exact I
    | apply forall_trace_bind; [|intros ? ?] ].

Lemma train_iters_bookkeeping len ba iter batches :
  Forall ok (trace_of (CustomTrain.train_iters c len ba iter batches)).
Proof.
  revert iter. induction batches as [|b batches IH]; intros iter.
  - apply Forall_nil_2.
  - cbn [CustomTrain.train_iters].
    apply forall_trace_bind; [|intros ? ?; apply IH].
    unfold CustomTrain.train_iter. repeat quiet_step.
    destruct (_ || _); repeat quiet_step.
    destruct (CustomTrain.optim_clip_grad_norm c); repeat quiet_step.
Qed.

Lemma eval_iters_bookkeeping split iter batches :
  Forall ok (trace_of (CustomTrain.eval_iters c split iter batches)).
Proof.
  revert iter. induction batches as [|b batches IH]; intros iter.
  - apply Forall_nil_2.
  - cbn [CustomTrain.eval_iters]. repeat quiet_step. apply IH.
Qed.

Lemma eval_splits_bookkeeping cur perf splits :
  Forall ok (trace_of (CustomTrain.eval_splits c w cur perf splits)).
Proof.
  revert perf. induction splits as [|i splits IH]; intros perf.
  - apply Forall_nil_2.
  - cbn [CustomTrain.eval_splits]. repeat quiet_step.
    + unfold CustomTrain.eval_epoch. repeat quiet_step.
      apply eval_iters_bookkeeping.
    + apply IH.
Qed.

Lemma epoch_train_eval_bookkeeping cur perf :
  Forall ok (trace_of (CustomTrain.epoch_train_eval c w cur perf)).
Proof.
  unfold CustomTrain.epoch_train_eval. repeat quiet_step.
  - destruct (_ =? _)%nat; apply Forall_nil_2.
  - unfold CustomTrain.train_epoch. repeat quiet_step.
    apply train_iters_bookkeeping.
  - destruct (CustomTrain.is_eval_epoch w cur).
    + apply eval_splits_bookkeeping.
    + apply Forall_nil_2.
Qed.

Lemma epoch_schedule_bookkeeping cur perf :
  Forall ok (trace_of (CustomTrain.epoch_schedule c w cur perf)).
Proof.
  unfold CustomTrain.epoch_schedule. repeat quiet_step.
  - destruct (String.eqb _ _); repeat quiet_step.
  - destruct (CustomTrain.train_enable_ckpt c) eqn:He; [|apply Forall_nil_2].
    destruct (CustomTrain.train_ckpt_best c) eqn:Hb; [apply Forall_nil_2|].
    destruct (CustomTrain.is_ckpt_epoch w cur) eqn:Hc; [|apply Forall_nil_2].
    apply forall_trace_emit. cbn [CustomTrain.bookkeeping_ok].
    by rewrite He, Hb.
  - destruct (CustomTrain.wandb_use c); repeat quiet_step.
Qed.

Lemma epoch_best_bookkeeping cur perf val_perf old :
  Forall ok (trace_of (CustomTrain.epoch_best c w cur perf val_perf old)).
Proof.
  unfold CustomTrain.epoch_best.
  destruct (CustomTrain.is_eval_epoch w cur); [|apply Forall_nil_2].
  repeat quiet_step.
  - destruct (negb _); repeat quiet_step.
  - destruct (CustomTrain.wandb_use c); repeat quiet_step.
Qed.

Lemma epoch_end_bookkeeping cur perf best :
  (forall b, best = Some b -> 0 <= b <= cur - start) ->
  Forall ok (trace_of (CustomTrain.epoch_end c cur perf best)).
Proof.
  intros Hbest. unfold CustomTrain.epoch_end.
  destruct best as [b|]; cbn [CustomTrain.read_best_epoch].
  2: { destruct (_ && _); apply Forall_nil_2. }
  specialize (Hbest b eq_refl).
  repeat quiet_step.
  - destruct (CustomTrain.train_enable_ckpt c) eqn:He; [|apply Forall_nil_2].
    destruct (CustomTrain.train_ckpt_best c) eqn:Hb; [|apply Forall_nil_2].
    cbn [andb]. repeat quiet_step.
    destruct (Z.eqb_spec a cur) as [->|_]; [|apply Forall_nil_2].
    apply forall_trace_bind.
    + apply forall_trace_emit. cbn [CustomTrain.bookkeeping_ok].
      rewrite He, Hb. unfold lift, outcome in H. simpl in H.
      injection H as <-. split; [done|]. lia.
    + intros ? ?.
      destruct (CustomTrain.train_ckpt_clean c); repeat quiet_step.
  - apply forall_trace_emit. cbn [CustomTrain.bookkeeping_ok].
    unfold lift, outcome in H0. simpl in H0. by injection H0 as <-.
  - match goal with |- context [if ?b then _ else _] => destruct b end;
      repeat quiet_step.
Qed.

Lemma eval_splits_lens cur perf splits t perf' :
  CustomTrain.eval_splits c w cur perf splits = (t, Ok perf') ->
  length <$> perf'
  = foldl (fun l i => alter S i l) (length <$> perf) splits.
Proof.
  revert perf t. induction splits as [|i splits IH]; intros perf t H;
    cbn [CustomTrain.eval_splits foldl] in *.
  - by injection H as _ <-.
  - apply bind_ok_inv in H as (? & l & ? & _ & H & _).
    apply bind_ok_inv in H as (? & name & ? & _ & H & _).
    apply bind_ok_inv in H as (? & [] & ? & _ & H & _).
    apply bind_ok_inv in H as (? & [] & ? & _ & H & _).
    apply IH in H. by rewrite H, perf_append_lens.
Qed.

Lemma repeat_last_lens perf splits perf' :
  CustomTrain.repeat_last perf splits = Ok perf' ->
  length <$> perf'
  = foldl (fun l i => alter S i l) (length <$> perf) splits.
Proof.
  revert perf. induction splits as [|i splits IH]; intros perf H;
    cbn [CustomTrain.repeat_last foldl] in *.
  - by injection H as <-.
  - destruct (py_index perf i) as [p|]; [|done]. simpl in H.
    destruct (py_last p) as [x|]; [|done]. simpl in H.
    apply IH in H. by rewrite H, perf_append_lens.
Qed.

(** Lines 173-183 make every list of [perf] longer by one. *)
Lemma epoch_train_eval_lens cur perf t perf' :
  length perf = CustomTrain.loggers w ->
  CustomTrain.epoch_train_eval c w cur perf = (t, Ok perf') ->
  length <$> perf' = S <$> (length <$> perf).
Proof.
  intros Hlen H. unfold CustomTrain.epoch_train_eval in H.
  apply bind_ok_inv in H as (? & [] & ? & H0 & H & _).
  destruct (Nat.eqb_spec (CustomTrain.loggers w) 0) as [|Hn]; [done|].
  apply bind_ok_inv in H as (? & l & ? & _ & H & _).
  apply bind_ok_inv in H as (? & [] & ? & _ & H & _).
  apply bind_ok_inv in H as (? & [] & ? & _ & H & _).
  assert (Hl : length <$> perf'
               = foldl (fun l i => alter S i l)
                   (alter S 0%nat (length <$> perf))
                   (seq 1 (CustomTrain.loggers w - 1))).
  { rewrite <- (perf_append_lens perf 0 (CustomTrain.write_epoch w 0 cur)).
    revert H. destruct (CustomTrain.is_eval_epoch w cur); intros H.
    - by eapply eval_splits_lens.
    - unfold lift in H. injection H as _ H. by apply repeat_last_lens. }
  rewrite Hl. apply list_eq. intros j. rewrite bump_lookup.
  rewrite (list_lookup_fmap S).
  destruct (decide (j = 0%nat)) as [->|Hj].
  - rewrite bool_decide_eq_false_2 by lia. by rewrite list_lookup_alter_eq.
  - rewrite list_lookup_alter_ne by done. case_bool_decide; [done|].
    rewrite lookup_ge_None_2; [done|]. rewrite length_fmap. lia.
Qed.

Lemma epoch_best_bound cur perf val_perf old t best k :
  CustomTrain.epoch_best c w cur perf val_perf old = (t, Ok best) ->
  length val_perf = S k ->
  (forall b, old = Some b -> 0 <= b < Z.of_nat k) ->
  forall b, best = Some b -> 0 <= b < Z.of_nat (S k).
Proof.
  unfold CustomTrain.epoch_best. intros H Hlen Hold.
  destruct (CustomTrain.is_eval_epoch w cur).
  - apply bind_ok_inv in H as (? & losses & ? & H1 & H & _).
    apply bind_ok_inv in H as (? & b0 & ? & H2 & H & _).
    apply bind_ok_inv in H as (? & b1 & ? & H3 & H & _).
    apply bind_ok_inv in H as (? & [] & ? & _ & H & _).
    injection H as _ <-. intros b [= <-].
    unfold lift in H1, H2. injection H1 as _ H1. injection H2 as _ H2.
    apply mapM_result_length in H1. unfold np_argmin in H2.
    apply np_arg_bound in H2.
    destruct (negb _).
    + apply bind_ok_inv in H3 as (? & ms & ? & H4 & H3 & _).
      apply bind_ok_inv in H3 as (? & b2 & ? & H5 & H3 & _).
      apply bind_ok_inv in H3 as (? & ? & ? & _ & H3 & _).
      apply bind_ok_inv in H3 as (? & ? & ? & _ & H3 & _).
      apply bind_ok_inv in H3 as (? & ? & ? & _ & H3 & _).
      injection H3 as _ <-.
      unfold lift in H4, H5. injection H4 as _ H4. injection H5 as _ H5.
      apply mapM_result_length in H4.
      unfold np_argmax, np_argmin in H5. revert H5.
      assert (length ms = S k) by (rewrite H4; exact Hlen).
      destruct (CustomTrain.metric_agg c); intros H5%np_arg_bound; lia.
    + injection H3 as _ <-.
      assert (length losses = S k) by (rewrite H1; exact Hlen). lia.
  - injection H as _ <-. intros b Hb. specialize (Hold b Hb). lia.
Qed.

(** The lists of [perf] all have as many entries as epochs were run, and
    [best_epoch] is a position in them. *)
Local Abbreviation inv k st :=
  (length (CustomTrain.perf st) = CustomTrain.loggers w /\
   Forall (fun p => length p = k%nat) (CustomTrain.perf st) /\
   forall b, CustomTrain.best_epoch st = Some b -> 0 <= b < Z.of_nat k%nat).

Lemma lens_succ (perf perf' : list (list CustomTrain.stats)) k :
  length <$> perf' = S <$> (length <$> perf) ->
  Forall (fun p => length p = k) perf ->
  length perf' = length perf /\ Forall (fun p => length p = S k) perf'.
Proof.
  intros Hl Hk. split.
  - apply (f_equal length) in Hl. by rewrite !length_fmap in Hl.
  - apply Forall_lookup. intros i p Hp.
    assert (Hi : (length <$> perf') !! i = Some (length p))
      by (by rewrite list_lookup_fmap, Hp).
    rewrite Hl, !list_lookup_fmap in Hi.
    destruct (perf !! i) as [q|] eqn:Hq; [|done].
    injection Hi as <-. f_equal.
    exact (proj1 (Forall_lookup _ _) Hk i q Hq).
Qed.

Lemma epoch_inv cur k st t st' stop :
  CustomTrain.epoch c w cur st = (t, Ok (st', stop)) ->
  inv k st -> inv (S k) st'.
Proof.
  unfold CustomTrain.epoch. intros H (Hlen & Hk & Hbest).
  apply bind_ok_inv in H as (t1 & perf' & t2 & H1 & H & ->).
  apply bind_ok_inv in H as (t3 & val_perf & t4 & H3 & H & ->).
  apply bind_ok_inv in H as (t5 & best & t6 & H5 & H & ->).
  apply bind_ok_inv in H as (t7 & stop' & t8 & H7 & H & ->).
  injection H as <- <- <-. cbn [CustomTrain.perf CustomTrain.best_epoch].
  apply epoch_train_eval_lens in H1; [|done].
  destruct (lens_succ _ _ _ H1 Hk) as [Hlen' Hk'].
  split_and!; [congruence|done|].
  eapply epoch_best_bound; [exact H5| |exact Hbest].
  unfold CustomTrain.epoch_schedule in H3.
  apply bind_ok_inv in H3 as (? & vp & ? & Hvp & H3 & _).
  apply bind_ok_inv in H3 as (? & ? & ? & _ & H3 & _).
  apply bind_ok_inv in H3 as (? & ? & ? & _ & H3 & _).
  apply bind_ok_inv in H3 as (? & ? & ? & _ & H3 & _).
  injection H3 as _ <-. unfold lift, py_index in Hvp.
  destruct (perf' !! 1%nat) as [p|] eqn:Hp; [|done]. injection Hvp as _ <-.
  by eapply (proj1 (Forall_lookup _ _) Hk').
Qed.

Lemma epoch_bookkeeping cur k st :
  cur = start + Z.of_nat k -> inv k st ->
  Forall ok (trace_of (CustomTrain.epoch c w cur st)).
Proof.
  intros Hcur (Hlen & Hk & Hbest). unfold CustomTrain.epoch.
  apply forall_trace_bind; [apply epoch_train_eval_bookkeeping|].
  intros perf' H1%outcome_ok_eq.
  apply forall_trace_bind; [apply epoch_schedule_bookkeeping|].
  intros val_perf H3%outcome_ok_eq.
  apply forall_trace_bind; [apply epoch_best_bookkeeping|].
  intros best H5%outcome_ok_eq.
  apply forall_trace_bind; [|intros ? ?; apply Forall_nil_2].
  apply epoch_end_bookkeeping. intros b Hb.
  assert (0 <= b < Z.of_nat (S k)); [|lia].
  eapply epoch_best_bound; [exact H5| |exact Hbest|exact Hb].
  apply epoch_train_eval_lens in H1; [|done].
  destruct (lens_succ _ _ _ H1 Hk) as [Hlen' Hk'].
  unfold CustomTrain.epoch_schedule in H3.
  apply bind_ok_inv in H3 as (? & vp & ? & Hvp & H3 & _).
  apply bind_ok_inv in H3 as (? & ? & ? & _ & H3 & _).
  apply bind_ok_inv in H3 as (? & ? & ? & _ & H3 & _).
  apply bind_ok_inv in H3 as (? & ? & ? & _ & H3 & _).
  injection H3 as _ <-. unfold lift, py_index in Hvp.
  destruct (perf' !! 1%nat) as [p|] eqn:Hp; [|done]. injection Hvp as _ <-.
  by eapply (proj1 (Forall_lookup _ _) Hk').
Qed.

Lemma epochs_bookkeeping (stop : Z) (n : nat) : forall cur k st,
  n = Z.to_nat (stop - cur) ->
  cur = start + Z.of_nat k -> inv k st ->
  Forall ok (trace_of (CustomTrain.epochs c w (py_range cur stop) st)).
Proof.
  induction n as [|n IH]; intros cur k st Hn Hcur Hinv.
  - rewrite py_range_nil by lia. apply Forall_nil_2.
  - rewrite py_range_cons by lia. cbn [CustomTrain.epochs].
    apply forall_trace_bind; [by eapply epoch_bookkeeping|].
    intros [st' stopped] H1%outcome_ok_eq.
    destruct stopped; [apply Forall_nil_2|].
    apply (IH (cur + 1) (S k) st'); [lia|lia|].
    by eapply epoch_inv.
Qed.
End LoopBookkeeping.

Section CustomTrainBookkeeping.
Variable c : CustomTrain.config.
Variable w : CustomTrain.world.

(** Every event of every run of [custom_train], whether the run
    completes or not, keeps the bookkeeping. *)
Lemma custom_train_bookkeeping :
  Forall (CustomTrain.bookkeeping_ok c w (CustomTrain.start_epoch c w))
    (trace_of (CustomTrain.custom_train c w)).
Proof.
  unfold CustomTrain.custom_train.
  apply forall_trace_bind.
  { destruct (CustomTrain.wandb_use c); [|apply Forall_nil_2].
    destruct (CustomTrain.import_wandb w); [apply Forall_nil_2|].
    by apply forall_trace_emit. }
  intros ? ?. apply forall_trace_bind.
  { eapply (epochs_bookkeeping c w _ _ _ _ 0%nat); [done|lia|].
    cbn [CustomTrain.initial_state CustomTrain.perf CustomTrain.best_epoch].
    split_and!; [apply length_replicate|by apply Forall_replicate|done]. }
  intros ? ?. apply forall_trace_bind.
  { generalize (seq 0 (CustomTrain.loggers w)). intros l.
    induction l as [|i l IH]; [apply Forall_nil_2|].
    cbn [mapM]. apply forall_trace_bind; [by apply forall_trace_emit|].
    intros ? ?. apply forall_trace_bind; [done|]. intros ? ?.
    apply Forall_nil_2. }
  intros ? ?. apply forall_trace_bind.
  { destruct (CustomTrain.train_ckpt_clean c);
      [by apply forall_trace_emit|apply Forall_nil_2]. }
  intros ? ?. apply forall_trace_bind.
  { destruct (CustomTrain.wandb_use c);
      [by apply forall_trace_emit|apply Forall_nil_2]. }
  intros ? ?. by apply forall_trace_emit.
Qed.

(** In every run of [custom_train], complete or not, the best epoch of
    a log line is a position in [perf]: it lies between 0 and the number
    of epochs run before the current one in this run, whatever the
    number of the epoch the run started from. *)
Theorem custom_train_best_epoch_counts_from_start (cur best : Z) :
  CustomTrain.EvLogEpoch cur best ∈ trace_of (CustomTrain.custom_train c w) ->
  0 <= best <= cur - CustomTrain.start_epoch c w.
Proof.
  intros Hin.
  exact (proj1 (Forall_forall _ _) custom_train_bookkeeping _ Hin).
Qed.

(** A checkpoint is written only if checkpoints are enabled; without
    [cfg.train.ckpt_best] only on the epochs that [is_ckpt_epoch]
    selects. *)
Theorem custom_train_checkpoint_only_if (cur : Z) :
  CustomTrain.EvSaveCkpt cur ∈ trace_of (CustomTrain.custom_train c w) ->
  CustomTrain.train_enable_ckpt c = true /\
  (CustomTrain.train_ckpt_best c = false ->
   CustomTrain.is_ckpt_epoch w cur = true).
Proof.
  intros Hin.
  pose proof (proj1 (Forall_forall _ _) custom_train_bookkeeping _ Hin) as H.
  cbn [CustomTrain.bookkeeping_ok] in H. destruct H as [He H].
  split; [done|]. intros Hb. by rewrite Hb in H.
Qed.

(** With [cfg.train.ckpt_best], a run that starts from an epoch above 0
    (a run resumed from a checkpoint) never writes a checkpoint: the
    test [best_epoch == cur_epoch] compares a position in [perf] with the
    number of the epoch. *)
Theorem custom_train_resumed_saves_no_best_checkpoint :
  CustomTrain.train_ckpt_best c = true ->
  0 < CustomTrain.start_epoch c w ->
  Forall (fun ev => CustomTrain.is_save_ckpt ev = false)
    (trace_of (CustomTrain.custom_train c w)).
Proof.
  intros Hb Hstart.
  eapply Forall_impl; [apply custom_train_bookkeeping|].
  intros ev Hev. destruct ev; try done.
  cbn [CustomTrain.bookkeeping_ok] in Hev. rewrite Hb in Hev. lia.
Qed.

(** A run that completes, starts from an epoch above the patience and has
    an epoch to run, runs that one epoch and stops: its best epoch is
    position 0, which is more than the patience below the number of the
    epoch. *)
Theorem custom_train_resumed_stops_at_once t :
  CustomTrain.custom_train c w = (t, Ok tt) ->
  CustomTrain.start_epoch c w < CustomTrain.optim_max_epoch c ->
  CustomTrain.optim_early_stopping_patience c < CustomTrain.start_epoch c w ->
  CustomTrain.observations t
  = [CustomTrain.Started;
     CustomTrain.Logged (CustomTrain.start_epoch c w) 0;
     CustomTrain.Stopped (CustomTrain.start_epoch c w)].
Proof.
  intros Hrun Hmax Hpat.
  pose proof custom_train_bookkeeping as Hbk. rewrite Hrun in Hbk.
  cbn [trace_of fst] in Hbk.
  unfold CustomTrain.custom_train in Hrun.
  apply bind_ok_inv in Hrun as (t1 & [] & t2 & H1 & H & ->).
  apply bind_ok_inv in H as (t3 & st' & t4 & H3 & H & ->).
  pose proof (custom_train_head_silent c w) as [Hh _]. rewrite H1 in Hh.
  pose proof (custom_train_tail_silent c w) as [Ht _]. rewrite H in Ht.
  cbn [trace_of fst] in Hh, Ht.
  apply epochs_follow_patience in H3.
  rewrite py_range_cons in H3 by done.
  cbn [CustomTrain.follows_patience] in H3.
  destruct H3 as (best & o' & Ho & Hstop).
  assert (Hobs : CustomTrain.observations (t1 ++ t3 ++ t4)
                 = CustomTrain.Started
                   :: CustomTrain.Logged (CustomTrain.start_epoch c w) best :: o').
  { unfold CustomTrain.observations in *.
    by rewrite !omap_app, Hh, Ht, app_nil_r. }
  assert (Hbest : best = 0).
  { assert (Hin : CustomTrain.Logged (CustomTrain.start_epoch c w) best
                  ∈ CustomTrain.observations (t1 ++ t3 ++ t4)).
    { rewrite Hobs. apply elem_of_cons. right. apply elem_of_cons. by left. }
    apply list_elem_of_omap in Hin as (ev & Hev & Hobserve).
    destruct ev; try done. injection Hobserve as -> ->.
    pose proof (proj1 (Forall_forall _ _) Hbk _ Hev) as Hb.
    cbn [CustomTrain.bookkeeping_ok] in Hb. lia. }
  subst best. rewrite Hobs.
  unfold CustomTrain.stops_early in Hstop.
  destruct (Z.ltb_spec (CustomTrain.optim_early_stopping_patience c)
              (CustomTrain.start_epoch c w - 0)) as [_|?]; [|lia].
  simpl in Hstop. by rewrite Hstop.
Qed.
End CustomTrainBookkeeping.

(** A run resumed at epoch 1 with patience 5: its first log line names
    position 0 as the best epoch. *)
Lemma custom_train_best_epoch_counts_from_start_witness :
  let c := CustomTrain.sample_config true false 5 in
  let w := CustomTrain.sample_world 1 in
  0 <= 0 <= 1 - CustomTrain.start_epoch c w.
Proof.
  intros c w. apply (custom_train_best_epoch_counts_from_start c w 1 0).
  set (t := trace_of (CustomTrain.custom_train c w)).
  vm_compute in t. subst t. repeat constructor.
Defined.

(** A run from epoch 0 saves the checkpoint of epoch 0, its best epoch
    so far. *)
Lemma custom_train_checkpoint_only_if_witness :
  let c := CustomTrain.sample_config false false 1 in
  let w := CustomTrain.sample_world 1 in
  CustomTrain.train_enable_ckpt c = true /\
  (CustomTrain.train_ckpt_best c = false ->
   CustomTrain.is_ckpt_epoch w 0 = true).
Proof.
  intros c w. apply (custom_train_checkpoint_only_if c w 0).
  set (t := trace_of (CustomTrain.custom_train c w)).
  vm_compute in t. subst t. repeat constructor.
Defined.

(** The run resumed at epoch 1 writes no checkpoint. *)
Lemma custom_train_resumed_saves_no_best_checkpoint_witness :
  let c := CustomTrain.sample_config true false 5 in
  let w := CustomTrain.sample_world 1 in
  Forall (fun ev => CustomTrain.is_save_ckpt ev = false)
    (trace_of (CustomTrain.custom_train c w)).
Proof.
  intros c w. apply (custom_train_resumed_saves_no_best_checkpoint c w).
  - reflexivity.
  - reflexivity.
Defined.

(** Resumed at epoch 1 with patience 0, the run stops after epoch 1. *)
Lemma custom_train_resumed_stops_at_once_witness :
  let c := CustomTrain.sample_config true false 0 in
  let w := CustomTrain.sample_world 1 in
  CustomTrain.observations (trace_of (CustomTrain.custom_train c w))
  = [CustomTrain.Started;
     CustomTrain.Logged (CustomTrain.start_epoch c w) 0;
     CustomTrain.Stopped (CustomTrain.start_epoch c w)].
Proof.
  intros c w.
  apply (custom_train_resumed_stops_at_once c w
           (trace_of (CustomTrain.custom_train c w))).
  - vm_compute. reflexivity.
  - reflexivity.
  - reflexivity.
Defined.

(** ** custom_train.py: what a run needs to complete *)

Lemma close_loggers_eq (l : list nat) :
  mapM (fun i => emit (CustomTrain.EvLoggerClose i)) l
  = (CustomTrain.EvLoggerClose <$> l, Ok ((fun _ => tt) <$> l)).
Proof.
  induction l as [|i l IH]; [done|].
  cbn [mapM]. rewrite bind_emit, IH. simpl. by rewrite app_nil_r.
Qed.

Section CustomTrainCompletes.
Variable c : CustomTrain.config.
Variable w : CustomTrain.world.

(** When the checkpoint found is that of the last epoch or a later one
    ("Task already done"), nothing is trained: the loggers are closed,
    the old checkpoints are cleaned if asked for, and the run
    completes, whatever the loggers and loaders are. *)
Theorem custom_train_nothing_to_do :
  CustomTrain.optim_max_epoch c <= CustomTrain.start_epoch c w ->
  (CustomTrain.wandb_use c = true -> CustomTrain.import_wandb w = None) ->
  CustomTrain.custom_train c w
  = ((if CustomTrain.wandb_use c then [CustomTrain.EvWandbInit] else [])
     ++ (CustomTrain.EvLoggerClose <$> seq 0 (CustomTrain.loggers w))
     ++ (if CustomTrain.train_ckpt_clean c then [CustomTrain.EvCleanCkpt]
         else [])
     ++ (if CustomTrain.wandb_use c then [CustomTrain.EvWandbFinish] else [])
     ++ [CustomTrain.EvTaskDone],
     Ok tt).
Proof.
  intros Hmax Hwandb. unfold CustomTrain.custom_train.
  rewrite py_range_nil by done. cbn [CustomTrain.epochs].
  rewrite close_loggers_eq.
  destruct (CustomTrain.wandb_use c).
  - rewrite Hwandb by done. rewrite bind_emit, bind_ret. cbn [fst snd].
    rewrite (bind_ok _ _ _ _ eq_refl).
    destruct (CustomTrain.train_ckpt_clean c); reflexivity.
  - rewrite !bind_ret. rewrite (bind_ok _ _ _ _ eq_refl).
    destruct (CustomTrain.train_ckpt_clean c); simpl;
      by rewrite ?app_nil_r.
Qed.

Lemma eval_splits_ok_inv cur perf splits t perf' :
  CustomTrain.eval_splits c w cur perf splits = (t, Ok perf') ->
  Forall (fun i => (i < length (CustomTrain.loaders w))%nat
                   /\ (i - 1 < 2)%nat) splits.
Proof.
  revert perf t. induction splits as [|i splits IH]; intros perf t H;
    cbn [CustomTrain.eval_splits] in H; [done|].
  apply bind_ok_inv in H as (? & l & ? & Hl & H & _).
  apply bind_ok_inv in H as (? & name & ? & Hname & H & _).
  apply bind_ok_inv in H as (? & [] & ? & _ & H & _).
  apply bind_ok_inv in H as (? & [] & ? & _ & H & _).
  constructor; [|by eapply IH].
  unfold lift, py_index in Hl, Hname.
  destruct (CustomTrain.loaders w !! i) eqn:Hi; [|done].
  destruct (CustomTrain.split_names !! (i - 1)%nat) eqn:Hs; [|done].
  apply lookup_lt_Some in Hi, Hs. done.
Qed.

Lemma epoch_end_reads_perf cur perf best t stop :
  CustomTrain.epoch_end c cur perf best = (t, Ok stop) ->
  (2 < length perf)%nat.
Proof.
  unfold CustomTrain.epoch_end. intros H.
  apply bind_ok_inv in H as (? & [] & ? & _ & H & _).
  apply bind_ok_inv in H as (? & b & ? & _ & H & _).
  apply bind_ok_inv in H as (? & ? & ? & _ & H & _).
  apply bind_ok_inv in H as (? & ? & ? & _ & H & _).
  apply bind_ok_inv in H as (? & q & ? & Hq & _ & _).
  unfold lift in Hq. injection Hq as _ Hq.
  unfold CustomTrain.perf_at, py_index in Hq.
  destruct (perf !! 2%nat) eqn:Hp; [|done].
  by apply lookup_lt_Some in Hp.
Qed.

(** A run of [custom_train] that has an epoch to run and completes was
    handed exactly three loggers and at least three loaders, and its
    first epoch was an evaluation epoch: [split_names] has two entries,
    and the log line reads [perf[2]]. *)
Theorem custom_train_needs_three_loggers t :
  CustomTrain.custom_train c w = (t, Ok tt) ->
  CustomTrain.start_epoch c w < CustomTrain.optim_max_epoch c ->
  CustomTrain.loggers w = 3%nat /\
  (3 <= length (CustomTrain.loaders w))%nat /\
  CustomTrain.is_eval_epoch w (CustomTrain.start_epoch c w) = true.
Proof.
  intros Hrun Hmax. unfold CustomTrain.custom_train in Hrun.
  apply bind_ok_inv in Hrun as (t1 & [] & t2 & _ & H & _).
  apply bind_ok_inv in H as (t3 & st' & t4 & H & _ & _).
  rewrite py_range_cons in H by done. cbn [CustomTrain.epochs] in H.
  apply bind_ok_inv in H as (t5 & [st1 stop] & t6 & H & _ & _).
  unfold CustomTrain.epoch in H.
  cbn [CustomTrain.initial_state CustomTrain.perf CustomTrain.best_epoch] in H.
  apply bind_ok_inv in H as (ta & perf' & tb & H1 & H & _).
  apply bind_ok_inv in H as (tc & val_perf & td & H3 & H & _).
  apply bind_ok_inv in H as (te & best & tf & H5 & H & _).
  apply bind_ok_inv in H as (tg & stop' & th & H7 & _ & _).
  destruct (CustomTrain.is_eval_epoch w (CustomTrain.start_epoch c w)) eqn:Hev.
  2: { by rewrite (first_epoch_not_eval c w _ _ _ Hev H1) in H3. }
  assert (Hge : (3 <= CustomTrain.loggers w)%nat).
  { pose proof (epoch_train_eval_lens c w _ _ _ _
                  (length_replicate _ _) H1) as Hl.
    apply (f_equal length) in Hl.
    rewrite !length_fmap, length_replicate in Hl.
    apply epoch_end_reads_perf in H7. lia. }
  unfold CustomTrain.epoch_train_eval in H1.
  apply bind_ok_inv in H1 as (? & [] & ? & _ & H1 & _).
  apply bind_ok_inv in H1 as (? & l & ? & _ & H1 & _).
  apply bind_ok_inv in H1 as (? & [] & ? & _ & H1 & _).
  apply bind_ok_inv in H1 as (? & [] & ? & _ & H1 & _).
  rewrite Hev in H1. apply eval_splits_ok_inv in H1.
  assert (Hin : (CustomTrain.loggers w - 1)%nat
                ∈ seq 1 (CustomTrain.loggers w - 1)).
  { apply elem_of_seq. lia. }
  pose proof (proj1 (Forall_forall _ _) H1 _ Hin) as [Hloaders Hnames].
  split_and!; [lia|lia|done].
Qed.
End CustomTrainCompletes.

(** The checkpoint found is that of the last epoch. *)
Lemma custom_train_nothing_to_do_witness :
  let c := CustomTrain.sample_config true false 1 in
  let w := CustomTrain.sample_world 1 in
  CustomTrain.custom_train c
    {| CustomTrain.loggers := 3; CustomTrain.loaders := CustomTrain.loaders w;
       CustomTrain.load_ckpt := 10;
       CustomTrain.is_eval_epoch := CustomTrain.is_eval_epoch w;
       CustomTrain.is_ckpt_epoch := CustomTrain.is_ckpt_epoch w;
       CustomTrain.import_wandb := CustomTrain.import_wandb w;
       CustomTrain.write_epoch := CustomTrain.write_epoch w |}
  = ([CustomTrain.EvLoggerClose 0; CustomTrain.EvLoggerClose 1;
      CustomTrain.EvLoggerClose 2; CustomTrain.EvTaskDone], Ok tt).
Proof.
  intros c w.
  apply (custom_train_nothing_to_do c
           {| CustomTrain.loggers := 3;
              CustomTrain.loaders := CustomTrain.loaders w;
              CustomTrain.load_ckpt := 10;
              CustomTrain.is_eval_epoch := CustomTrain.is_eval_epoch w;
              CustomTrain.is_ckpt_epoch := CustomTrain.is_ckpt_epoch w;
              CustomTrain.import_wandb := CustomTrain.import_wandb w;
              CustomTrain.write_epoch := CustomTrain.write_epoch w |}).
  - vm_compute. discriminate.
  - discriminate.
Defined.

(** The sample run has three loggers and loaders and evaluates its first
    epoch. *)
Lemma custom_train_needs_three_loggers_witness :
  let c := CustomTrain.sample_config false false 1 in
  let w := CustomTrain.sample_world 1 in
  CustomTrain.loggers w = 3%nat /\
  (3 <= length (CustomTrain.loaders w))%nat /\
  CustomTrain.is_eval_epoch w (CustomTrain.start_epoch c w) = true.
Proof.
  intros c w.
  apply (custom_train_needs_three_loggers c w
           (trace_of (CustomTrain.custom_train c w))).
  - vm_compute. reflexivity.
  - reflexivity.
Defined.

(** ** master_loader.py: the in-degree histogram *)

Lemma bump_count (d : list Z) : forall (out : list Z) (i : nat),
  foldl (fun out v => alter (Z.add 1) (Z.to_nat v) out) out d !! i
  = (fun x => x + Z.of_nat (length (filter (fun v => Z.to_nat v = i) d)))
      <$> out !! i.
Proof.
  induction d as [|v d IH]; intros out i; cbn [foldl].
  - rewrite filter_nil. destruct (out !! i); simpl; [|done]. f_equal. lia.
  - rewrite IH, filter_cons. destruct (decide (Z.to_nat v = i)) as [->|Hne].
    + rewrite list_lookup_alter_eq. destruct (out !! _); simpl; [|done].
      f_equal. lia.
    + by rewrite list_lookup_alter_ne.
Qed.

Lemma length_bump (d : list Z) : forall out : list Z,
  length (foldl (fun out v => alter (Z.add 1) (Z.to_nat v) out) out d)
  = length out.
Proof.
  induction d as [|v d IH]; intros out; cbn [foldl]; [done|].
  by rewrite IH, length_alter.
Qed.

Lemma scatter_add_ones_ok index : forall out,
  Forall (fun j => 0 <= j < Z.of_nat (length out)) index ->
  MasterLoader.scatter_add_ones out index
  = Ok (foldl (fun out v => alter (Z.add 1) (Z.to_nat v) out) out index).
Proof.
  induction index as [|j index IH]; intros out Hall; [done|].
  apply Forall_cons in Hall as [Hj Hall].
  cbn [MasterLoader.scatter_add_ones foldl].
  destruct (Z.leb_spec 0 j); [|lia].
  destruct (Z.ltb_spec j (Z.of_nat (length out))); [|lia].
  cbn [andb]. apply IH. by rewrite length_alter.
Qed.

Lemma scatter_add_ones_inv index : forall out out',
  MasterLoader.scatter_add_ones out index = Ok out' ->
  Forall (fun j => 0 <= j < Z.of_nat (length out)) index.
Proof.
  induction index as [|j index IH]; intros out out' H; [done|].
  cbn [MasterLoader.scatter_add_ones] in H.
  destruct (Z.leb_spec 0 j); [|done].
  destruct (Z.ltb_spec j (Z.of_nat (length out))); [|done].
  cbn [andb] in H. apply IH in H. rewrite length_alter in H.
  by constructor.
Qed.

Lemma filter_to_nat (l : list Z) (i : nat) :
  Forall (fun j => 0 <= j) l ->
  filter (fun v => Z.to_nat v = i) l = filter (fun j => j = Z.of_nat i) l.
Proof.
  induction 1 as [|j l Hj _ IH]; [done|].
  rewrite !filter_cons, IH.
  destruct (decide (Z.to_nat j = i)), (decide (j = Z.of_nat i)); try done; lia.
Qed.

Lemma degree_ok g :
  Forall (fun j => 0 <= j < Z.of_nat (MasterLoader.num_nodes g))
    (MasterLoader.edge_targets g) ->
  MasterLoader.degree (MasterLoader.edge_targets g) (MasterLoader.num_nodes g)
  = Ok (Z.of_nat <$> (MasterLoader.in_degree g
                        <$> seq 0 (MasterLoader.num_nodes g))).
Proof.
  intros Hall. unfold MasterLoader.degree.
  rewrite scatter_add_ones_ok by (by rewrite length_replicate).
  f_equal. apply list_eq. intros i.
  rewrite bump_count, !list_lookup_fmap.
  destruct (decide (i < MasterLoader.num_nodes g)%nat).
  - rewrite lookup_replicate_2, lookup_seq_lt by done. simpl. f_equal.
    unfold MasterLoader.in_degree. rewrite filter_to_nat; [done|].
    eapply Forall_impl; [exact Hall|]. simpl. lia.
  - rewrite (proj1 (lookup_replicate_None _ _ _)) by lia.
    by rewrite lookup_seq_ge by lia.
Qed.

Lemma tensor_max_of_nat (degs : list nat) :
  degs <> [] ->
  MasterLoader.tensor_max (Z.of_nat <$> degs) = Ok (Z.of_nat (max_list degs)).
Proof.
  destruct degs as [|x degs]; [done|]. intros _.
  rewrite fmap_cons. cbn [MasterLoader.tensor_max]. f_equal.
  change (max_list (x :: degs)) with (x `max` max_list degs)%nat.
  induction degs as [|y degs IH].
  - simpl. lia.
  - rewrite fmap_cons. cbn [foldr]. rewrite IH.
    change (max_list (y :: degs)) with (y `max` max_list degs)%nat. lia.
Qed.

Lemma max_list_app (l1 l2 : list nat) :
  max_list (l1 ++ l2) = (max_list l1 `max` max_list l2)%nat.
Proof. induction l1 as [|x l1 IH]; simpl; [done|]. rewrite IH. lia. Qed.

Lemma max_list_lt (l : list nat) (B : nat) :
  (0 < B)%nat -> Forall (fun d => (d < B)%nat) l -> (max_list l < B)%nat.
Proof. intros HB. induction 1; simpl; lia. Qed.

Lemma foldr_max_of_nat (degs : list nat) (B : nat) :
  Forall (fun d => (d < B)%nat) degs ->
  -1 <= foldr Z.max (-1) (Z.of_nat <$> degs) < Z.of_nat B \/
  (degs = [] /\ B = 0%nat).
Proof.
  induction 1 as [|d degs Hd _ IH].
  - destruct B; [by right|left; simpl; lia].
  - left. rewrite fmap_cons. cbn [foldr].
    destruct IH as [IH|[-> ->]]; simpl; lia.
Qed.

Lemma count_of_nat (degs : list nat) (i : nat) :
  length (filter (fun v => Z.to_nat v = i) (Z.of_nat <$> degs))
  = length (filter (fun d : nat => d = i) degs).
Proof.
  induction degs as [|d degs IH]; [done|].
  rewrite fmap_cons, !filter_cons, Nat2Z.id.
  destruct (decide (d = i)); simpl; by rewrite IH.
Qed.

Local Abbreviation hist B acc :=
  ((fun i : nat => Z.of_nat (length (filter (fun d : nat => d = i) acc)))
     <$> seq 0 B).

Lemma bincount_of_nat (degs : list nat) (B : nat) :
  Forall (fun d => (d < B)%nat) degs ->
  MasterLoader.bincount (Z.of_nat <$> degs) B = hist B degs.
Proof.
  intros Hall. unfold MasterLoader.bincount.
  assert (Hsize : Nat.max B (Z.to_nat (foldr Z.max (-1) (Z.of_nat <$> degs) + 1))
                  = B).
  { destruct (foldr_max_of_nat degs B Hall) as [?|[-> ->]]; [lia|done]. }
  cbv zeta. rewrite Hsize. apply list_eq. intros i.
  rewrite bump_count, list_lookup_fmap.
  destruct (decide (i < B)%nat).
  - rewrite lookup_replicate_2, lookup_seq_lt by done. simpl. f_equal.
    by rewrite count_of_nat.
  - rewrite (proj1 (lookup_replicate_None _ _ _)) by lia.
    by rewrite lookup_seq_ge by lia.
Qed.

Lemma length_bincount (d : list Z) (B : nat) :
  length (MasterLoader.bincount d B)
  = Nat.max B (Z.to_nat (foldr Z.max (-1) d + 1)).
Proof. unfold MasterLoader.bincount. by rewrite length_bump, length_replicate. Qed.

Lemma iadd_hist B (acc degs : list nat) :
  MasterLoader.iadd (hist B acc) (hist B degs) = Ok (hist B (acc ++ degs)).
Proof.
  unfold MasterLoader.iadd. rewrite !length_fmap, !length_seq, Nat.eqb_refl.
  f_equal. apply list_eq. intros i.
  rewrite lookup_zip_with, !list_lookup_fmap.
  destruct (seq 0 B !! i) as [k|]; simpl; [|done].
  f_equal. rewrite filter_app, length_app. lia.
Qed.

Lemma in_degrees_cons g rest :
  MasterLoader.in_degrees (g :: rest)
  = (MasterLoader.in_degree g <$> seq 0 (MasterLoader.num_nodes g))
    ++ MasterLoader.in_degrees rest.
Proof. unfold MasterLoader.in_degrees. by rewrite bind_cons. Qed.

Lemma histogram_loop_spec B rest : forall acc,
  Forall MasterLoader.well_formed rest ->
  Forall (fun d => (d < B)%nat) (MasterLoader.in_degrees rest) ->
  MasterLoader.histogram_loop rest (hist B acc) (Z.of_nat (max_list acc))
  = Ok (hist B (acc ++ MasterLoader.in_degrees rest),
        Z.of_nat (max_list (acc ++ MasterLoader.in_degrees rest))).
Proof.
  induction rest as [|g rest IH]; intros acc Hwf Hdeg.
  - change (MasterLoader.in_degrees []) with (@nil nat).
    by rewrite app_nil_r.
  - apply Forall_cons in Hwf as [[Hn Hg] Hwf].
    rewrite in_degrees_cons in Hdeg |- *.
    apply Forall_app in Hdeg as [Hdg Hdeg].
    cbn [MasterLoader.histogram_loop].
    rewrite degree_ok, result_bind_ok by done.
    rewrite tensor_max_of_nat, result_bind_ok.
    2: { destruct (MasterLoader.num_nodes g); done. }
    cbv zeta. rewrite length_fmap, length_seq.
    rewrite bincount_of_nat by done.
    rewrite iadd_hist, result_bind_ok.
    replace (Z.max (Z.of_nat (max_list acc))
               (Z.of_nat (max_list (MasterLoader.in_degree g
                            <$> seq 0 (MasterLoader.num_nodes g)))))
      with (Z.of_nat (max_list (acc ++ (MasterLoader.in_degree g
                            <$> seq 0 (MasterLoader.num_nodes g)))))
      by (rewrite max_list_app; lia).
    rewrite IH by done. by rewrite <- !app_assoc.
Qed.

Lemma replicate_hist B : replicate B 0 = hist B [].
Proof.
  apply list_eq. intros i. rewrite list_lookup_fmap.
  destruct (decide (i < B)%nat).
  - by rewrite lookup_replicate_2, lookup_seq_lt by done.
  - rewrite (proj1 (lookup_replicate_None _ _ _)) by lia.
    by rewrite lookup_seq_ge by lia.
Qed.

(** For graphs that have a node and whose edges point to their nodes,
    with every in-degree below 1000, [compute_indegree_histogram]
    returns the list whose [i]-th value is the number of nodes, over all
    graphs, of in-degree [i], for [i] from 0 to the largest in-degree
    (the list [[0]] for an empty dataset). *)
Theorem compute_indegree_histogram_spec (dataset : list MasterLoader.pyg_data) :
  Forall MasterLoader.well_formed dataset ->
  Forall (fun d => (d < 1000)%nat) (MasterLoader.in_degrees dataset) ->
  MasterLoader.compute_indegree_histogram dataset
  = Ok ((fun i : nat =>
           Z.of_nat (length (filter (fun d : nat => d = i)
                               (MasterLoader.in_degrees dataset))))
          <$> seq 0 (S (max_list (MasterLoader.in_degrees dataset)))).
Proof.
  intros Hwf Hdeg. unfold MasterLoader.compute_indegree_histogram.
  pose proof (histogram_loop_spec 1000 dataset [] Hwf Hdeg) as H.
  rewrite <- replicate_hist in H.
  change (Z.of_nat (max_list [])) with 0 in H.
  rewrite H, result_bind_ok. cbn [fst snd app].
  f_equal. rewrite <- fmap_take, take_seq. f_equal. f_equal.
  pose proof (max_list_lt (MasterLoader.in_degrees dataset) 1000) as Hm.
  specialize (Hm ltac:(lia) Hdeg). lia.
Qed.

Lemma foldr_max_inv (B : nat) (l : list nat) :
  foldr Z.max (-1) (Z.of_nat <$> l) + 1 <= Z.of_nat B ->
  Forall (fun d => (d < B)%nat) l.
Proof.
  induction l as [|x l IHl]; [done|].
  rewrite fmap_cons. cbn [foldr]. intros Hx.
  constructor; [lia|]. apply IHl. lia.
Qed.

Lemma histogram_loop_inv B rest : forall deg m r,
  (1 < B)%nat -> length deg = B ->
  MasterLoader.histogram_loop rest deg m = Ok r ->
  Forall MasterLoader.well_formed rest /\
  Forall (fun d => (d < B)%nat) (MasterLoader.in_degrees rest).
Proof.
  intros deg m r HB. revert deg m.
  induction rest as [|g rest IH]; intros deg m Hlen H; [by split|].
  cbn [MasterLoader.histogram_loop] in H.
  destruct (MasterLoader.degree _ _) as [d|e] eqn:Hd; [|done].
  rewrite result_bind_ok in H.
  unfold MasterLoader.degree in Hd.
  pose proof (scatter_add_ones_inv _ _ _ Hd) as Hg.
  rewrite length_replicate in Hg.
  pose proof (degree_ok g Hg) as Hd'. unfold MasterLoader.degree in Hd'.
  rewrite Hd in Hd'. injection Hd' as ->.
  destruct (MasterLoader.tensor_max _) as [mx|e] eqn:Hmx; [|done].
  rewrite result_bind_ok in H. cbv zeta in H.
  destruct (MasterLoader.iadd deg _) as [deg'|e] eqn:Hadd; [|done].
  rewrite result_bind_ok in H.
  assert (Hn : MasterLoader.num_nodes g <> 0%nat).
  { intros Hz. rewrite Hz in Hmx. done. }
  unfold MasterLoader.iadd in Hadd. rewrite length_bincount, Hlen in Hadd.
  set (top := foldr Z.max (-1)
                (Z.of_nat <$> (MasterLoader.in_degree g
                                 <$> seq 0 (MasterLoader.num_nodes g)))) in *.
  pose proof (foldr_max_inv B) as Htop.
  destruct (Nat.eqb_spec (Nat.max B (Z.to_nat (top + 1))) B) as [Hsz|Hsz].
  - injection Hadd as <-.
    apply IH in H; [|by rewrite length_zip_with, length_bincount; lia].
    destruct H as [Hwf Hdeg]. split; [by constructor|].
    rewrite in_degrees_cons. apply Forall_app. split; [|done].
    apply Htop. fold top. lia.
  - exfalso.
    assert (Hl : (1 < length (MasterLoader.bincount
                     (Z.of_nat <$> (MasterLoader.in_degree g
                                      <$> seq 0 (MasterLoader.num_nodes g))) B))%nat).
    { rewrite length_bincount. lia. }
    destruct (MasterLoader.bincount _ B) as [|x [|y b]]; simpl in Hl; try lia.
    done.
Qed.

(** [compute_indegree_histogram] returns exactly when every graph has a
    node, every edge points to a node of its graph, and no node has
    1000 or more incoming edges; otherwise it raises. *)
Theorem compute_indegree_histogram_returns (dataset : list MasterLoader.pyg_data) :
  (exists h, MasterLoader.compute_indegree_histogram dataset = Ok h) <->
  Forall MasterLoader.well_formed dataset /\
  Forall (fun d => (d < 1000)%nat) (MasterLoader.in_degrees dataset).
Proof.
  split.
  - intros [h H]. unfold MasterLoader.compute_indegree_histogram in H.
    destruct (MasterLoader.histogram_loop _ _ _) as [r|e] eqn:Hr; [|done].
    apply (histogram_loop_inv 1000) in Hr; [done|lia|].
    apply length_replicate.
  - intros [Hwf Hdeg]. eexists.
    unfold MasterLoader.compute_indegree_histogram.
    pose proof (histogram_loop_spec 1000 dataset [] Hwf Hdeg) as H.
    rewrite <- replicate_hist in H.
    change (Z.of_nat (max_list [])) with 0 in H.
    rewrite H, result_bind_ok. reflexivity.
Qed.

(** A triangle with one doubled edge and a path on two nodes. *)
Lemma compute_indegree_histogram_spec_witness :
  let dataset :=
    [ {| MasterLoader.num_nodes := 3;
         MasterLoader.edge_targets := [1; 2; 0; 0] |};
      {| MasterLoader.num_nodes := 2;
         MasterLoader.edge_targets := [1] |} ] in
  MasterLoader.compute_indegree_histogram dataset
  = Ok ((fun i : nat =>
           Z.of_nat (length (filter (fun d : nat => d = i)
                               (MasterLoader.in_degrees dataset))))
          <$> seq 0 (S (max_list (MasterLoader.in_degrees dataset)))).
Proof.
  intros dataset. apply (compute_indegree_histogram_spec dataset).
  - repeat constructor; try done; simpl; lia.
  - repeat constructor; simpl; lia.
Defined.

Example compute_indegree_histogram_sample :
  MasterLoader.compute_indegree_histogram
    [ {| MasterLoader.num_nodes := 3;
         MasterLoader.edge_targets := [1; 2; 0; 0] |};
      {| MasterLoader.num_nodes := 2;
         MasterLoader.edge_targets := [1] |} ]
  = Ok [1; 3; 1].
Proof. vm_compute. reflexivity. Qed.

(** ** master_loader.py: the names of the positional encodings *)

Section PosencNames.
Variable eval_times : string -> result (list Q).

Lemma kernel_times_cases pe_name p :
  (exists t, MasterLoader.kernel_times eval_times pe_name p = (t, Ok tt) /\
     forall k, MasterLoader.kernel p = Some k ->
               MasterLoader.times_func k <> "" ->
               exists l, eval_times (MasterLoader.times_func k) = Ok l) \/
  (exists e k, MasterLoader.kernel_times eval_times pe_name p = ([], Raise e) /\
     MasterLoader.kernel p = Some k /\
     MasterLoader.times_func k <> "" /\
     eval_times (MasterLoader.times_func k) = Raise e).
Proof.
  unfold MasterLoader.kernel_times. destruct (MasterLoader.kernel p) as [k|].
  - destruct (String.eqb_spec (MasterLoader.times_func k) "") as [He|Hne];
      cbn [negb].
    + left. rewrite bind_ret. eexists. split; [done|].
      intros k' [= <-] Hne. done.
    + destruct (eval_times (MasterLoader.times_func k)) as [l|e] eqn:Hev.
      * left. rewrite bind_lift_ok. eexists. split; [done|].
        intros k' [= <-] _. eauto.
      * right. exists e, k. by rewrite bind_lift_raise.
  - left. eexists. split; [done|]. done.
Qed.

(** When the loop of lines 92-102 returns, the names handed to
    [compute_posenc_stats] are the keys of the configuration that start
    with "posenc_" but not with "posenc_ER" and are enabled, in the
    order of the configuration, each without its prefix "posenc_", and
    every snippet [kernel.times_func] of such a key was evaluated.  The
    loop raises only what the [eval] of line 100 raises on the snippet
    of such a key. *)
Theorem pe_enabled_list_names (its : list (string * MasterLoader.pecfg)) :
  match MasterLoader.pe_enabled_list eval_times its with
  | (t, Ok names) =>
      Forall2 (fun item name => item.1 = "posenc_" +:+ name)
        (filter (fun item => MasterLoader.pe_selected item = true) its) names
      /\ forall item k,
           item ∈ its -> MasterLoader.pe_selected item = true ->
           MasterLoader.kernel item.2 = Some k ->
           MasterLoader.times_func k <> "" ->
           exists l, eval_times (MasterLoader.times_func k) = Ok l
  | (t, Raise e) =>
      exists item k,
        item ∈ its /\ MasterLoader.pe_selected item = true /\
        MasterLoader.kernel item.2 = Some k /\
        MasterLoader.times_func k <> "" /\
        eval_times (MasterLoader.times_func k) = Raise e
  end.
Proof.
  induction its as [|item its IH]; cbn [MasterLoader.pe_enabled_list].
  - split; [constructor|]. intros item k Hin. by apply elem_of_nil in Hin.
  - rewrite filter_cons.
    destruct (MasterLoader.pe_selected item) eqn:Hsel.
    + assert (Hp : String.prefix "posenc_" item.1 = true).
      { unfold MasterLoader.pe_selected in Hsel.
        by apply andb_prop in Hsel as [[? ?]%andb_prop ?]. }
      destruct (posenc_key_split _ Hp) as (pe_name & Hkey & ->).
      rewrite bind_lift_ok.
      destruct (kernel_times_cases pe_name item.2)
        as [(tk & -> & Hk)|(e & k & -> & Hker & Hne & Hev)].
      * rewrite (bind_ok _ _ _ _ eq_refl).
        destruct (MasterLoader.pe_enabled_list eval_times its)
          as [t [names|e]].
        -- rewrite (bind_ok _ _ _ _ eq_refl). cbn [fst snd mret run_ret ret].
           destruct IH as [IH1 IH2]. split; [by constructor|].
           intros item' k Hin Hsel' Hker Hne.
           apply elem_of_cons in Hin as [->|Hin]; [by eapply Hk|].
           by eapply IH2.
        -- rewrite (bind_raise _ _ _ _ eq_refl). cbn [fst snd].
           destruct IH as (item' & k & Hin & ?).
           exists item', k. split; [by apply elem_of_cons; right|done].
      * rewrite (bind_raise _ _ _ _ eq_refl).
        exists item, k. split; [by apply elem_of_cons; left|done].
    + destruct (MasterLoader.pe_enabled_list eval_times its) as [t [names|e]].
      * destruct IH as [IH1 IH2]. split; [done|].
        intros item' k Hin Hsel' Hker Hne.
        apply elem_of_cons in Hin as [->|Hin]; [congruence|].
        by eapply IH2.
      * destruct IH as (item' & k & Hin & ?).
        exists item', k. split; [by apply elem_of_cons; right|done].
Qed.
End PosencNames.

(** The kernel times of the random-walk encoding come from the snippet;
    a snippet that is not iterable ends the loading before anything is
    computed. *)
Example pe_enabled_list_kernel_times :
  MasterLoader.pe_enabled_list MasterLoader.sample_eval
    (MasterLoader.items (MasterLoader.sample_config_rw "range(1, 3)"))
  = ([MasterLoader.EvKernelTimes "RWSE" [1; 2]%Q], Ok ["RWSE"]) /\
  MasterLoader.pe_enabled_list MasterLoader.sample_eval
    (MasterLoader.items (MasterLoader.sample_config_rw "3"))
  = ([], Raise (TypeError "'int' object is not iterable")).
Proof. split; reflexivity. Qed.

(** ** collating_tokengt.py: eigenvalues that stay with their eigenvectors *)

Lemma Qabs_nonneg_eq (x : Q) : (0 <= x)%Q -> Qabs x = x.
Proof.
  destruct x as [n d]. unfold Qle, Qabs. simpl. intros H.
  f_equal. apply Z.abs_eq. lia.
Qed.

Lemma np_sort_sorted_id (l : list Q) :
  StronglySorted Qle l -> Tokengt.np_sort l = l.
Proof.
  induction 1 as [|x l Hs IH Hall]; [done|].
  unfold Tokengt.np_sort in *. cbn [foldr]. rewrite IH.
  destruct l as [|y l]; [done|]. cbn [Tokengt.insert_sorted].
  apply Forall_cons in Hall as [Hxy _].
  apply Qle_bool_iff in Hxy. by rewrite Hxy.
Qed.

(** When [eigh] returns its eigenvalues in non-decreasing order and
    none is negative, [eig] returns them as they are, rounded: the
    [i]-th eigenvalue still belongs to the [i]-th column of the
    eigenvector matrix. *)
Theorem eig_keeps_pairing
    (eigh : Tokengt.matrix -> result (list Q * Tokengt.matrix))
    (single : Q -> Q) (sym_mat : Tokengt.matrix)
    (EigVal : list Q) (EigVec : Tokengt.matrix) :
  eigh sym_mat = Ok (EigVal, EigVec) ->
  StronglySorted Qle EigVal ->
  Forall (fun v => (0 <= v)%Q) EigVal ->
  Tokengt.eig eigh single sym_mat
  = Ok ((fun row : list Q => single <$> row) <$> EigVec, single <$> EigVal).
Proof.
  intros Heigh Hsorted Hpos. unfold Tokengt.eig. rewrite Heigh.
  assert (Habs : Qabs <$> EigVal = EigVal).
  { clear -Hpos. induction Hpos as [|x l Hx _ IH]; [done|].
    by rewrite fmap_cons, IH, Qabs_nonneg_eq. }
  by rewrite Habs, np_sort_sorted_id.
Qed.

(** The spectrum 0, 2 of the normalised Laplacian of a path on two
    nodes. *)
Lemma eig_keeps_pairing_witness :
  Tokengt.eig (fun _ => Ok ([0; 2]%Q, [[1; 1]; [1; -1]]%Q)) id []
  = Ok ((fun row : list Q => id <$> row) <$> [[1; 1]; [1; -1]]%Q,
        id <$> [0; 2]%Q).
Proof.
  apply (eig_keeps_pairing (fun _ => Ok ([0; 2]%Q, [[1; 1]; [1; -1]]%Q)) id []
           [0; 2]%Q [[1; 1]; [1; -1]]%Q).
  - reflexivity.
  - repeat constructor; vm_compute; discriminate.
  - repeat constructor; vm_compute; discriminate.
Defined.

(** * transfer_learning/graphgps_3d/main.py *)

(** ** The output directory *)

Lemma rfind_ge (c : ascii) (p : string) : -1 <= TransferMain.rfind c p.
Proof.
  induction p as [|ch rest IH]; cbn [TransferMain.rfind]; [lia|].
  destruct (Z.leb_spec 0 (TransferMain.rfind c rest)); [lia|].
  destruct (Ascii.eqb ch c); lia.
Qed.

Lemma rfind_none_head (c ch : ascii) (rest : string) :
  TransferMain.rfind c (String ch rest) < 0 -> Ascii.eqb ch c = false.
Proof.
  cbn [TransferMain.rfind]. pose proof (rfind_ge c rest).
  destruct (Z.leb_spec 0 (TransferMain.rfind c rest)); [lia|].
  destruct (Ascii.eqb ch c); [lia|done].
Qed.

Lemma basename_cons (ch : ascii) (rest : string) :
  TransferMain.basename (String ch rest)
  = if 0 <=? TransferMain.rfind "/" rest then TransferMain.basename rest
    else if Ascii.eqb ch "/" then rest else String ch rest.
Proof.
  unfold TransferMain.basename. cbn [TransferMain.rfind].
  pose proof (rfind_ge "/" rest).
  destruct (Z.leb_spec 0 (TransferMain.rfind "/" rest)).
  - replace (Z.to_nat (TransferMain.rfind "/" rest + 1 + 1))
      with (S (Z.to_nat (TransferMain.rfind "/" rest + 1))) by lia.
    done.
  - destruct (Ascii.eqb ch "/"); done.
Qed.

(** A base name does not start with a separator. *)
Lemma basename_no_sep (p : string) :
  starts_with_sep (TransferMain.basename p) = false.
Proof.
  induction p as [|ch rest IH]; [done|]. rewrite basename_cons.
  destruct (Z.leb_spec 0 (TransferMain.rfind "/" rest)) as [|Hr]; [done|].
  destruct (Ascii.eqb ch "/") eqn:Hch.
  - destruct rest as [|ch' rest']; [done|].
    apply rfind_none_head in Hr. cbn [starts_with_sep]. by rewrite Hr.
  - cbn [starts_with_sep]. by rewrite Hch.
Qed.

Lemma starts_with_sep_take (n : nat) (p : string) :
  starts_with_sep (TransferMain.str_take (S n) p) = starts_with_sep p.
Proof. by destruct p. Qed.

Lemma splitext_root_no_sep (p : string) :
  starts_with_sep p = false ->
  starts_with_sep (TransferMain.splitext p).1 = false.
Proof.
  intros Hp. unfold TransferMain.splitext.
  pose proof (rfind_ge "/" p) as Hsep.
  destruct (Z.ltb_spec (TransferMain.rfind "/" p) (TransferMain.rfind "." p))
    as [Hlt|]; [|done].
  cbn [andb].
  destruct (TransferMain.has_non_dot _) eqn:Hnd; [|done].
  cbn [fst].
  destruct (Z.to_nat (TransferMain.rfind "." p)) as [|n] eqn:Hn.
  - done.
  - by rewrite starts_with_sep_take.
Qed.

Lemma starts_with_sep_append (a b : string) :
  starts_with_sep a = false -> starts_with_sep b = false ->
  starts_with_sep (a +:+ b) = false.
Proof. intros Ha Hb. by destruct a. Qed.

(** Whatever the name of the configuration file and the name tag are,
    the new [cfg.out_dir] lies inside the old one: the run name never
    starts with a separator, so [os.path.join] keeps the old
    directory. *)
Theorem custom_set_out_dir_inside (out_dir cfg_fname name_tag : string) :
  String.prefix out_dir
    (TransferMain.custom_set_out_dir out_dir cfg_fname name_tag) = true.
Proof.
  unfold TransferMain.custom_set_out_dir. apply os_path_join_inside.
  apply starts_with_sep_append.
  - apply splitext_root_no_sep, basename_no_sep.
  - by destruct (_ =? _)%nat.
Qed.

(** ** The number of splits and the loggers *)

Lemma count_split_eq (needle : string) (keys : list string) (n : nat) :
  TransferMain.count_split needle keys n
  = (n + if existsb (str_contains needle) keys then 1 else 0)%nat.
Proof.
  induction keys as [|key keys IH]; cbn [TransferMain.count_split existsb].
  - lia.
  - destruct (str_contains needle key); [done|]. by rewrite IH.
Qed.

Lemma create_logger_take (n : nat) :
  (n <= 3)%nat ->
  TransferMain.create_logger n = Ok (take n TransferMain.logger_names).
Proof.
  intros Hn. destruct n as [|[|[|[|n]]]]; try lia; reflexivity.
Qed.

(** [set_dataset_info] counts one split, one more when some key of the
    data contains "val" and one more when some key contains "test"; so
    there are between one and three, [create_logger] never runs out of
    names, and the training function is handed the loggers "train",
    "val", "test" up to that number, whichever keys were found, and
    three times as many, the copies starting with "val" and "test", for
    the two ogbn datasets. *)
Theorem main_loggers_spec (dataset_name : string) (keys : list string) :
  let n := TransferMain.set_dataset_info keys in
  let names := take n ["train"; "val"; "test"] in
  n = (1 + (if existsb (str_contains "val") keys then 1 else 0)
         + (if existsb (str_contains "test") keys then 1 else 0))%nat /\
  TransferMain.main_loggers dataset_name n
  = Ok (if TransferMain.is_ogbn dataset_name
        then names ++ ("val" :: tail names) ++ ("test" :: tail names)
        else names) /\
  forall loggers,
    TransferMain.main_loggers dataset_name n = Ok loggers ->
    length loggers = (if TransferMain.is_ogbn dataset_name then 3 * n else n)%nat.
Proof.
  intros n names.
  assert (Hn : n = (1 + (if existsb (str_contains "val") keys then 1 else 0)
                      + (if existsb (str_contains "test") keys then 1 else 0))%nat).
  { unfold n, TransferMain.set_dataset_info. rewrite !count_split_eq. lia. }
  assert (Hle : (1 <= n <= 3)%nat).
  { rewrite Hn. destruct (existsb _ keys), (existsb _ keys); lia. }
  assert (Hmain : TransferMain.main_loggers dataset_name n
    = Ok (if TransferMain.is_ogbn dataset_name
          then names ++ ("val" :: tail names) ++ ("test" :: tail names)
          else names)).
  { unfold TransferMain.main_loggers.
    rewrite create_logger_take, result_bind_ok by lia.
    destruct (TransferMain.is_ogbn dataset_name); [|done].
    rewrite !result_bind_ok. subst names.
    destruct n as [|[|[|[|n']]]]; try lia; reflexivity. }
  split_and!; [done|done|].
  intros loggers. rewrite Hmain. intros [= <-]. subst names.
  destruct (TransferMain.is_ogbn dataset_name);
    destruct n as [|[|[|[|n']]]]; try lia; reflexivity.
Qed.

(** ** The runs of the main loop *)

(** When [run_loop_settings] returns, its three lists have the same
    length, so that zipping them drops nothing.  Without
    [cfg.run_multiple_splits] there are [args.repeat] runs (none when it
    is not positive); their seeds are [cfg.seed], [cfg.seed + 1], ...,
    they are the run ids, no two runs share a run id, and every run uses
    [cfg.dataset.split_index].  With [cfg.run_multiple_splits],
    [args.repeat] is 1, the run ids are the split indices and every run
    uses [cfg.seed]. *)
Theorem run_loop_settings_spec (cfg : TransferMain.loop_cfg)
    (s : TransferMain.loop_settings) :
  TransferMain.run_loop_settings cfg = TransferMain.Settings s ->
  length (TransferMain.seeds s) = length (TransferMain.run_ids s) /\
  length (TransferMain.split_indices s) = length (TransferMain.run_ids s) /\
  length (TransferMain.runs s) = length (TransferMain.run_ids s) /\
  match TransferMain.run_multiple_splits cfg with
  | [] =>
      length (TransferMain.run_ids s) = Z.to_nat (TransferMain.repeat cfg) /\
      TransferMain.run_ids s = TransferMain.seeds s /\
      NoDup (TransferMain.run_ids s) /\
      (forall k x, TransferMain.seeds s !! k = Some x ->
                   x = TransferMain.seed cfg + Z.of_nat k) /\
      Forall (fun i => i = TransferMain.split_index cfg)
        (TransferMain.split_indices s)
  | splits =>
      TransferMain.repeat cfg = 1 /\
      TransferMain.run_ids s = splits /\
      TransferMain.split_indices s = splits /\
      Forall (fun x => x = TransferMain.seed cfg) (TransferMain.seeds s)
  end.
Proof.
  unfold TransferMain.run_loop_settings, TransferMain.runs.
  destruct (TransferMain.run_multiple_splits cfg) as [|i splits] eqn:Hsplits.
  - cbn [length Nat.eqb]. intros [= <-].
    cbn [TransferMain.run_ids TransferMain.seeds TransferMain.split_indices].
    assert (Hlen : length ((fun x => TransferMain.seed cfg + x)
                             <$> py_range 0 (TransferMain.repeat cfg))
                   = Z.to_nat (TransferMain.repeat cfg)).
    { unfold py_range. rewrite !length_fmap, length_seq. f_equal. lia. }
    assert (Hlookup : forall k x,
              ((fun x => TransferMain.seed cfg + x)
                 <$> py_range 0 (TransferMain.repeat cfg)) !! k = Some x ->
              x = TransferMain.seed cfg + Z.of_nat k).
    { intros k x. unfold py_range. rewrite !list_lookup_fmap.
      destruct (seq 0 _ !! k) as [j|] eqn:Hj; [|done].
      apply lookup_seq in Hj as [-> _]. simpl. intros [= <-]. lia. }
    split_and!.
    + done.
    + by rewrite length_replicate, Hlen.
    + rewrite !length_zip, length_replicate, Hlen. lia.
    + done.
    + done.
    + apply NoDup_alt. intros k1 k2 x H1 H2.
      apply Hlookup in H1, H2. lia.
    + done.
    + apply Forall_replicate. done.
  - cbn [length Nat.eqb].
    destruct (Z.eqb_spec (TransferMain.repeat cfg) 1) as [Hr|]; [|done].
    cbn [negb]. intros [= <-].
    cbn [TransferMain.run_ids TransferMain.seeds TransferMain.split_indices].
    split_and!; try done.
    + simpl. by rewrite length_replicate.
    + simpl. rewrite !length_zip, length_replicate. lia.
    + constructor; [done|]. by apply Forall_replicate.
Qed.

(** Three repeats from seed 41. *)
Lemma run_loop_settings_spec_witness :
  let cfg := {| TransferMain.run_multiple_splits := [];
                TransferMain.seed := 41; TransferMain.split_index := 0;
                TransferMain.repeat := 3 |} in
  let s := {| TransferMain.run_ids := [41; 42; 43];
              TransferMain.seeds := [41; 42; 43];
              TransferMain.split_indices := [0; 0; 0] |} in
  length (TransferMain.seeds s) = length (TransferMain.run_ids s) /\
  length (TransferMain.split_indices s) = length (TransferMain.run_ids s) /\
  length (TransferMain.runs s) = length (TransferMain.run_ids s) /\
  match TransferMain.run_multiple_splits cfg with
  | [] =>
      length (TransferMain.run_ids s) = Z.to_nat (TransferMain.repeat cfg) /\
      TransferMain.run_ids s = TransferMain.seeds s /\
      NoDup (TransferMain.run_ids s) /\
      (forall k x, TransferMain.seeds s !! k = Some x ->
                   x = TransferMain.seed cfg + Z.of_nat k) /\
      Forall (fun i => i = TransferMain.split_index cfg)
        (TransferMain.split_indices s)
  | splits =>
      TransferMain.repeat cfg = 1 /\
      TransferMain.run_ids s = splits /\
      TransferMain.split_indices s = splits /\
      Forall (fun x => x = TransferMain.seed cfg) (TransferMain.seeds s)
  end.
Proof.
  intros cfg s. apply (run_loop_settings_spec cfg s). reflexivity.
Defined.
